(** * Vibecraft integration of OpenClaw: event transformation and delivery

    A shallow embedding of the three near-duplicate TypeScript modules that
    forward agent events to the Vibecraft visualisation server:

    - [Adapter]      src/infra/vibecraft-adapter.ts
    - [Integration]  src/infra/vibecraft-integration.ts
    - [Plugin]       src/plugins/builtin/vibecraft-plugin.ts

    Module-level [let] variables become fields of an explicit [World]; a
    function of the source becomes a computation in the monad [M], which
    threads the world and can complete normally or by a thrown value.
    Results that the source obtains from its environment (the clock, the
    random generator, the destination server, the file system) are read
    from an [Ambient] record handed to each call.  Timestamps and sequence
    numbers are integers (epoch milliseconds, counters). *)

From stdpp Require Import base option list gmap strings pretty.
From Stdlib Require Import ZArith Lia.

Local Open Scope string_scope.
Local Open Scope Z_scope.

Set Warnings "-register-all".

(** ** JavaScript values and completions *)

(** The values a free-form payload property can hold.  [undefined] is not a
    constructor: a property that is missing and a property that holds
    [undefined] read the same, and are [None] at the reading site. *)
Inductive jsval : Type :=
  | JNull
  | JBool (b : bool)
  | JNum (n : Z)
  | JStr (s : string)
  | JObj (fields : list (string * jsval)).

(** ToBoolean, for the operands of [||] and [?:]. *)
Definition truthy (v : jsval) : bool :=
  match v with
  | JNull => false
  | JBool b => b
  | JNum n => negb (n =? 0)
  | JStr s => negb (String.eqb s "")
  | JObj _ => true
  end.

(** [s || fallback] for an operand of type [string | undefined]. *)
Definition str_or (s : option string) (fallback : string) : string :=
  match s with
  | Some x => if String.eqb x "" then fallback else x
  | None => fallback
  end.

(** [v || {}] for an operand of type [unknown]. *)
Definition val_or_empty (v : option jsval) : jsval :=
  match v with
  | Some x => if truthy x then x else JObj []
  | None => JObj []
  end.

(** [s.slice(from, to)] with [0 <= from <= to].  Strings are byte strings
    here and sequences of UTF-16 code units in the source; the two slices
    differ on non-ASCII text only, which reaches the console and nothing
    else. *)
Definition slice (from to : nat) (s : string) : string :=
  String.substring from (to - from)%nat s.

Inductive JsError : Type :=
  | TypeError (msg : string)
  | DOMException (name : string)
  | SystemError (code : string).

Inductive Completion (A : Type) : Type :=
  | Normal (a : A)
  | Throw (e : JsError).
Arguments Normal {A} a.
Arguments Throw {A} e.

(** A promise, observed once settled. *)
Inductive Promise (A : Type) : Type :=
  | Fulfilled (a : A)
  | Rejected (e : JsError).
Arguments Fulfilled {A} a.
Arguments Rejected {A} e.

(** ** The monad of world-passing computations that may throw *)

Definition M (W A : Type) : Type := W → Completion A * W.

Definition ret {W A} (a : A) : M W A := λ w, (Normal a, w).

Definition bind {W A B} (m : M W A) (k : A → M W B) : M W B :=
  λ w, match m w with
       | (Normal a, w') => k a w'
       | (Throw e, w') => (Throw e, w')
       end.

Definition throw {W A} (e : JsError) : M W A := λ w, (Throw e, w).

(** [try { body } catch (err) { handler }] *)
Definition try_catch {W A} (body : M W A) (handler : JsError → M W A) : M W A :=
  λ w, match body w with
       | (Normal a, w') => (Normal a, w')
       | (Throw e, w') => handler e w'
       end.

Definition gets {W A} (f : W → A) : M W A := λ w, (Normal (f w), w).
Definition modify {W} (f : W → W) : M W unit := λ w, (Normal tt, f w).

(** Calling an [async function]: the body runs and the call itself
    completes normally with a promise, rejected if the body threw.  Bodies
    are run to settlement at the call; the interleaving of bodies in flight
    is not represented. *)
Definition async {W A} (body : M W A) : M W (Promise A) :=
  λ w, match body w with
       | (Normal a, w') => (Normal (Fulfilled a), w')
       | (Throw e, w') => (Normal (Rejected e), w')
       end.

(** [await p] *)
Definition await {W A} (p : Promise A) : M W A :=
  match p with
  | Fulfilled a => ret a
  | Rejected e => throw e
  end.

(** [p.catch(() => v)] *)
Definition promise_catch {A} (p : Promise A) (v : A) : Promise A :=
  match p with
  | Fulfilled a => Fulfilled a
  | Rejected _ => Fulfilled v
  end.

Declare Scope js_scope.
Delimit Scope js_scope with js.
Notation "x <- m ; k" := (bind m (λ x, k))
  (at level 100, m at next level, right associativity) : js_scope.
Notation "m ;;; k" := (bind m (λ _, k))
  (at level 100, right associativity) : js_scope.
Local Open Scope js_scope.

(** ** Events of the host runtime *)

Module AgentEvents.

(** Modelled from the spec: src/infra/agent-events.ts, the declaration of
    [AgentEventPayload] and of [onAgentEvent], is not among the sources.
    The payload [data] is a free-form mapping; the record carries the
    properties the transformers read, each at the type the reading site
    casts it to, [None] standing for [undefined]. *)
Record EventData : Type := {
  phase : option string;
  toolName : option string;
  toolUseId : option string;
  params : option jsval;
  result : option jsval;
  error : option string;
  assistantText : option string;
}.

Record AgentEventPayload : Type := {
  runId : string;
  seq : Z;
  stream : string;
  ts : Z;
  data : EventData;
  sessionKey : option string;
}.

(** Modelled from the spec: "a subscribable event stream [...];
    subscription returns an unsubscribe handle".  A subscription is the
    number it was given; the handle removes that number, and removing a
    number that is no longer subscribed does nothing. *)
Record Host : Type := {
  listeners : gset nat;
  next_listener : nat;
}.

Definition no_listeners : Host := {| listeners := ∅; next_listener := 0 |}.

Definition onAgentEvent (h : Host) : nat * Host :=
  (next_listener h,
   {| listeners := {[ next_listener h ]} ∪ listeners h;
      next_listener := S (next_listener h) |}).

Definition unsubscribe (sub : nat) (h : Host) : Host :=
  {| listeners := listeners h ∖ {[ sub ]};
     next_listener := next_listener h |}.

End AgentEvents.

(** ** Events of the visualisation server *)

Record BaseVibecraftEvent : Type := {
  ev_id : string;
  ev_timestamp : Z;
  ev_sessionId : string;
  ev_cwd : string;
}.

Inductive VibecraftEvent : Type :=
  | PreToolUseEvent (base : BaseVibecraftEvent) (tool : option string)
      (toolInput : jsval) (toolUseId : string) (assistantText : option string)
  | PostToolUseEvent (base : BaseVibecraftEvent) (tool : option string)
      (toolInput : jsval) (toolResponse : jsval) (toolUseId : string)
      (success : bool) (duration : option Z)
  | StopEvent (base : BaseVibecraftEvent) (stopHookActive : bool)
      (response : option jsval)
  | SessionStartEvent (base : BaseVibecraftEvent) (source : string)
  | SessionEndEvent (base : BaseVibecraftEvent) (reason : string)
  | UserPromptSubmitEvent (base : BaseVibecraftEvent) (prompt : string)
  | NotificationEvent (base : BaseVibecraftEvent) (message : string)
      (notificationType : string).

Definition ev_base (e : VibecraftEvent) : BaseVibecraftEvent :=
  match e with
  | PreToolUseEvent b _ _ _ _ | PostToolUseEvent b _ _ _ _ _ _
  | StopEvent b _ _ | SessionStartEvent b _ | SessionEndEvent b _
  | UserPromptSubmitEvent b _ | NotificationEvent b _ _ => b
  end.

(** The [type] tag of an event. *)
Definition ev_type (e : VibecraftEvent) : string :=
  match e with
  | PreToolUseEvent _ _ _ _ _ => "pre_tool_use"
  | PostToolUseEvent _ _ _ _ _ _ _ => "post_tool_use"
  | StopEvent _ _ _ => "stop"
  | SessionStartEvent _ _ => "session_start"
  | SessionEndEvent _ _ => "session_end"
  | UserPromptSubmitEvent _ _ => "user_prompt_submit"
  | NotificationEvent _ _ _ => "notification"
  end.

(** Reading [e.duration] and [e.success]: [None] where the property is
    missing or [undefined]. *)
Definition ev_duration (e : VibecraftEvent) : option Z :=
  match e with
  | PostToolUseEvent _ _ _ _ _ _ d => d
  | _ => None
  end.

Definition ev_success (e : VibecraftEvent) : option bool :=
  match e with
  | PostToolUseEvent _ _ _ _ _ s _ => Some s
  | _ => None
  end.

(** ** The environment of one call *)

(** How the destination server behaves for one request. *)
Inductive Destination : Type :=
  | Unreachable
  | Hangs
  | Responds (after_ms : Z) (status : Z).

Record Ambient : Type := {
  Date_now : Z;
  (** [Math.random().toString(36)] *)
  Math_random_36 : string;
  (** [JSON.stringify(event)], [None] when it throws *)
  JSON_stringify : VibecraftEvent → option string;
  destination : Destination;
  (** [response.text()], [None] when it rejects *)
  response_text : option string;
  (** [process.cwd()] *)
  process_cwd : string;
  (** [import('node:fs/promises')] resolves *)
  fs_import : bool;
  (** [fs.appendFile(path, line)] resolves *)
  fs_appendFile : bool;
}.

(** What the modules do to the outside: requests issued (url, body), lines
    appended (path, line), and console output. *)
Record IoLog : Type := {
  posts : list (string * string);
  appends : list (string * string);
  console : list string;
}.

Definition no_io : IoLog := {| posts := []; appends := []; console := [] |}.

Definition io_post (url body : string) (l : IoLog) : IoLog :=
  {| posts := posts l ++ [(url, body)]; appends := appends l; console := console l |}.
Definition io_append (path line : string) (l : IoLog) : IoLog :=
  {| posts := posts l; appends := appends l ++ [(path, line)]; console := console l |}.
Definition io_print (msg : string) (l : IoLog) : IoLog :=
  {| posts := posts l; appends := appends l; console := console l ++ [msg] |}.

Record Response : Type := { status : Z }.

(** [response.ok] *)
Definition ok (r : Response) : bool := (200 <=? status r) && (status r <=? 299).

(** The promise [fetch] returns for a request whose signal aborts after
    [timeout_ms] with a [DOMException] named [abort]. *)
Definition fetch_outcome (timeout_ms : Z) (abort : string) (d : Destination)
  : Promise Response :=
  match d with
  | Unreachable => Rejected (TypeError "fetch failed")
  | Hangs => Rejected (DOMException abort)
  | Responds after_ms st =>
      if after_ms <? timeout_ms then Fulfilled {| status := st |}
      else Rejected (DOMException abort)
  end.

(** [`${sessionId}-${Date.now()}-${Math.random().toString(36).slice(2, 9)}`] *)
Definition generateEventId (env : Ambient) (sessionId : string) : string :=
  sessionId +:+ "-" +:+ pretty (Date_now env) +:+ "-" +:+ slice 2 9 (Math_random_36 env).

Definition newline : string := String (Ascii.ascii_of_nat 10) "".

(** A promise that nobody awaits: its rejection surfaces as an unhandled
    rejection of the process. *)
Definition floating {W A} (p : Promise A) : M W unit :=
  match p with
  | Fulfilled _ => ret tt
  | Rejected e => throw e
  end.

(** [evt.sessionKey || evt.runId] *)
Definition resolveSessionId (evt : AgentEvents.AgentEventPayload) : string :=
  str_or (AgentEvents.sessionKey evt) (AgentEvents.runId evt).

(** [evt.data.toolUseId as string || `${sessionId}-${evt.seq}`] *)
Definition resolveToolUseId (evt : AgentEvents.AgentEventPayload) : string :=
  str_or (AgentEvents.toolUseId (AgentEvents.data evt))
         (resolveSessionId evt +:+ "-" +:+ pretty (AgentEvents.seq evt)).

(** [startTime ? evt.ts - startTime : undefined]: the test is on the
    truthiness of the number read from the map, and 0 is falsy. *)
Definition durationSince (startTime : option Z) (now : Z) : option Z :=
  match startTime with
  | Some t => if t =? 0 then None else Some (now - t)
  | None => None
  end.

(** ** src/infra/vibecraft-adapter.ts *)

Module Adapter.

(** [VibecraftAdapterConfig], every property optional. *)
Record VibecraftAdapterConfig : Type := {
  enabled_opt : option bool;
  serverUrl_opt : option string;
  eventsFilePath_opt : option string;
  cwd_opt : option string;
  debug_opt : option bool;
}.

(** [Required<VibecraftAdapterConfig>] *)
Record Config : Type := {
  enabled : bool;
  serverUrl : string;
  eventsFilePath : string;
  cwd : string;
  debug : bool;
}.

(** [DEFAULT_CONFIG], given the value [process.cwd()] had when the module
    was loaded. *)
Definition DEFAULT_CONFIG (process_cwd : string) : Config :=
  {| enabled := false;
     serverUrl := "http://localhost:4003/event";
     eventsFilePath := "";
     cwd := process_cwd;
     debug := false |}.

(** [{ ...defaults, ...userConfig }] *)
Definition merge (defaults : Config) (userConfig : VibecraftAdapterConfig) : Config :=
  {| enabled := default (enabled defaults) (enabled_opt userConfig);
     serverUrl := default (serverUrl defaults) (serverUrl_opt userConfig);
     eventsFilePath := default (eventsFilePath defaults) (eventsFilePath_opt userConfig);
     cwd := default (cwd defaults) (cwd_opt userConfig);
     debug := default (debug defaults) (debug_opt userConfig) |}.

(** The module's state ([defaults] is the constant [DEFAULT_CONFIG]),
    the host's listeners and the effects so far. *)
Record World : Type := {
  defaults : Config;
  config : Config;
  unsubscribeAgentEvents : option nat;
  toolUseStartTime : gmap string Z;
  host : AgentEvents.Host;
  io : IoLog;
}.

Definition initial (process_cwd : string) : World :=
  {| defaults := DEFAULT_CONFIG process_cwd;
     config := DEFAULT_CONFIG process_cwd;
     unsubscribeAgentEvents := None;
     toolUseStartTime := ∅;
     host := AgentEvents.no_listeners;
     io := no_io |}.

Definition set_config (c : Config) (w : World) : World :=
  {| defaults := defaults w; config := c;
     unsubscribeAgentEvents := unsubscribeAgentEvents w;
     toolUseStartTime := toolUseStartTime w; host := host w; io := io w |}.
Definition set_unsubscribeAgentEvents (u : option nat) (w : World) : World :=
  {| defaults := defaults w; config := config w;
     unsubscribeAgentEvents := u;
     toolUseStartTime := toolUseStartTime w; host := host w; io := io w |}.
Definition set_toolUseStartTime (t : gmap string Z) (w : World) : World :=
  {| defaults := defaults w; config := config w;
     unsubscribeAgentEvents := unsubscribeAgentEvents w;
     toolUseStartTime := t; host := host w; io := io w |}.
Definition set_host (h : AgentEvents.Host) (w : World) : World :=
  {| defaults := defaults w; config := config w;
     unsubscribeAgentEvents := unsubscribeAgentEvents w;
     toolUseStartTime := toolUseStartTime w; host := h; io := io w |}.
Definition set_io (l : IoLog) (w : World) : World :=
  {| defaults := defaults w; config := config w;
     unsubscribeAgentEvents := unsubscribeAgentEvents w;
     toolUseStartTime := toolUseStartTime w; host := host w; io := l |}.

Definition logDebug (message : string) : M World unit :=
  λ w, if debug (config w)
       then (Normal tt, set_io (io_print ("[vibecraft-adapter] " +:+ message) (io w)) w)
       else (Normal tt, w).

Definition logError (message : string) : M World unit :=
  modify (λ w, set_io (io_print ("[vibecraft-adapter] ERROR: " +:+ message) (io w)) w).

(** [JSON.stringify(event)] *)
Definition stringify (env : Ambient) (event : VibecraftEvent) : M World string :=
  match JSON_stringify env event with
  | Some s => ret s
  | None => throw (TypeError "Converting circular structure to JSON")
  end.

(** [fetch(url, { method: 'POST', body, signal: AbortSignal.timeout(2000) })] *)
Definition fetch (env : Ambient) (url body : string) : M World (Promise Response) :=
  modify (λ w, set_io (io_post url body (io w)) w);;;
  ret (fetch_outcome 2000 "TimeoutError" (destination env)).

Definition sendToVibecraft (event : VibecraftEvent) (env : Ambient) : M World (Promise unit) :=
  async (
    on <- gets (λ w, enabled (config w));
    if negb on then ret tt
    else
      try_catch (
        s <- stringify env event;
        logDebug ("Sending event: " +:+ slice 0 200 s +:+ "...");;;
        url <- gets (λ w, serverUrl (config w));
        body <- stringify env event;
        p <- fetch env url body;
        response <- await p;
        if negb (ok response) then
          let text := default "" (response_text env) in
          logError ("Server responded with " +:+ pretty (status response) +:+ " " +:+ text)
        else ret tt)
      (λ err, logDebug "Failed to send event (server may not be running)")).

Definition appendToEventsFile (event : VibecraftEvent) (env : Ambient) : M World (Promise unit) :=
  async (
    path <- gets (λ w, eventsFilePath (config w));
    if String.eqb path "" then ret tt
    else
      try_catch (
        (if fs_import env then ret tt else throw (SystemError "ERR_MODULE_NOT_FOUND"));;;
        s <- stringify env event;
        let line := s +:+ newline in
        path <- gets (λ w, eventsFilePath (config w));
        (if fs_appendFile env
         then modify (λ w, set_io (io_append path line (io w)) w)
         else throw (SystemError "EACCES"));;;
        logDebug ("Appended to events file: " +:+ path))
      (λ err, logError "Failed to write to events file")).

Definition transformAgentEvent (evt : AgentEvents.AgentEventPayload) (env : Ambient)
  : M World (option VibecraftEvent) :=
  let sessionId := resolveSessionId evt in
  dir <- gets (λ w, cwd (config w));
  let baseEvent :=
    {| ev_id := generateEventId env sessionId;
       ev_timestamp := AgentEvents.ts evt;
       ev_sessionId := sessionId;
       ev_cwd := dir |} in
  let d := AgentEvents.data evt in
  if bool_decide (AgentEvents.stream evt = "lifecycle") then
    if bool_decide (AgentEvents.phase d = Some "start") then
      ret (Some (SessionStartEvent baseEvent "startup"))
    else if bool_decide (AgentEvents.phase d = Some "end") then
      ret (Some (StopEvent baseEvent false (AgentEvents.result d)))
    else ret None
  else if bool_decide (AgentEvents.stream evt = "tool") then
    if bool_decide (AgentEvents.phase d = Some "pre") then
      let toolUseId := resolveToolUseId evt in
      modify (λ w, set_toolUseStartTime
                     (<[toolUseId := AgentEvents.ts evt]> (toolUseStartTime w)) w);;;
      ret (Some (PreToolUseEvent baseEvent (AgentEvents.toolName d)
                   (val_or_empty (AgentEvents.params d)) toolUseId
                   (AgentEvents.assistantText d)))
    else if bool_decide (AgentEvents.phase d = Some "post") then
      let toolUseId := resolveToolUseId evt in
      startTime <- gets (λ w, toolUseStartTime w !! toolUseId);
      let duration := durationSince startTime (AgentEvents.ts evt) in
      ret (Some (PostToolUseEvent baseEvent (AgentEvents.toolName d)
                   (val_or_empty (AgentEvents.params d))
                   (val_or_empty (AgentEvents.result d)) toolUseId
                   (bool_decide (AgentEvents.error d = None)) duration))
    else ret None
  else if bool_decide (AgentEvents.stream evt = "assistant") then
    ret None
  else if bool_decide (AgentEvents.stream evt = "error") then
    ret (Some (NotificationEvent baseEvent
                 (str_or (AgentEvents.error d) "Unknown error") "error"))
  else ret None.

(** The two deliveries the listener starts for a transformed event:
    [sendToVibecraft(e).catch(() => {}); appendToEventsFile(e).catch(() => {})]. *)
Definition dispatch (event : VibecraftEvent) (env : Ambient) : M World unit :=
  p <- sendToVibecraft event env;
  floating (promise_catch p tt);;;
  q <- appendToEventsFile event env;
  floating (promise_catch q tt).

(** The callback given to [onAgentEvent]. *)
Definition listener (evt : AgentEvents.AgentEventPayload) (env : Ambient) : M World unit :=
  vibecraftEvent <- transformAgentEvent evt env;
  match vibecraftEvent with
  | Some e => dispatch e env
  | None => ret tt
  end.

(** The two functions [setupVibecraftIntegration] can return: [() => {}]
    and the cleanup closure, which reads and writes the module's
    variables only. *)
Inductive Cleanup : Type := Noop | CleanupIntegration.

Definition setupVibecraftIntegration (userConfig : VibecraftAdapterConfig) : M World Cleanup :=
  modify (λ w, set_config (merge (defaults w) userConfig) w);;;
  on <- gets (λ w, enabled (config w));
  if negb on then
    logDebug "Vibecraft integration disabled";;;
    ret Noop
  else
    logDebug "Setting up Vibecraft integration";;;
    modify (λ w, let '(sub, h) := AgentEvents.onAgentEvent (host w) in
                 set_unsubscribeAgentEvents (Some sub) (set_host h w));;;
    logDebug "Vibecraft integration active";;;
    ret CleanupIntegration.

Definition call (f : Cleanup) : M World unit :=
  match f with
  | Noop => ret tt
  | CleanupIntegration =>
      logDebug "Cleaning up Vibecraft integration";;;
      u <- gets unsubscribeAgentEvents;
      match u with
      | Some sub => modify (λ w, set_host (AgentEvents.unsubscribe sub (host w)) w)
      | None => ret tt
      end;;;
      modify (set_unsubscribeAgentEvents None);;;
      modify (set_toolUseStartTime ∅)
  end.

(** The host delivers a list of events, one call of the listener each. *)
Fixpoint deliver (evts : list (AgentEvents.AgentEventPayload * Ambient)) : M World unit :=
  match evts with
  | [] => ret tt
  | (evt, env) :: rest => listener evt env;;; deliver rest
  end.

(** A run of [transformAgentEvent] over a list of events, results dropped. *)
Fixpoint transformAll (evts : list (AgentEvents.AgentEventPayload * Ambient)) : M World unit :=
  match evts with
  | [] => ret tt
  | (evt, env) :: rest => transformAgentEvent evt env;;; transformAll rest
  end.

End Adapter.

(** ** src/infra/vibecraft-integration.ts *)

Module Integration.

(** [VibecraftIntegrationOptions], every property optional. *)
Record VibecraftIntegrationOptions : Type := {
  enabled_opt : option bool;
  serverUrl_opt : option string;
  debug_opt : option bool;
  cwd_opt : option string;
}.

(** [Required<VibecraftIntegrationOptions>] *)
Record Options : Type := {
  enabled : bool;
  serverUrl : string;
  debug : bool;
  cwd : string;
}.

Definition DEFAULT_OPTIONS (process_cwd : string) : Options :=
  {| enabled := false;
     serverUrl := "http://localhost:4003/event";
     debug := false;
     cwd := process_cwd |}.

(** [{ ...defaults, ...userOptions }] *)
Definition merge (defaults : Options) (userOptions : VibecraftIntegrationOptions) : Options :=
  {| enabled := default (enabled defaults) (enabled_opt userOptions);
     serverUrl := default (serverUrl defaults) (serverUrl_opt userOptions);
     debug := default (debug defaults) (debug_opt userOptions);
     cwd := default (cwd defaults) (cwd_opt userOptions) |}.

Record World : Type := {
  defaults : Options;
  options : Options;
  unsubscribe : option nat;
  toolStartTimes : gmap string Z;
  host : AgentEvents.Host;
  io : IoLog;
}.

Definition initial (process_cwd : string) : World :=
  {| defaults := DEFAULT_OPTIONS process_cwd;
     options := DEFAULT_OPTIONS process_cwd;
     unsubscribe := None;
     toolStartTimes := ∅;
     host := AgentEvents.no_listeners;
     io := no_io |}.

Definition set_options (o : Options) (w : World) : World :=
  {| defaults := defaults w; options := o; unsubscribe := unsubscribe w;
     toolStartTimes := toolStartTimes w; host := host w; io := io w |}.
Definition set_unsubscribe (u : option nat) (w : World) : World :=
  {| defaults := defaults w; options := options w; unsubscribe := u;
     toolStartTimes := toolStartTimes w; host := host w; io := io w |}.
Definition set_toolStartTimes (t : gmap string Z) (w : World) : World :=
  {| defaults := defaults w; options := options w; unsubscribe := unsubscribe w;
     toolStartTimes := t; host := host w; io := io w |}.
Definition set_host (h : AgentEvents.Host) (w : World) : World :=
  {| defaults := defaults w; options := options w; unsubscribe := unsubscribe w;
     toolStartTimes := toolStartTimes w; host := h; io := io w |}.
Definition set_io (l : IoLog) (w : World) : World :=
  {| defaults := defaults w; options := options w; unsubscribe := unsubscribe w;
     toolStartTimes := toolStartTimes w; host := host w; io := l |}.

Definition logDebug (message : string) : M World unit :=
  λ w, if debug (options w)
       then (Normal tt, set_io (io_print ("[vibecraft] " +:+ message) (io w)) w)
       else (Normal tt, w).

Definition stringify (env : Ambient) (event : VibecraftEvent) : M World string :=
  match JSON_stringify env event with
  | Some s => ret s
  | None => throw (TypeError "Converting circular structure to JSON")
  end.

(** [fetch(url, { method: 'POST', body, signal: controller.signal })], the
    controller being aborted by a timer after 2000 ms. *)
Definition fetch (env : Ambient) (url body : string) : M World (Promise Response) :=
  modify (λ w, set_io (io_post url body (io w)) w);;;
  ret (fetch_outcome 2000 "AbortError" (destination env)).

Definition sendEvent (event : VibecraftEvent) (env : Ambient) : M World (Promise unit) :=
  async (
    on <- gets (λ w, enabled (options w));
    if negb on then ret tt
    else
      try_catch (
        s <- stringify env event;
        logDebug ("发送事件: " +:+ slice 0 150 s +:+ "...");;;
        url <- gets (λ w, serverUrl (options w));
        body <- stringify env event;
        p <- fetch env url body;
        response <- await p;
        if negb (ok response) then
          logDebug ("服务器响应: " +:+ pretty (status response))
        else logDebug "事件已发送")
      (λ err, logDebug "发送失败 (服务器可能未运行)")).

Definition transformEvent (evt : AgentEvents.AgentEventPayload) (env : Ambient)
  : M World (option VibecraftEvent) :=
  let sessionId := resolveSessionId evt in
  dir <- gets (λ w, cwd (options w));
  let baseEvent :=
    {| ev_id := generateEventId env sessionId;
       ev_timestamp := AgentEvents.ts evt;
       ev_sessionId := sessionId;
       ev_cwd := dir |} in
  let d := AgentEvents.data evt in
  let lifecycle (rest : M World (option VibecraftEvent)) :=
    if bool_decide (AgentEvents.stream evt = "lifecycle") then
      if bool_decide (AgentEvents.phase d = Some "start") then
        ret (Some (SessionStartEvent baseEvent "startup"))
      else if bool_decide (AgentEvents.phase d = Some "end") then
        ret (Some (StopEvent baseEvent false (AgentEvents.result d)))
      else rest
    else rest in
  let tool (rest : M World (option VibecraftEvent)) :=
    if bool_decide (AgentEvents.stream evt = "tool") then
      let toolName := AgentEvents.toolName d in
      let toolUseId := resolveToolUseId evt in
      if bool_decide (AgentEvents.phase d = Some "pre") then
        modify (λ w, set_toolStartTimes
                       (<[toolUseId := AgentEvents.ts evt]> (toolStartTimes w)) w);;;
        ret (Some (PreToolUseEvent baseEvent toolName
                     (val_or_empty (AgentEvents.params d)) toolUseId
                     (AgentEvents.assistantText d)))
      else if bool_decide (AgentEvents.phase d = Some "post") then
        startTime <- gets (λ w, toolStartTimes w !! toolUseId);
        let duration := durationSince startTime (AgentEvents.ts evt) in
        ret (Some (PostToolUseEvent baseEvent toolName
                     (val_or_empty (AgentEvents.params d))
                     (val_or_empty (AgentEvents.result d)) toolUseId
                     (bool_decide (AgentEvents.error d = None)) duration))
      else rest
    else rest in
  let assistant (rest : M World (option VibecraftEvent)) :=
    if bool_decide (AgentEvents.stream evt = "assistant") then rest else rest in
  let error (rest : M World (option VibecraftEvent)) :=
    if bool_decide (AgentEvents.stream evt = "error") then
      ret (Some (NotificationEvent baseEvent
                   (str_or (AgentEvents.error d) "未知错误") "error"))
    else rest in
  lifecycle (tool (assistant (error (ret None)))).

(** The delivery the listener starts for a transformed event:
    [sendEvent(e).catch(() => {})]. *)
Definition dispatch (event : VibecraftEvent) (env : Ambient) : M World unit :=
  p <- sendEvent event env;
  floating (promise_catch p tt).

(** The callback given to [onAgentEvent]. *)
Definition listener (evt : AgentEvents.AgentEventPayload) (env : Ambient) : M World unit :=
  vibecraftEvent <- transformEvent evt env;
  match vibecraftEvent with
  | Some e => dispatch e env
  | None => ret tt
  end.

Inductive Cleanup : Type := Noop | CleanupIntegration.

(** [enableVibecraft(userOptions)].  The announcement reads the clock once
    inside [generateId] and once for its timestamp; both readings are
    [Date_now env] here, and no property below relates the two. *)
Definition enableVibecraft (userOptions : VibecraftIntegrationOptions) (env : Ambient)
  : M World Cleanup :=
  modify (λ w, set_options (merge (defaults w) userOptions) w);;;
  on <- gets (λ w, enabled (options w));
  if negb on then
    logDebug "Vibecraft 集成已禁用";;;
    ret Noop
  else
    logDebug "启用 Vibecraft 集成";;;
    url <- gets (λ w, serverUrl (options w));
    logDebug ("  服务器: " +:+ url);;;
    dir <- gets (λ w, cwd (options w));
    logDebug ("  工作目录: " +:+ dir);;;
    modify (λ w, let '(sub, h) := AgentEvents.onAgentEvent (host w) in
                 set_unsubscribe (Some sub) (set_host h w));;;
    dir <- gets (λ w, cwd (options w));
    dispatch (NotificationEvent
                {| ev_id := generateEventId env "system";
                   ev_timestamp := Date_now env;
                   ev_sessionId := "system";
                   ev_cwd := dir |}
                "Vibecraft 集成已启用" "info") env;;;
    logDebug "Vibecraft 集成已就绪!";;;
    ret CleanupIntegration.

Definition call (f : Cleanup) : M World unit :=
  match f with
  | Noop => ret tt
  | CleanupIntegration =>
      logDebug "禁用 Vibecraft 集成";;;
      u <- gets unsubscribe;
      match u with
      | Some sub => modify (λ w, set_host (AgentEvents.unsubscribe sub (host w)) w)
      | None => ret tt
      end;;;
      modify (set_unsubscribe None);;;
      modify (set_toolStartTimes ∅)
  end.

Fixpoint deliver (evts : list (AgentEvents.AgentEventPayload * Ambient)) : M World unit :=
  match evts with
  | [] => ret tt
  | (evt, env) :: rest => listener evt env;;; deliver rest
  end.

Fixpoint transformAll (evts : list (AgentEvents.AgentEventPayload * Ambient)) : M World unit :=
  match evts with
  | [] => ret tt
  | (evt, env) :: rest => transformEvent evt env;;; transformAll rest
  end.

End Integration.

(** ** src/plugins/builtin/vibecraft-plugin.ts *)

Module Plugin.

(** [Required<VibecraftPluginConfig>] *)
Record Config : Type := {
  enabled : bool;
  serverUrl : string;
  eventsFilePath : string;
  debug : bool;
}.

Definition DEFAULT_CONFIG : Config :=
  {| enabled := true;
     serverUrl := "http://localhost:4003/event";
     eventsFilePath := "";
     debug := false |}.

Record World : Type := {
  config : Config;
  io : IoLog;
}.

Definition set_io (l : IoLog) (w : World) : World :=
  {| config := config w; io := l |}.

Definition console_log (message : string) : M World unit :=
  modify (λ w, set_io (io_print message (io w)) w).

(** Modelled from the spec: src/plugins/types.ts is not among the sources.
    The hook context and the hook events carry the properties the
    handlers read. *)
Record HookContext : Type := {
  agentId : string;
  sessionKey : option string;
  toolName : string;
  toolCallId : option string;
}.

Record PluginHookAfterToolCallEvent : Type := {
  params : option jsval;
  result : option jsval;
  error : option string;
}.

Definition stringify (env : Ambient) (event : VibecraftEvent) : M World string :=
  match JSON_stringify env event with
  | Some s => ret s
  | None => throw (TypeError "Converting circular structure to JSON")
  end.

Definition fetch (env : Ambient) (url body : string) : M World (Promise Response) :=
  modify (λ w, set_io (io_post url body (io w)) w);;;
  ret (fetch_outcome 2000 "TimeoutError" (destination env)).

Definition sendToVibecraft (event : VibecraftEvent) (env : Ambient) : M World (Promise unit) :=
  async (
    try_catch (
      url <- gets (λ w, serverUrl (config w));
      body <- stringify env event;
      p <- fetch env url body;
      response <- await p;
      dbg <- gets (λ w, debug (config w));
      if negb (ok response) && dbg then
        console_log ("[vibecraft-plugin] Server responded " +:+ pretty (status response))
      else ret tt)
    (λ err,
      dbg <- gets (λ w, debug (config w));
      if dbg then console_log "[vibecraft-plugin] Send failed (server may not be running)"
      else ret tt)).

(** The event [handleBeforeAgentStart] builds.  The source reads the clock
    once for the id and once for the timestamp; both readings are
    [Date_now env] here, and no property below relates the two. *)
Definition agentStartEvent (ctx : HookContext) (env : Ambient) : VibecraftEvent :=
  let sessionId := str_or (sessionKey ctx) (agentId ctx) in
  SessionStartEvent
    {| ev_id := sessionId +:+ "-start-" +:+ pretty (Date_now env);
       ev_timestamp := Date_now env;
       ev_sessionId := sessionId;
       ev_cwd := process_cwd env |}
    "startup".


(** The event [handleAfterToolCall] builds.  The source reads the clock
    once for the fallback toolUseId and once for the timestamp; both
    readings are [Date_now env] here, and no property below relates the
    two. *)
Definition afterToolCallEvent (event : PluginHookAfterToolCallEvent) (ctx : HookContext)
    (env : Ambient) : VibecraftEvent :=
  let sessionId := str_or (sessionKey ctx) (agentId ctx) in
  let toolUseId := str_or (toolCallId ctx) (sessionId +:+ "-" +:+ pretty (Date_now env)) in
  PostToolUseEvent
    {| ev_id := toolUseId +:+ "-post";
       ev_timestamp := Date_now env;
       ev_sessionId := sessionId;
       ev_cwd := process_cwd env |}
    (Some (toolName ctx))
    (val_or_empty (params event))
    (val_or_empty (result event))
    toolUseId
    (bool_decide (error event = None))
    None.


End Plugin.

(** ** src/infra/vibecraft-adapter.ts: the hook-based setup and the direct API *)

Module AdapterApi.

(** The two functions [setupVibecraftHookIntegration] can return:
    [() => {}] and the closure that logs and calls the cleanup of the
    event-based setup. *)
Inductive HookCleanup : Type :=
  | HookNoop
  | HookCleanupOf (cleanup : Adapter.Cleanup).

(** A complete configuration passed where a partial one is expected. *)
Definition as_user (c : Adapter.Config) : Adapter.VibecraftAdapterConfig :=
  {| Adapter.enabled_opt := Some (Adapter.enabled c);
     Adapter.serverUrl_opt := Some (Adapter.serverUrl c);
     Adapter.eventsFilePath_opt := Some (Adapter.eventsFilePath c);
     Adapter.cwd_opt := Some (Adapter.cwd c);
     Adapter.debug_opt := Some (Adapter.debug c) |}.

(** [setupVibecraftHookIntegration(hookRunner, userConfig)]; the hook
    runner is not used by the body. *)
Definition setupVibecraftHookIntegration (userConfig : Adapter.VibecraftAdapterConfig)
  : M Adapter.World HookCleanup :=
  modify (λ w, Adapter.set_config (Adapter.merge (Adapter.defaults w) userConfig) w);;;
  on <- gets (λ w, Adapter.enabled (Adapter.config w));
  if negb on then
    Adapter.logDebug "Vibecraft hook integration disabled";;;
    ret HookNoop
  else
    Adapter.logDebug "Setting up Vibecraft hook integration";;;
    c <- gets Adapter.config;
    cleanup <- Adapter.setupVibecraftIntegration (as_user c);
    Adapter.logDebug "Vibecraft hook integration using event-based backend";;;
    ret (HookCleanupOf cleanup).

Definition call (f : HookCleanup) : M Adapter.World unit :=
  match f with
  | HookNoop => ret tt
  | HookCleanupOf cleanup =>
      Adapter.logDebug "Cleaning up Vibecraft hook integration";;;
      Adapter.call cleanup
  end.

(** The [preEvent] of [sendToolUse]. *)
Definition toolUsePreEvent (sessionId toolName : string) (params : jsval)
    (toolUseId : string) (startTime : Z) (dir : string) (env_pre : Ambient)
  : VibecraftEvent :=
  PreToolUseEvent
    {| ev_id := generateEventId env_pre sessionId;
       ev_timestamp := startTime;
       ev_sessionId := sessionId;
       ev_cwd := dir |}
    (Some toolName) params toolUseId None.

(** The [postEvent] of [sendToolUse]. *)
Definition toolUsePostEvent (sessionId toolName : string) (params result : jsval)
    (error : option string) (toolUseId : string) (startTime endTime : Z)
    (dir : string) (env_post : Ambient) : VibecraftEvent :=
  PostToolUseEvent
    {| ev_id := generateEventId env_post sessionId;
       ev_timestamp := endTime;
       ev_sessionId := sessionId;
       ev_cwd := dir |}
    (Some toolName) params result toolUseId
    (bool_decide (error = None)) (Some (endTime - startTime)).

(** [sendToolUse(sessionId, toolName, params, result, error?)].  Each
    reading of the environment has an [Ambient] of its own: [env_id] for
    the toolUseId, [env_start] and [env_end] for the two readings of the
    clock, [env_pre] and [env_post] for the id and the delivery of each
    event. *)
Definition sendToolUse (sessionId toolName : string) (params result : jsval)
    (error : option string) (env_id env_start env_pre env_end env_post : Ambient)
  : M Adapter.World (Promise unit) :=
  async (
    let toolUseId := generateEventId env_id sessionId in
    let startTime := Date_now env_start in
    dir <- gets (λ w, Adapter.cwd (Adapter.config w));
    let preEvent := toolUsePreEvent sessionId toolName params toolUseId startTime dir env_pre in
    p <- Adapter.sendToVibecraft preEvent env_pre;
    await p;;;
    let endTime := Date_now env_end in
    dir <- gets (λ w, Adapter.cwd (Adapter.config w));
    let postEvent :=
      toolUsePostEvent sessionId toolName params result error toolUseId
        startTime endTime dir env_post in
    q <- Adapter.sendToVibecraft postEvent env_post;
    await q).

(** [sendUserPrompt(sessionId, prompt)]; [env_now] is the reading of the
    clock for the timestamp. *)
Definition sendUserPrompt (sessionId prompt : string) (env_now env : Ambient)
  : M Adapter.World (Promise unit) :=
  async (
    dir <- gets (λ w, Adapter.cwd (Adapter.config w));
    let event :=
      UserPromptSubmitEvent
        {| ev_id := generateEventId env sessionId;
           ev_timestamp := Date_now env_now;
           ev_sessionId := sessionId;
           ev_cwd := dir |}
        prompt in
    p <- Adapter.sendToVibecraft event env;
    await p).

(** [sendStop(sessionId, response?)] *)
Definition sendStop (sessionId : string) (response : option string) (env_now env : Ambient)
  : M Adapter.World (Promise unit) :=
  async (
    dir <- gets (λ w, Adapter.cwd (Adapter.config w));
    let event :=
      StopEvent
        {| ev_id := generateEventId env sessionId;
           ev_timestamp := Date_now env_now;
           ev_sessionId := sessionId;
           ev_cwd := dir |}
        false (JStr <$> response) in
    p <- Adapter.sendToVibecraft event env;
    await p).

End AdapterApi.

(** ** src/infra/vibecraft-integration.ts: manual event sending *)

Module IntegrationApi.

(** The first event of [sendToolEvent]. *)
Definition toolPreEvent (sessionId toolName : string) (params : jsval)
    (toolUseId : string) (startTime : Z) (env_pre : Ambient) : VibecraftEvent :=
  PreToolUseEvent
    {| ev_id := generateEventId env_pre sessionId;
       ev_timestamp := startTime;
       ev_sessionId := sessionId;
       ev_cwd := process_cwd env_pre |}
    (Some toolName) params toolUseId None.

(** The second event of [sendToolEvent]. *)
Definition toolPostEvent (sessionId toolName : string) (params result : jsval)
    (error : option string) (toolUseId : string) (startTime endTime : Z)
    (env_post : Ambient) : VibecraftEvent :=
  PostToolUseEvent
    {| ev_id := generateEventId env_post sessionId;
       ev_timestamp := endTime;
       ev_sessionId := sessionId;
       ev_cwd := process_cwd env_post |}
    (Some toolName) params result toolUseId
    (bool_decide (error = None)) (Some (endTime - startTime)).

(** [sendToolEvent({ sessionId, toolName, params, result, error })] *)
Definition sendToolEvent (sessionId toolName : string) (params result : jsval)
    (error : option string) (env_id env_start env_pre env_end env_post : Ambient)
  : M Integration.World (Promise unit) :=
  async (
    let toolUseId := generateEventId env_id sessionId in
    let startTime := Date_now env_start in
    p <- Integration.sendEvent
           (toolPreEvent sessionId toolName params toolUseId startTime env_pre) env_pre;
    await p;;;
    let endTime := Date_now env_end in
    q <- Integration.sendEvent
           (toolPostEvent sessionId toolName params result error toolUseId
              startTime endTime env_post) env_post;
    await q).

(** [sendPromptEvent({ sessionId, prompt })] *)
Definition sendPromptEvent (sessionId prompt : string) (env_now env : Ambient)
  : M Integration.World (Promise unit) :=
  async (
    p <- Integration.sendEvent
           (UserPromptSubmitEvent
              {| ev_id := generateEventId env sessionId;
                 ev_timestamp := Date_now env_now;
                 ev_sessionId := sessionId;
                 ev_cwd := process_cwd env |}
              prompt) env;
    await p).

(** [sendStopEvent({ sessionId, response })] *)
Definition sendStopEvent (sessionId : string) (response : option string)
    (env_now env : Ambient) : M Integration.World (Promise unit) :=
  async (
    p <- Integration.sendEvent
           (StopEvent
              {| ev_id := generateEventId env sessionId;
                 ev_timestamp := Date_now env_now;
                 ev_sessionId := sessionId;
                 ev_cwd := process_cwd env |}
              false (JStr <$> response)) env;
    await p).

End IntegrationApi.

(** ** src/plugins/builtin/vibecraft-plugin.ts: the other hook handlers *)

Module PluginHooks.

(** Modelled from the spec: the hook events of src/plugins/types.ts, with
    the properties the handlers read. *)
Record PluginHookBeforeToolCallEvent : Type := {
  params : option jsval;
}.



(** The event [handleBeforeToolCall] builds; [env_id] is the reading of
    the clock for the fallback toolUseId, [env] the one for the
    timestamp. *)
Definition beforeToolCallEvent (event : PluginHookBeforeToolCallEvent)
    (ctx : Plugin.HookContext) (env_id env : Ambient) : VibecraftEvent :=
  let sessionId := str_or (Plugin.sessionKey ctx) (Plugin.agentId ctx) in
  let toolUseId :=
    str_or (Plugin.toolCallId ctx) (sessionId +:+ "-" +:+ pretty (Date_now env_id)) in
  PreToolUseEvent
    {| ev_id := toolUseId +:+ "-pre";
       ev_timestamp := Date_now env;
       ev_sessionId := sessionId;
       ev_cwd := process_cwd env |}
    (Some (Plugin.toolName ctx))
    (val_or_empty (params event))
    toolUseId
    None.






End PluginHooks.

(** ** Observations and sample inputs *)

Definition outcome {W A} (m : M W A) (w : W) : Completion A := fst (m w).
Definition world_after {W A} (m : M W A) (w : W) : W := snd (m w).

(** The record a transformer call returned, if it returned one. *)
Definition produced (c : Completion (option VibecraftEvent)) : option VibecraftEvent :=
  match c with
  | Normal r => r
  | Throw _ => None
  end.

(** The event is a tool event in its [pre] phase. *)
Definition is_tool_pre (evt : AgentEvents.AgentEventPayload) : Prop :=
  AgentEvents.stream evt = "tool" ∧
  AgentEvents.phase (AgentEvents.data evt) = Some "pre".

(** The event is a tool event in its [post] phase. *)
Definition is_tool_post (evt : AgentEvents.AgentEventPayload) : Prop :=
  AgentEvents.stream evt = "tool" ∧
  AgentEvents.phase (AgentEvents.data evt) = Some "post".

Definition sample_env : Ambient :=
  {| Date_now := 1700000000000;
     Math_random_36 := "0.k3j2h1g8f2";
     JSON_stringify := λ e, Some ("{type:" +:+ ev_type e +:+ "}");
     destination := Responds 12 200;
     response_text := Some "ok";
     process_cwd := "/work";
     fs_import := true;
     fs_appendFile := true |}.

Definition sample_data (ph : string) (id : option string) (err : option string)
  : AgentEvents.EventData :=
  {| AgentEvents.phase := Some ph;
     AgentEvents.toolName := Some "Read";
     AgentEvents.toolUseId := id;
     AgentEvents.params := Some (JObj [("path", JStr "package.json")]);
     AgentEvents.result := None;
     AgentEvents.error := err;
     AgentEvents.assistantText := None |}.

Definition sample_event (str ph : string) (id : option string) (key : option string)
    (t : Z) : AgentEvents.AgentEventPayload :=
  {| AgentEvents.runId := "run-1";
     AgentEvents.seq := 7;
     AgentEvents.stream := str;
     AgentEvents.ts := t;
     AgentEvents.data := sample_data ph id None;
     AgentEvents.sessionKey := key |}.

Definition adapter_on (path : string) : Adapter.VibecraftAdapterConfig :=
  {| Adapter.enabled_opt := Some true;
     Adapter.serverUrl_opt := None;
     Adapter.eventsFilePath_opt := Some path;
     Adapter.cwd_opt := None;
     Adapter.debug_opt := None |}.

Definition adapter_off (path : string) : Adapter.VibecraftAdapterConfig :=
  {| Adapter.enabled_opt := Some false;
     Adapter.serverUrl_opt := None;
     Adapter.eventsFilePath_opt := Some path;
     Adapter.cwd_opt := None;
     Adapter.debug_opt := None |}.

Definition integration_options (on : bool) : Integration.VibecraftIntegrationOptions :=
  {| Integration.enabled_opt := Some on;
     Integration.serverUrl_opt := None;
     Integration.debug_opt := None;
     Integration.cwd_opt := None |}.

(** Reading [e.toolUseId]. *)
Definition ev_toolUseId (e : VibecraftEvent) : option string :=
  match e with
  | PreToolUseEvent _ _ _ id _ | PostToolUseEvent _ _ _ _ id _ _ => Some id
  | _ => None
  end.

(** The payload carries no usable toolUseId: the property is missing or is
    the empty string. *)
Definition no_payload_toolUseId (evt : AgentEvents.AgentEventPayload) : Prop :=
  AgentEvents.toolUseId (AgentEvents.data evt) = None ∨
  AgentEvents.toolUseId (AgentEvents.data evt) = Some "".

Definition sample_payload (str : string) (ph : option string) (res : option jsval)
    (err : option string) (sq : Z) : AgentEvents.AgentEventPayload :=
  {| AgentEvents.runId := "run-1";
     AgentEvents.seq := sq;
     AgentEvents.stream := str;
     AgentEvents.ts := 1000;
     AgentEvents.data :=
       {| AgentEvents.phase := ph;
          AgentEvents.toolName := Some "Bash";
          AgentEvents.toolUseId := None;
          AgentEvents.params := None;
          AgentEvents.result := res;
          AgentEvents.error := err;
          AgentEvents.assistantText := None |};
     AgentEvents.sessionKey := Some "main" |}.

Definition sample_start : VibecraftEvent :=
  SessionStartEvent
    {| ev_id := "main-1-abc"; ev_timestamp := 1; ev_sessionId := "main"; ev_cwd := "/work" |}
    "startup".

(** A world of the adapter after [setupVibecraftIntegration] with
    [enabled: true] and the given events file. *)
Definition adapter_enabled_world (path : string) : Adapter.World :=
  world_after (Adapter.setupVibecraftIntegration (adapter_on path)) (Adapter.initial "/work").

Definition integration_enabled_world : Integration.World :=
  world_after (Integration.enableVibecraft (integration_options true) sample_env)
    (Integration.initial "/work").

Definition sample_ctx (callId : option string) : Plugin.HookContext :=
  {| Plugin.agentId := "agent"; Plugin.sessionKey := Some "main";
     Plugin.toolName := "Read"; Plugin.toolCallId := callId |}.


(** The line [appendToEventsFile] writes when nothing fails: the module
    is imported, the event serialised and the file written. *)
Definition append_succeeds (env : Ambient) (event : VibecraftEvent) : option string :=
  if fs_import env && fs_appendFile env then JSON_stringify env event else None.

(** ** Traces of the modules *)

(** Running a computation for its effect. *)
Definition discard {W A} (m : M W A) : M W unit := m ;;; ret tt.

(** What can happen to the adapter module between two moments: the host
    calls the listener, or a caller uses an exported function or a closure
    that a setup returned.  [AdTransform] is the transformer on its own. *)
Inductive AdapterOp : Type :=
  | AdTransform (evt : AgentEvents.AgentEventPayload) (env : Ambient)
  | AdListener (evt : AgentEvents.AgentEventPayload) (env : Ambient)
  | AdSetup (userConfig : Adapter.VibecraftAdapterConfig)
  | AdHookSetup (userConfig : Adapter.VibecraftAdapterConfig)
  | AdCall (f : Adapter.Cleanup)
  | AdHookCall (f : AdapterApi.HookCleanup)
  | AdSendToolUse (sessionId toolName : string) (params result : jsval)
      (error : option string) (env_id env_start env_pre env_end env_post : Ambient)
  | AdSendUserPrompt (sessionId prompt : string) (env_now env : Ambient)
  | AdSendStop (sessionId : string) (response : option string) (env_now env : Ambient).

Definition adapter_step (op : AdapterOp) : M Adapter.World unit :=
  match op with
  | AdTransform evt env => discard (Adapter.transformAgentEvent evt env)
  | AdListener evt env => Adapter.listener evt env
  | AdSetup userConfig => discard (Adapter.setupVibecraftIntegration userConfig)
  | AdHookSetup userConfig => discard (AdapterApi.setupVibecraftHookIntegration userConfig)
  | AdCall f => Adapter.call f
  | AdHookCall f => AdapterApi.call f
  | AdSendToolUse sessionId toolName params result error e1 e2 e3 e4 e5 =>
      discard (AdapterApi.sendToolUse sessionId toolName params result error e1 e2 e3 e4 e5)
  | AdSendUserPrompt sessionId prompt env_now env =>
      discard (AdapterApi.sendUserPrompt sessionId prompt env_now env)
  | AdSendStop sessionId response env_now env =>
      discard (AdapterApi.sendStop sessionId response env_now env)
  end.

Fixpoint adapter_steps (ops : list AdapterOp) : M Adapter.World unit :=
  match ops with
  | [] => ret tt
  | op :: rest => adapter_step op;;; adapter_steps rest
  end.

(** The same for the integration module. *)
Inductive IntegrationOp : Type :=
  | InTransform (evt : AgentEvents.AgentEventPayload) (env : Ambient)
  | InListener (evt : AgentEvents.AgentEventPayload) (env : Ambient)
  | InEnable (userOptions : Integration.VibecraftIntegrationOptions) (env : Ambient)
  | InCall (f : Integration.Cleanup)
  | InSendToolEvent (sessionId toolName : string) (params result : jsval)
      (error : option string) (env_id env_start env_pre env_end env_post : Ambient)
  | InSendPromptEvent (sessionId prompt : string) (env_now env : Ambient)
  | InSendStopEvent (sessionId : string) (response : option string) (env_now env : Ambient).

Definition integration_step (op : IntegrationOp) : M Integration.World unit :=
  match op with
  | InTransform evt env => discard (Integration.transformEvent evt env)
  | InListener evt env => Integration.listener evt env
  | InEnable userOptions env => discard (Integration.enableVibecraft userOptions env)
  | InCall f => Integration.call f
  | InSendToolEvent sessionId toolName params result error e1 e2 e3 e4 e5 =>
      discard (IntegrationApi.sendToolEvent sessionId toolName params result error
                 e1 e2 e3 e4 e5)
  | InSendPromptEvent sessionId prompt env_now env =>
      discard (IntegrationApi.sendPromptEvent sessionId prompt env_now env)
  | InSendStopEvent sessionId response env_now env =>
      discard (IntegrationApi.sendStopEvent sessionId response env_now env)
  end.

Fixpoint integration_steps (ops : list IntegrationOp) : M Integration.World unit :=
  match ops with
  | [] => ret tt
  | op :: rest => integration_step op;;; integration_steps rest
  end.

(** The step does not write the table entry of the toolUseId [k]: it is
    not the transformation of a pre-phase tool event with that id, and it
    is not a call of the cleanup closure, which clears the table. *)
Definition adapter_keeps_start (k : string) (op : AdapterOp) : Prop :=
  match op with
  | AdTransform evt _ | AdListener evt _ => is_tool_pre evt → resolveToolUseId evt ≠ k
  | AdCall f => f = Adapter.Noop
  | AdHookCall f => f = AdapterApi.HookNoop ∨ f = AdapterApi.HookCleanupOf Adapter.Noop
  | _ => True
  end.

Definition integration_keeps_start (k : string) (op : IntegrationOp) : Prop :=
  match op with
  | InTransform evt _ | InListener evt _ => is_tool_pre evt → resolveToolUseId evt ≠ k
  | InCall f => f = Integration.Noop
  | _ => True
  end.

(** The step is not a setup with [enabled = true], the defaults being
    [defaults]. *)
Definition adapter_no_enabled_setup (defaults : Adapter.Config) (op : AdapterOp) : Prop :=
  match op with
  | AdSetup userConfig | AdHookSetup userConfig =>
      Adapter.enabled (Adapter.merge defaults userConfig) = false
  | _ => True
  end.

Definition integration_no_enabled_setup (defaults : Integration.Options)
    (op : IntegrationOp) : Prop :=
  match op with
  | InEnable userOptions _ =>
      Integration.enabled (Integration.merge defaults userOptions) = false
  | _ => True
  end.

(** The subscription [sub] is the one the module's variable holds, or the
    variable is null and [sub] is cancelled. *)
Definition adapter_holds_or_cancelled (sub : nat) (w : Adapter.World) : Prop :=
  Adapter.unsubscribeAgentEvents w = Some sub ∨
  (Adapter.unsubscribeAgentEvents w = None ∧
   sub ∉ AgentEvents.listeners (Adapter.host w)).

Definition integration_holds_or_cancelled (sub : nat) (w : Integration.World) : Prop :=
  Integration.unsubscribe w = Some sub ∨
  (Integration.unsubscribe w = None ∧
   sub ∉ AgentEvents.listeners (Integration.host w)).

(** * Properties *)

Ltac run_M :=
  unfold outcome, world_after, async, await, floating, promise_catch,
    try_catch, bind, gets, modify, ret, throw in *; simpl in *.

Ltac run_transform :=
  unfold Adapter.transformAgentEvent, Integration.transformEvent; run_M;
  repeat case_bool_decide; simpl in *; try congruence.

Ltac run_delivery :=
  unfold Adapter.sendToVibecraft, Adapter.appendToEventsFile, Adapter.stringify,
    Adapter.fetch, Adapter.logDebug, Adapter.logError,
    Integration.sendEvent, Integration.stringify, Integration.fetch,
    Integration.logDebug, fetch_outcome;
  run_M;
  repeat (case_match; run_M; simplify_eq/=);
  try (eexists; reflexivity).

(** ** The transformers, case by case *)

Lemma adapter_transform_post evt env w :
  is_tool_post evt →
  Adapter.transformAgentEvent evt env w =
    (Normal (Some (PostToolUseEvent
       {| ev_id := generateEventId env (resolveSessionId evt);
          ev_timestamp := AgentEvents.ts evt;
          ev_sessionId := resolveSessionId evt;
          ev_cwd := Adapter.cwd (Adapter.config w) |}
       (AgentEvents.toolName (AgentEvents.data evt))
       (val_or_empty (AgentEvents.params (AgentEvents.data evt)))
       (val_or_empty (AgentEvents.result (AgentEvents.data evt)))
       (resolveToolUseId evt)
       (bool_decide (AgentEvents.error (AgentEvents.data evt) = None))
       (durationSince (Adapter.toolUseStartTime w !! resolveToolUseId evt)
          (AgentEvents.ts evt)))), w).
Proof. intros [Hs Hp]. run_transform. Qed.

Lemma integration_transform_post evt env w :
  is_tool_post evt →
  Integration.transformEvent evt env w =
    (Normal (Some (PostToolUseEvent
       {| ev_id := generateEventId env (resolveSessionId evt);
          ev_timestamp := AgentEvents.ts evt;
          ev_sessionId := resolveSessionId evt;
          ev_cwd := Integration.cwd (Integration.options w) |}
       (AgentEvents.toolName (AgentEvents.data evt))
       (val_or_empty (AgentEvents.params (AgentEvents.data evt)))
       (val_or_empty (AgentEvents.result (AgentEvents.data evt)))
       (resolveToolUseId evt)
       (bool_decide (AgentEvents.error (AgentEvents.data evt) = None))
       (durationSince (Integration.toolStartTimes w !! resolveToolUseId evt)
          (AgentEvents.ts evt)))), w).
Proof. intros [Hs Hp]. run_transform. Qed.

Lemma adapter_transform_table_pre evt env w :
  is_tool_pre evt →
  Adapter.toolUseStartTime (world_after (Adapter.transformAgentEvent evt env) w) =
    <[resolveToolUseId evt := AgentEvents.ts evt]> (Adapter.toolUseStartTime w).
Proof. intros [Hs Hp]. run_transform. Qed.

Lemma adapter_transform_frame evt env w :
  ¬ is_tool_pre evt →
  world_after (Adapter.transformAgentEvent evt env) w = w.
Proof. unfold is_tool_pre. intros Hn. run_transform. tauto. Qed.

Lemma integration_transform_table_pre evt env w :
  is_tool_pre evt →
  Integration.toolStartTimes (world_after (Integration.transformEvent evt env) w) =
    <[resolveToolUseId evt := AgentEvents.ts evt]> (Integration.toolStartTimes w).
Proof. intros [Hs Hp]. run_transform. Qed.

Lemma integration_transform_frame evt env w :
  ¬ is_tool_pre evt →
  world_after (Integration.transformEvent evt env) w = w.
Proof. unfold is_tool_pre. intros Hn. run_transform. tauto. Qed.

Lemma adapter_transform_normal evt env w :
  ∃ r, outcome (Adapter.transformAgentEvent evt env) w = Normal r.
Proof. run_transform; eauto. Qed.

Lemma integration_transform_normal evt env w :
  ∃ r, outcome (Integration.transformEvent evt env) w = Normal r.
Proof. run_transform; eauto. Qed.

(** ** Runs of the transformers *)

Lemma world_after_seq {W A B} (m : M W A) (k : M W B) (w : W) :
  (∃ a, outcome m w = Normal a) →
  world_after (m ;;; k) w = world_after k (world_after m w).
Proof.
  unfold outcome, world_after, bind. intros [a Ha].
  destruct (m w) as [c w1]. simpl in Ha. by subst c.
Qed.

Lemma adapter_transformAll_lookup mid k w :
  Forall (λ p, is_tool_pre p.1 → resolveToolUseId p.1 ≠ k) mid →
  Adapter.toolUseStartTime (world_after (Adapter.transformAll mid) w) !! k =
    Adapter.toolUseStartTime w !! k.
Proof.
  intros Hmid. revert w.
  induction Hmid as [|[evt env] rest Hhd _ IH]; intros w; [done|].
  cbn [Adapter.transformAll].
  rewrite world_after_seq by apply adapter_transform_normal.
  rewrite IH. simpl in Hhd.
  destruct (decide (AgentEvents.stream evt = "tool" ∧
                    AgentEvents.phase (AgentEvents.data evt) = Some "pre")) as [Hpre|Hpre].
  - rewrite adapter_transform_table_pre by exact Hpre.
    apply lookup_insert_ne. by apply Hhd.
  - by rewrite adapter_transform_frame.
Qed.

Lemma integration_transformAll_lookup mid k w :
  Forall (λ p, is_tool_pre p.1 → resolveToolUseId p.1 ≠ k) mid →
  Integration.toolStartTimes (world_after (Integration.transformAll mid) w) !! k =
    Integration.toolStartTimes w !! k.
Proof.
  intros Hmid. revert w.
  induction Hmid as [|[evt env] rest Hhd _ IH]; intros w; [done|].
  cbn [Integration.transformAll].
  rewrite world_after_seq by apply integration_transform_normal.
  rewrite IH. simpl in Hhd.
  destruct (decide (AgentEvents.stream evt = "tool" ∧
                    AgentEvents.phase (AgentEvents.data evt) = Some "pre")) as [Hpre|Hpre].
  - rewrite integration_transform_table_pre by exact Hpre.
    apply lookup_insert_ne. by apply Hhd.
  - by rewrite integration_transform_frame.
Qed.

Lemma durationSince_recorded (t now : Z) :
  t ≠ 0 → durationSince (Some t) now = Some (now - t).
Proof. intros Ht. unfold durationSince. by destruct (Z.eqb_spec t 0). Qed.

(** ** C1: the duration of a matched pair *)

(** C1 as stated fails: a second pre-phase event with the same toolUseId
    overwrites the recorded start, so that for the pair made of the first
    pre event (at 1000) and the post event (at 1450) the duration is 250,
    not 450. *)
Lemma C1_overwritten_start_counterexample :
  let pre := sample_event "tool" "pre" (Some "t1") None 1000 in
  let again := sample_event "tool" "pre" (Some "t1") None 1200 in
  let post := sample_event "tool" "post" (Some "t1") None 1450 in
  let w1 := world_after (Adapter.transformAgentEvent pre sample_env) (Adapter.initial "/work") in
  let w2 := world_after (Adapter.transformAgentEvent again sample_env) w1 in
  is_tool_pre pre ∧ is_tool_post post ∧
  resolveToolUseId pre = resolveToolUseId post ∧
  ev_duration <$> produced (outcome (Adapter.transformAgentEvent post sample_env) w2)
    = Some (Some 250) ∧
  Some 250 ≠ Some (AgentEvents.ts post - AgentEvents.ts pre).
Proof. vm_compute. repeat split; congruence. Qed.

(** A start recorded at timestamp 0 reads as falsy in
    [startTime ? evt.ts - startTime : undefined]: the post event then
    carries no duration although its start was recorded. *)
Example zero_start_drops_duration :
  let pre := sample_event "tool" "pre" (Some "t1") None 0 in
  let post := sample_event "tool" "post" (Some "t1") None 450 in
  let w1 := world_after (Adapter.transformAgentEvent pre sample_env) (Adapter.initial "/work") in
  Adapter.toolUseStartTime w1 !! "t1" = Some 0 ∧
  ev_duration <$> produced (outcome (Adapter.transformAgentEvent post sample_env) w1)
    = Some None.
Proof. vm_compute. split; reflexivity. Qed.

(** ** C3: no recorded start, no duration *)

(** C3.  For a post-phase tool event whose toolUseId has no entry in the
    correlation table, the transformers return a post_tool_use record
    whose duration is absent. *)
Theorem C3_unmatched_post_has_no_duration
    (post : AgentEvents.AgentEventPayload) (env : Ambient)
    (wa : Adapter.World) (wi : Integration.World) :
  is_tool_post post →
  (Adapter.toolUseStartTime wa !! resolveToolUseId post = None →
   ∃ e, outcome (Adapter.transformAgentEvent post env) wa = Normal (Some e) ∧
        ev_type e = "post_tool_use" ∧ ev_duration e = None) ∧
  (Integration.toolStartTimes wi !! resolveToolUseId post = None →
   ∃ e, outcome (Integration.transformEvent post env) wi = Normal (Some e) ∧
        ev_type e = "post_tool_use" ∧ ev_duration e = None).
Proof.
  intros Hpost. split; intros Hnone; eexists; unfold outcome.
  - rewrite adapter_transform_post by exact Hpost. simpl.
    by rewrite Hnone.
  - rewrite integration_transform_post by exact Hpost. simpl.
    by rewrite Hnone.
Qed.

Lemma C3_unmatched_post_has_no_duration_witness :
  let post := sample_event "tool" "post" (Some "t9") None 1450 in
  (∃ e, outcome (Adapter.transformAgentEvent post sample_env) (Adapter.initial "/work")
          = Normal (Some e) ∧
        ev_type e = "post_tool_use" ∧ ev_duration e = None) ∧
  (∃ e, outcome (Integration.transformEvent post sample_env) (Integration.initial "/work")
          = Normal (Some e) ∧
        ev_type e = "post_tool_use" ∧ ev_duration e = None).
Proof.
  intros post.
  destruct (C3_unmatched_post_has_no_duration post sample_env
              (Adapter.initial "/work") (Integration.initial "/work")) as [Ha Hi].
  - split; reflexivity.
  - split; [apply Ha | apply Hi]; reflexivity.
Defined.

(** ** C4: success of a post-phase tool event *)

(** C4.  For a post-phase tool event the transformers return a
    post_tool_use record whose success is true exactly when the payload
    has no error property; the record the plugin's [handleAfterToolCall]
    builds obeys the same rule. *)
Theorem C4_success_iff_no_error
    (post : AgentEvents.AgentEventPayload) (env : Ambient)
    (wa : Adapter.World) (wi : Integration.World)
    (hook : Plugin.PluginHookAfterToolCallEvent) (ctx : Plugin.HookContext) :
  is_tool_post post →
  (∃ e, outcome (Adapter.transformAgentEvent post env) wa = Normal (Some e) ∧
        ev_type e = "post_tool_use" ∧
        ∃ b, ev_success e = Some b ∧
             (b = true ↔ AgentEvents.error (AgentEvents.data post) = None)) ∧
  (∃ e, outcome (Integration.transformEvent post env) wi = Normal (Some e) ∧
        ev_type e = "post_tool_use" ∧
        ∃ b, ev_success e = Some b ∧
             (b = true ↔ AgentEvents.error (AgentEvents.data post) = None)) ∧
  (∃ b, ev_success (Plugin.afterToolCallEvent hook ctx env) = Some b ∧
        (b = true ↔ Plugin.error hook = None)).
Proof.
  intros Hpost. split; [|split].
  - eexists. unfold outcome.
    rewrite adapter_transform_post by exact Hpost. simpl.
    do 2 (split; [reflexivity|]). eexists. split; [reflexivity|].
    apply bool_decide_eq_true.
  - eexists. unfold outcome.
    rewrite integration_transform_post by exact Hpost. simpl.
    do 2 (split; [reflexivity|]). eexists. split; [reflexivity|].
    apply bool_decide_eq_true.
  - eexists. split; [reflexivity|]. apply bool_decide_eq_true.
Qed.

Lemma C4_success_iff_no_error_witness :
  let failed :=
    {| AgentEvents.runId := "run-1"; AgentEvents.seq := 8;
       AgentEvents.stream := "tool"; AgentEvents.ts := 1450;
       AgentEvents.data := sample_data "post" (Some "t1") (Some "ENOENT");
       AgentEvents.sessionKey := None |} in
  ∃ e, outcome (Adapter.transformAgentEvent failed sample_env) (Adapter.initial "/work")
         = Normal (Some e) ∧
       ev_type e = "post_tool_use" ∧
       ∃ b, ev_success e = Some b ∧
            (b = true ↔ AgentEvents.error (AgentEvents.data failed) = None).
Proof.
  intros failed.
  refine (proj1 (C4_success_iff_no_error failed sample_env
                   (Adapter.initial "/work") (Integration.initial "/work")
                   {| Plugin.params := None; Plugin.result := None;
                      Plugin.error := Some "ENOENT" |}
                   {| Plugin.agentId := "agent"; Plugin.sessionKey := None;
                      Plugin.toolName := "Read"; Plugin.toolCallId := None |} _)).
  split; reflexivity.
Defined.

(** ** C8: the start of a run *)

(** C8.  For a lifecycle event in its start phase the transformers return
    one record, a session_start event whose source is "startup"; the
    record the plugin's [handleBeforeAgentStart] builds is of the same
    kind. *)
Theorem C8_lifecycle_start_is_session_start
    (evt : AgentEvents.AgentEventPayload) (env : Ambient)
    (wa : Adapter.World) (wi : Integration.World) (ctx : Plugin.HookContext) :
  AgentEvents.stream evt = "lifecycle" →
  AgentEvents.phase (AgentEvents.data evt) = Some "start" →
  (∃ base, outcome (Adapter.transformAgentEvent evt env) wa
             = Normal (Some (SessionStartEvent base "startup"))) ∧
  (∃ base, outcome (Integration.transformEvent evt env) wi
             = Normal (Some (SessionStartEvent base "startup"))) ∧
  (∃ base, Plugin.agentStartEvent ctx env = SessionStartEvent base "startup").
Proof.
  intros Hs Hp. repeat split; eexists.
  - run_transform. reflexivity.
  - run_transform. reflexivity.
  - reflexivity.
Qed.

Lemma C8_lifecycle_start_is_session_start_witness :
  ∃ base, outcome (Adapter.transformAgentEvent
                     (sample_event "lifecycle" "start" None (Some "main") 1000) sample_env)
            (Adapter.initial "/work")
          = Normal (Some (SessionStartEvent base "startup")).
Proof.
  refine (proj1 (C8_lifecycle_start_is_session_start
                   (sample_event "lifecycle" "start" None (Some "main") 1000) sample_env
                   (Adapter.initial "/work") (Integration.initial "/work")
                   {| Plugin.agentId := "agent"; Plugin.sessionKey := None;
                      Plugin.toolName := "Read"; Plugin.toolCallId := None |} _ _));
    reflexivity.
Defined.

(** ** C9: events that produce nothing *)

(** C9.  For an event whose stream is none of lifecycle, tool, assistant
    and error, and for an event of the assistant stream, the transformers
    complete normally, return no record and leave the world as it was. *)
Theorem C9_unrecognized_stream_is_dropped
    (evt : AgentEvents.AgentEventPayload) (env : Ambient)
    (wa : Adapter.World) (wi : Integration.World) :
  (AgentEvents.stream evt ∉ ["lifecycle"; "tool"; "assistant"; "error"] ∨
   AgentEvents.stream evt = "assistant") →
  Adapter.transformAgentEvent evt env wa = (Normal None, wa) ∧
  Integration.transformEvent evt env wi = (Normal None, wi).
Proof.
  intros Hstream.
  assert (AgentEvents.stream evt ≠ "lifecycle" ∧ AgentEvents.stream evt ≠ "tool" ∧
          AgentEvents.stream evt ≠ "error") as (Hl & Ht & He).
  { destruct Hstream as [Hnot|Heq].
    - repeat split; intros Heq; apply Hnot; rewrite Heq; set_solver.
    - rewrite Heq. repeat split; discriminate. }
  split; run_transform.
Qed.

Lemma C9_unrecognized_stream_is_dropped_witness :
  Adapter.transformAgentEvent (sample_event "compaction" "start" None None 1000) sample_env
    (Adapter.initial "/work") = (Normal None, Adapter.initial "/work") ∧
  Integration.transformEvent (sample_event "compaction" "start" None None 1000) sample_env
    (Integration.initial "/work") = (Normal None, Integration.initial "/work").
Proof.
  apply (C9_unrecognized_stream_is_dropped
           (sample_event "compaction" "start" None None 1000)).
  left. simpl. rewrite !elem_of_cons, elem_of_nil.
  intros [H|[H|[H|[H|[]]]]]; discriminate H.
Defined.

(** ** C10: what a transformer call does to the correlation table *)

(** C10.  A transformer call on an event that is not a pre-phase tool
    event leaves the correlation table unchanged; on a pre-phase tool
    event it sets the entry of the event's toolUseId to the event's
    timestamp and changes nothing else; and no call removes an entry. *)
Theorem C10_only_pre_events_write_the_table
    (evt : AgentEvents.AgentEventPayload) (env : Ambient)
    (wa : Adapter.World) (wi : Integration.World) :
  let ta := Adapter.toolUseStartTime (world_after (Adapter.transformAgentEvent evt env) wa) in
  let ti := Integration.toolStartTimes (world_after (Integration.transformEvent evt env) wi) in
  (¬ is_tool_pre evt →
     ta = Adapter.toolUseStartTime wa ∧ ti = Integration.toolStartTimes wi) ∧
  (is_tool_pre evt →
     ta = <[resolveToolUseId evt := AgentEvents.ts evt]> (Adapter.toolUseStartTime wa) ∧
     ti = <[resolveToolUseId evt := AgentEvents.ts evt]> (Integration.toolStartTimes wi)) ∧
  (∀ k, (is_Some (Adapter.toolUseStartTime wa !! k) → is_Some (ta !! k)) ∧
        (is_Some (Integration.toolStartTimes wi !! k) → is_Some (ti !! k))).
Proof.
  intros ta ti. subst ta ti. split; [|split].
  - intros Hn.
    by rewrite adapter_transform_frame, integration_transform_frame.
  - intros Hpre.
    by rewrite adapter_transform_table_pre, integration_transform_table_pre.
  - intros k.
    destruct (decide (AgentEvents.stream evt = "tool" ∧
                      AgentEvents.phase (AgentEvents.data evt) = Some "pre")) as [Hpre|Hn].
    + rewrite adapter_transform_table_pre, integration_transform_table_pre by exact Hpre.
      rewrite !lookup_insert_is_Some. split; intros Hk;
        (destruct (decide (resolveToolUseId evt = k)); [by left | by right]).
    + by rewrite adapter_transform_frame, integration_transform_frame.
Qed.

Lemma C10_only_pre_events_write_the_table_witness :
  let pre := sample_event "tool" "pre" (Some "t1") None 1000 in
  let post := sample_event "tool" "post" (Some "t1") None 1450 in
  let w1 := world_after (Adapter.transformAgentEvent pre sample_env) (Adapter.initial "/work") in
  let w2 := world_after (Adapter.transformAgentEvent post sample_env) w1 in
  Adapter.toolUseStartTime w1 = <[resolveToolUseId pre := 1000]> ∅ ∧
  Adapter.toolUseStartTime w2 = Adapter.toolUseStartTime w1.
Proof.
  intros pre post w1 w2. split.
  - refine (proj1 (proj1 (proj2 (C10_only_pre_events_write_the_table pre sample_env
                                    (Adapter.initial "/work") (Integration.initial "/work"))) _)).
    split; reflexivity.
  - refine (proj1 (proj1 (C10_only_pre_events_write_the_table post sample_env
                             w1 (Integration.initial "/work")) _)).
    intros [_ Hphase]. discriminate Hphase.
Defined.

(** ** C6: the session id *)

Lemma adapter_transform_sessionId evt env w e :
  outcome (Adapter.transformAgentEvent evt env) w = Normal (Some e) →
  ev_sessionId (ev_base e) = resolveSessionId evt.
Proof. run_transform; intros [= <-]; reflexivity. Qed.

Lemma integration_transform_sessionId evt env w e :
  outcome (Integration.transformEvent evt env) w = Normal (Some e) →
  ev_sessionId (ev_base e) = resolveSessionId evt.
Proof. run_transform; intros [= <-]; reflexivity. Qed.

(** C6, as amended.  The session id of a record a transformer returns is
    the event's session key when that key is present and not the empty
    string, and the event's run id when the key is absent or empty. *)
Theorem C6_session_id_resolution
    (evt : AgentEvents.AgentEventPayload) (env : Ambient)
    (wa : Adapter.World) (wi : Integration.World) (e : VibecraftEvent) :
  outcome (Adapter.transformAgentEvent evt env) wa = Normal (Some e) ∨
  outcome (Integration.transformEvent evt env) wi = Normal (Some e) →
  (∀ key, AgentEvents.sessionKey evt = Some key → key ≠ "" →
          ev_sessionId (ev_base e) = key) ∧
  (AgentEvents.sessionKey evt = None ∨ AgentEvents.sessionKey evt = Some "" →
   ev_sessionId (ev_base e) = AgentEvents.runId evt).
Proof.
  intros He.
  assert (ev_sessionId (ev_base e) = resolveSessionId evt) as ->.
  { destruct He as [He|He];
      eauto using adapter_transform_sessionId, integration_transform_sessionId. }
  unfold resolveSessionId, str_or. split.
  - intros key -> Hkey. by destruct (String.eqb_spec key "").
  - by intros [-> | ->].
Qed.

Lemma C6_session_id_resolution_witness :
  ∃ e, outcome (Adapter.transformAgentEvent
                  (sample_event "lifecycle" "start" None (Some "main") 1000) sample_env)
         (Adapter.initial "/work") = Normal (Some e) ∧
       ev_sessionId (ev_base e) = "main".
Proof.
  eexists. split; [reflexivity|].
  refine (proj1 (C6_session_id_resolution
                   (sample_event "lifecycle" "start" None (Some "main") 1000) sample_env
                   (Adapter.initial "/work") (Integration.initial "/work") _ _) "main" _ _).
  - left. reflexivity.
  - reflexivity.
  - discriminate.
Defined.

(** C6 as stated fails: a session key that is present and is the empty
    string is passed over by [evt.sessionKey || evt.runId], and the record
    carries the run id. *)
Lemma C6_empty_session_key_counterexample :
  let evt := sample_event "lifecycle" "start" None (Some "") 1000 in
  AgentEvents.sessionKey evt = Some "" ∧
  (ev_sessionId ∘ ev_base) <$>
    produced (outcome (Adapter.transformAgentEvent evt sample_env) (Adapter.initial "/work"))
    = Some "run-1" ∧
  "run-1" ≠ "".
Proof. vm_compute. repeat split; congruence. Qed.

(** ** C2: deliveries settle without an exception *)

Lemma adapter_send_settles event env w :
  ∃ l, Adapter.sendToVibecraft event env w = (Normal (Fulfilled tt), Adapter.set_io l w).
Proof. destruct w as [dflt cfg un tbl hst l0]. run_delivery. Qed.

Lemma adapter_append_settles event env w :
  ∃ l, Adapter.appendToEventsFile event env w = (Normal (Fulfilled tt), Adapter.set_io l w).
Proof. destruct w as [dflt cfg un tbl hst l0]. run_delivery. Qed.

Lemma integration_send_settles event env w :
  ∃ l, Integration.sendEvent event env w = (Normal (Fulfilled tt), Integration.set_io l w).
Proof. destruct w as [dflt cfg un tbl hst l0]. run_delivery. Qed.

Lemma adapter_dispatch_settles event env w :
  ∃ l, Adapter.dispatch event env w = (Normal tt, Adapter.set_io l w).
Proof.
  unfold Adapter.dispatch, bind.
  destruct (adapter_send_settles event env w) as [l1 ->]. simpl.
  destruct (adapter_append_settles event env (Adapter.set_io l1 w)) as [l2 ->]. simpl.
  exists l2. by destruct w.
Qed.

Lemma integration_dispatch_settles event env w :
  ∃ l, Integration.dispatch event env w = (Normal tt, Integration.set_io l w).
Proof.
  unfold Integration.dispatch, bind.
  destruct (integration_send_settles event env w) as [l1 ->]. simpl. eauto.
Qed.

(** C2.  Whatever the destination does (unreachable, any status, a
    response after the 2000 ms limit or none at all), whether or not the
    event can be serialised and whether or not the events file can be
    written, the promises of [sendToVibecraft], [appendToEventsFile] and
    [sendEvent] are fulfilled, and the dispatch of an event completes
    normally. *)
Theorem C2_dispatch_never_throws
    (event : VibecraftEvent) (env : Ambient)
    (wa : Adapter.World) (wi : Integration.World) :
  outcome (Adapter.sendToVibecraft event env) wa = Normal (Fulfilled tt) ∧
  outcome (Adapter.appendToEventsFile event env) wa = Normal (Fulfilled tt) ∧
  outcome (Adapter.dispatch event env) wa = Normal tt ∧
  outcome (Integration.sendEvent event env) wi = Normal (Fulfilled tt) ∧
  outcome (Integration.dispatch event env) wi = Normal tt.
Proof.
  unfold outcome.
  destruct (adapter_send_settles event env wa) as [? ->].
  destruct (adapter_append_settles event env wa) as [? ->].
  destruct (adapter_dispatch_settles event env wa) as [? ->].
  destruct (integration_send_settles event env wi) as [? ->].
  destruct (integration_dispatch_settles event env wi) as [? ->].
  done.
Qed.

(** The four failures the specification lists, at once: the destination
    hangs or answers 500, the event is sent and the file is unwritable. *)
Example dispatch_under_failure :
  let e := SessionStartEvent
             {| ev_id := "s-1-x"; ev_timestamp := 1; ev_sessionId := "s"; ev_cwd := "/" |}
             "startup" in
  let w := world_after (Adapter.setupVibecraftIntegration (adapter_on "/readonly/events.jsonl"))
             (Adapter.initial "/work") in
  let broken d :=
    {| Date_now := 5; Math_random_36 := "0.abcdefghij";
       JSON_stringify := λ _, Some "{}";
       destination := d; response_text := None; process_cwd := "/";
       fs_import := true; fs_appendFile := false |} in
  outcome (Adapter.dispatch e (broken Hangs)) w = Normal tt ∧
  outcome (Adapter.dispatch e (broken (Responds 3 500))) w = Normal tt ∧
  outcome (Adapter.dispatch e (broken (Responds 2500 200))) w = Normal tt ∧
  outcome (Adapter.dispatch e (broken Unreachable)) w = Normal tt ∧
  appends (Adapter.io (world_after (Adapter.dispatch e (broken Unreachable)) w)) = [].
Proof. vm_compute. repeat split. Qed.

(** ** C5: the disabled integration *)

Lemma adapter_disabled_send_skipped event env w :
  Adapter.enabled (Adapter.config w) = false →
  Adapter.sendToVibecraft event env w = (Normal (Fulfilled tt), w).
Proof. intros Hoff. unfold Adapter.sendToVibecraft. run_M. by rewrite Hoff. Qed.

Lemma adapter_no_path_append_skipped event env w :
  Adapter.eventsFilePath (Adapter.config w) = "" →
  Adapter.appendToEventsFile event env w = (Normal (Fulfilled tt), w).
Proof. intros Hpath. unfold Adapter.appendToEventsFile. run_M. by rewrite Hpath. Qed.

(** With [enabled = false] the adapter issues no request, and the
    integration's dispatch does nothing at all. *)
Lemma disabled_dispatch_sends_nothing event env wa wi :
  Adapter.enabled (Adapter.config wa) = false →
  Integration.enabled (Integration.options wi) = false →
  posts (Adapter.io (world_after (Adapter.dispatch event env) wa)) = posts (Adapter.io wa) ∧
  Integration.dispatch event env wi = (Normal tt, wi).
Proof.
  intros Ha Hi. split.
  - unfold world_after, Adapter.dispatch, bind.
    rewrite adapter_disabled_send_skipped by exact Ha. simpl.
    destruct wa as [dflt cfg un tbl hst l0].
    unfold Adapter.appendToEventsFile, Adapter.stringify, Adapter.logDebug,
      Adapter.logError.
    run_M. repeat (case_match; run_M; simplify_eq/=); reflexivity.
  - unfold Integration.dispatch, Integration.sendEvent. run_M. by rewrite Hi.
Qed.

(** C5 fails on the adapter.  [appendToEventsFile] tests the file path and
    not [config.enabled]: once a listener is subscribed, a second setup
    with [enabled: false] and a file path leaves that listener in place,
    and the dispatch of the next event writes the file while the
    integration is configured off. *)
Theorem C5_disabled_adapter_still_appends :
  let w1 := world_after (Adapter.setupVibecraftIntegration (adapter_on ""))
              (Adapter.initial "/work") in
  let w2 := world_after (Adapter.setupVibecraftIntegration (adapter_off "/tmp/events.jsonl"))
              w1 in
  let evt := sample_event "lifecycle" "start" None (Some "main") 1000 in
  let e := SessionStartEvent
             {| ev_id := "main-1700000000000-k3j2h1g"; ev_timestamp := 1000;
                ev_sessionId := "main"; ev_cwd := "/work" |} "startup" in
  Adapter.enabled (Adapter.config w2) = false ∧
  elements (AgentEvents.listeners (Adapter.host w2)) = [0%nat] ∧
  outcome (Adapter.transformAgentEvent evt sample_env) w2 = Normal (Some e) ∧
  posts (Adapter.io (world_after (Adapter.dispatch e sample_env) w2)) = [] ∧
  appends (Adapter.io (world_after (Adapter.dispatch e sample_env) w2))
    = [("/tmp/events.jsonl", "{type:session_start}" +:+ newline)] ∧
  appends (Adapter.io (world_after (Adapter.listener evt sample_env) w2))
    = [("/tmp/events.jsonl", "{type:session_start}" +:+ newline)].
Proof. vm_compute. repeat split. Qed.

(** ** C7: teardown *)

Lemma adapter_transform_effect evt env w :
  ∃ r t, Adapter.transformAgentEvent evt env w
         = (Normal r, Adapter.set_toolUseStartTime t w).
Proof.
  destruct w as [dflt cfg un tbl hst l0].
  run_transform; do 2 eexists; reflexivity.
Qed.

Lemma integration_transform_effect evt env w :
  ∃ r t, Integration.transformEvent evt env w
         = (Normal r, Integration.set_toolStartTimes t w).
Proof.
  destruct w as [dflt cfg un tbl hst l0].
  run_transform; do 2 eexists; reflexivity.
Qed.

Lemma adapter_listener_effect evt env w :
  ∃ t l, Adapter.listener evt env w
         = (Normal tt, Adapter.set_io l (Adapter.set_toolUseStartTime t w)).
Proof.
  unfold Adapter.listener, bind.
  destruct (adapter_transform_effect evt env w) as (r & t & ->).
  destruct r as [e|].
  - destruct (adapter_dispatch_settles e env (Adapter.set_toolUseStartTime t w)) as [l ->].
    eauto.
  - exists t, (Adapter.io w). by destruct w.
Qed.

Lemma integration_listener_effect evt env w :
  ∃ t l, Integration.listener evt env w
         = (Normal tt, Integration.set_io l (Integration.set_toolStartTimes t w)).
Proof.
  unfold Integration.listener, bind.
  destruct (integration_transform_effect evt env w) as (r & t & ->).
  destruct r as [e|].
  - destruct (integration_dispatch_settles e env (Integration.set_toolStartTimes t w)) as [l ->].
    eauto.
  - exists t, (Integration.io w). by destruct w.
Qed.

Lemma adapter_deliver_effect evts w :
  ∃ t l, Adapter.deliver evts w
         = (Normal tt, Adapter.set_io l (Adapter.set_toolUseStartTime t w)).
Proof.
  revert w. induction evts as [|[evt env] rest IH]; intros w.
  - exists (Adapter.toolUseStartTime w), (Adapter.io w). by destruct w.
  - cbn [Adapter.deliver]. unfold bind.
    destruct (adapter_listener_effect evt env w) as (t1 & l1 & ->).
    destruct (IH (Adapter.set_io l1 (Adapter.set_toolUseStartTime t1 w))) as (t2 & l2 & ->).
    exists t2, l2. by destruct w.
Qed.

Lemma integration_deliver_effect evts w :
  ∃ t l, Integration.deliver evts w
         = (Normal tt, Integration.set_io l (Integration.set_toolStartTimes t w)).
Proof.
  revert w. induction evts as [|[evt env] rest IH]; intros w.
  - exists (Integration.toolStartTimes w), (Integration.io w). by destruct w.
  - cbn [Integration.deliver]. unfold bind.
    destruct (integration_listener_effect evt env w) as (t1 & l1 & ->).
    destruct (IH (Integration.set_io l1 (Integration.set_toolStartTimes t1 w))) as (t2 & l2 & ->).
    exists t2, l2. by destruct w.
Qed.

Lemma adapter_setup_effect userConfig w :
  ∃ l, Adapter.setupVibecraftIntegration userConfig w =
       if Adapter.enabled (Adapter.merge (Adapter.defaults w) userConfig) then
         (Normal Adapter.CleanupIntegration,
          Adapter.set_io l
            (Adapter.set_unsubscribeAgentEvents
               (Some (AgentEvents.next_listener (Adapter.host w)))
               (Adapter.set_host (snd (AgentEvents.onAgentEvent (Adapter.host w)))
                  (Adapter.set_config (Adapter.merge (Adapter.defaults w) userConfig) w))))
       else
         (Normal Adapter.Noop,
          Adapter.set_io l
            (Adapter.set_config (Adapter.merge (Adapter.defaults w) userConfig) w)).
Proof.
  destruct w as [dflt cfg un tbl hst l0].
  unfold Adapter.setupVibecraftIntegration, Adapter.logDebug. run_M.
  destruct userConfig as [[[]|] ? ? ? [[]|]], dflt as [[] ? ? ? []];
    simpl; eexists; reflexivity.
Qed.

Lemma adapter_call_cleanup_effect w :
  ∃ l, Adapter.call Adapter.CleanupIntegration w =
       (Normal tt,
        Adapter.set_io l
          (Adapter.set_toolUseStartTime ∅
             (Adapter.set_unsubscribeAgentEvents None
                (Adapter.set_host
                   (match Adapter.unsubscribeAgentEvents w with
                    | Some sub => AgentEvents.unsubscribe sub (Adapter.host w)
                    | None => Adapter.host w
                    end) w)))).
Proof.
  destruct w as [dflt cfg un tbl hst l0].
  unfold Adapter.call, Adapter.logDebug. run_M.
  destruct (Adapter.debug cfg), un; simpl; eexists; reflexivity.
Qed.

Lemma adapter_teardown_twice userConfig evts wa :
  ∃ f w1,
    Adapter.setupVibecraftIntegration userConfig wa = (Normal f, w1) ∧
    let sub := AgentEvents.next_listener (Adapter.host wa) in
    let w2 := world_after (Adapter.deliver evts) w1 in
    let w3 := world_after (Adapter.call f) w2 in
    let w4 := world_after (Adapter.call f) w3 in
    outcome (Adapter.call f) w2 = Normal tt ∧
    outcome (Adapter.call f) w3 = Normal tt ∧
    (Adapter.enabled (Adapter.config w1) = true →
       sub ∈ AgentEvents.listeners (Adapter.host w2) ∧
       Adapter.toolUseStartTime w3 = ∅ ∧
       (sub ∉ AgentEvents.listeners (Adapter.host w3)) ∧
       Adapter.toolUseStartTime w4 = ∅ ∧
       (sub ∉ AgentEvents.listeners (Adapter.host w4))) ∧
    (Adapter.enabled (Adapter.config w1) = false →
       f = Adapter.Noop ∧ w4 = w2).
Proof.
  destruct (adapter_setup_effect userConfig wa) as [l0 Hsetup].
  destruct (Adapter.enabled (Adapter.merge (Adapter.defaults wa) userConfig)) eqn:Hon;
    do 2 eexists; (split; [exact Hsetup|]); cbv zeta; unfold world_after, outcome.
  - match goal with |- context [Adapter.deliver evts ?w] =>
      destruct (adapter_deliver_effect evts w) as (t & l & ->) end.
    cbn [fst snd].
    match goal with |- context [Adapter.call _ ?w] =>
      destruct (adapter_call_cleanup_effect w) as (l3 & ->) end.
    cbn [fst snd].
    match goal with |- context [Adapter.call _ ?w] =>
      destruct (adapter_call_cleanup_effect w) as (l4 & ->) end.
    destruct wa as [dflt cfg un tbl hst io0]. simpl in *.
    split; [done|]. split; [done|]. split; [|congruence].
    intros _. repeat split; try done.
    + apply elem_of_union_l, elem_of_singleton. reflexivity.
    + intros [_ Hn]%elem_of_difference. apply Hn, elem_of_singleton. reflexivity.
    + intros [_ Hn]%elem_of_difference. apply Hn, elem_of_singleton. reflexivity.
  - match goal with |- context [Adapter.deliver evts ?w] =>
      destruct (adapter_deliver_effect evts w) as (t & l & ->) end.
    destruct wa as [dflt cfg un tbl hst io0]. simpl in *.
    repeat split; try done; congruence.
Qed.

Lemma integration_setup_effect userOptions env w :
  ∃ l, Integration.enableVibecraft userOptions env w =
       if Integration.enabled (Integration.merge (Integration.defaults w) userOptions) then
         (Normal Integration.CleanupIntegration,
          Integration.set_io l
            (Integration.set_unsubscribe
               (Some (AgentEvents.next_listener (Integration.host w)))
               (Integration.set_host (snd (AgentEvents.onAgentEvent (Integration.host w)))
                  (Integration.set_options
                     (Integration.merge (Integration.defaults w) userOptions) w))))
       else
         (Normal Integration.Noop,
          Integration.set_io l
            (Integration.set_options
               (Integration.merge (Integration.defaults w) userOptions) w)).
Proof.
  destruct w as [dflt cfg un tbl hst l0].
  unfold Integration.enableVibecraft, Integration.logDebug. run_M.
  destruct userOptions as [[[]|] ? [[]|] ?], dflt as [[] ? [] ?]; simpl;
    try (eexists; reflexivity);
    match goal with |- context [Integration.dispatch ?e ?env ?w] =>
      destruct (integration_dispatch_settles e env w) as [? ->] end;
    simpl; eexists; reflexivity.
Qed.

Lemma integration_call_cleanup_effect w :
  ∃ l, Integration.call Integration.CleanupIntegration w =
       (Normal tt,
        Integration.set_io l
          (Integration.set_toolStartTimes ∅
             (Integration.set_unsubscribe None
                (Integration.set_host
                   (match Integration.unsubscribe w with
                    | Some sub => AgentEvents.unsubscribe sub (Integration.host w)
                    | None => Integration.host w
                    end) w)))).
Proof.
  destruct w as [dflt cfg un tbl hst l0].
  unfold Integration.call, Integration.logDebug. run_M.
  destruct (Integration.debug cfg), un; simpl; eexists; reflexivity.
Qed.

Lemma integration_teardown_twice userOptions env evts wi :
  ∃ f w1,
    Integration.enableVibecraft userOptions env wi = (Normal f, w1) ∧
    let sub := AgentEvents.next_listener (Integration.host wi) in
    let w2 := world_after (Integration.deliver evts) w1 in
    let w3 := world_after (Integration.call f) w2 in
    let w4 := world_after (Integration.call f) w3 in
    outcome (Integration.call f) w2 = Normal tt ∧
    outcome (Integration.call f) w3 = Normal tt ∧
    (Integration.enabled (Integration.options w1) = true →
       sub ∈ AgentEvents.listeners (Integration.host w2) ∧
       Integration.toolStartTimes w3 = ∅ ∧
       (sub ∉ AgentEvents.listeners (Integration.host w3)) ∧
       Integration.toolStartTimes w4 = ∅ ∧
       (sub ∉ AgentEvents.listeners (Integration.host w4))) ∧
    (Integration.enabled (Integration.options w1) = false →
       f = Integration.Noop ∧ w4 = w2).
Proof.
  destruct (integration_setup_effect userOptions env wi) as [l0 Hsetup].
  destruct (Integration.enabled (Integration.merge (Integration.defaults wi) userOptions))
    eqn:Hon;
    do 2 eexists; (split; [exact Hsetup|]); cbv zeta; unfold world_after, outcome.
  - match goal with |- context [Integration.deliver evts ?w] =>
      destruct (integration_deliver_effect evts w) as (t & l & ->) end.
    cbn [fst snd].
    match goal with |- context [Integration.call _ ?w] =>
      destruct (integration_call_cleanup_effect w) as (l3 & ->) end.
    cbn [fst snd].
    match goal with |- context [Integration.call _ ?w] =>
      destruct (integration_call_cleanup_effect w) as (l4 & ->) end.
    destruct wi as [dflt cfg un tbl hst io0]. simpl in *.
    split; [done|]. split; [done|]. split; [|congruence].
    intros _. repeat split; try done.
    + apply elem_of_union_l, elem_of_singleton. reflexivity.
    + intros [_ Hn]%elem_of_difference. apply Hn, elem_of_singleton. reflexivity.
    + intros [_ Hn]%elem_of_difference. apply Hn, elem_of_singleton. reflexivity.
  - match goal with |- context [Integration.deliver evts ?w] =>
      destruct (integration_deliver_effect evts w) as (t & l & ->) end.
    destruct wi as [dflt cfg un tbl hst io0]. simpl in *.
    repeat split; try done; congruence.
Qed.

(** C7 as stated fails: after an enabled setup has recorded a start, a
    setup with [enabled: false] returns [() => {}]; calling it twice
    leaves the recorded start in the table and the earlier subscription
    in place. *)
Lemma C7_noop_teardown_counterexample :
  let w1 := world_after (Adapter.setupVibecraftIntegration (adapter_on ""))
              (Adapter.initial "/work") in
  let w2 := world_after
              (Adapter.deliver [(sample_event "tool" "pre" (Some "t1") None 1000, sample_env)])
              w1 in
  let w3 := world_after (Adapter.setupVibecraftIntegration (adapter_off "")) w2 in
  let w4 := world_after (Adapter.call Adapter.Noop) w3 in
  let w5 := world_after (Adapter.call Adapter.Noop) w4 in
  outcome (Adapter.setupVibecraftIntegration (adapter_off "")) w2 = Normal Adapter.Noop ∧
  Adapter.toolUseStartTime w5 !! "t1" = Some 1000 ∧
  Adapter.toolUseStartTime w5 ≠ ∅ ∧
  elements (AgentEvents.listeners (Adapter.host w5)) = [0%nat].
Proof.
  vm_compute. repeat split; try reflexivity.
  intros H. discriminate H.
Qed.

(** * Further properties of the transformers *)

(** X1.  For an event of the error stream the transformers return a
    notification of type "error" and leave the world as it was.  Its
    message is the payload's error when that is a non-empty string, and
    otherwise the fallback of the module. *)
Theorem X1_error_stream_is_notification
    (evt : AgentEvents.AgentEventPayload) (env : Ambient)
    (wa : Adapter.World) (wi : Integration.World) :
  AgentEvents.stream evt = "error" →
  (∃ base msg,
     Adapter.transformAgentEvent evt env wa
       = (Normal (Some (NotificationEvent base msg "error")), wa) ∧
     (∀ s, AgentEvents.error (AgentEvents.data evt) = Some s → s ≠ "" → msg = s) ∧
     (AgentEvents.error (AgentEvents.data evt) = None ∨
      AgentEvents.error (AgentEvents.data evt) = Some "" → msg = "Unknown error")) ∧
  (∃ base msg,
     Integration.transformEvent evt env wi
       = (Normal (Some (NotificationEvent base msg "error")), wi) ∧
     (∀ s, AgentEvents.error (AgentEvents.data evt) = Some s → s ≠ "" → msg = s) ∧
     (AgentEvents.error (AgentEvents.data evt) = None ∨
      AgentEvents.error (AgentEvents.data evt) = Some "" → msg = "未知错误")).
Proof.
  intros Hs.
  assert (∀ fallback,
    (∀ s, AgentEvents.error (AgentEvents.data evt) = Some s → s ≠ "" →
          str_or (AgentEvents.error (AgentEvents.data evt)) fallback = s) ∧
    (AgentEvents.error (AgentEvents.data evt) = None ∨
     AgentEvents.error (AgentEvents.data evt) = Some "" →
     str_or (AgentEvents.error (AgentEvents.data evt)) fallback = fallback)) as Hmsg.
  { intros fallback. unfold str_or. split.
    - intros s -> Hne. by destruct (String.eqb_spec s "").
    - by intros [-> | ->]. }
  split; do 2 eexists; (split; [|apply Hmsg]); run_transform; reflexivity.
Qed.

Lemma X1_error_stream_is_notification_witness :
  ∃ base,
    Adapter.transformAgentEvent
        (sample_payload "error" None None (Some "boom") 1) sample_env (Adapter.initial "/work")
      = (Normal (Some (NotificationEvent base "boom" "error")), Adapter.initial "/work").
Proof.
  destruct (X1_error_stream_is_notification
              (sample_payload "error" None None (Some "boom") 1) sample_env
              (Adapter.initial "/work") (Integration.initial "/work") eq_refl)
    as [(base & msg & Hrun & Hsome & _) _].
  exists base. rewrite Hrun. by rewrite (Hsome "boom" eq_refl).
Defined.

(** X2.  For a lifecycle event in its end phase the transformers return a
    stop event whose [stopHookActive] is false and whose response is the
    payload's result, absent when the payload has none; the world is left
    as it was. *)
Theorem X2_lifecycle_end_is_stop
    (evt : AgentEvents.AgentEventPayload) (env : Ambient)
    (wa : Adapter.World) (wi : Integration.World) :
  AgentEvents.stream evt = "lifecycle" →
  AgentEvents.phase (AgentEvents.data evt) = Some "end" →
  (∃ base, Adapter.transformAgentEvent evt env wa
           = (Normal (Some (StopEvent base false
                              (AgentEvents.result (AgentEvents.data evt)))), wa)) ∧
  (∃ base, Integration.transformEvent evt env wi
           = (Normal (Some (StopEvent base false
                              (AgentEvents.result (AgentEvents.data evt)))), wi)).
Proof. intros Hs Hp. split; eexists; run_transform; reflexivity. Qed.

Lemma X2_lifecycle_end_is_stop_witness :
  ∃ base,
    Adapter.transformAgentEvent
        (sample_payload "lifecycle" (Some "end") (Some (JStr "done")) None 1) sample_env
        (Adapter.initial "/work")
      = (Normal (Some (StopEvent base false (Some (JStr "done")))), Adapter.initial "/work").
Proof.
  exact (proj1 (X2_lifecycle_end_is_stop
                  (sample_payload "lifecycle" (Some "end") (Some (JStr "done")) None 1)
                  sample_env (Adapter.initial "/work") (Integration.initial "/work")
                  eq_refl eq_refl)).
Defined.

(** X3.  An event of the lifecycle stream whose phase is neither start nor
    end, and an event of the tool stream whose phase is neither pre nor
    post (a missing phase included), is dropped: the transformers return
    no record and leave the world as it was. *)
Theorem X3_unknown_phase_is_dropped
    (evt : AgentEvents.AgentEventPayload) (env : Ambient)
    (wa : Adapter.World) (wi : Integration.World) :
  (AgentEvents.stream evt = "lifecycle" ∧
   AgentEvents.phase (AgentEvents.data evt) ≠ Some "start" ∧
   AgentEvents.phase (AgentEvents.data evt) ≠ Some "end") ∨
  (AgentEvents.stream evt = "tool" ∧
   AgentEvents.phase (AgentEvents.data evt) ≠ Some "pre" ∧
   AgentEvents.phase (AgentEvents.data evt) ≠ Some "post") →
  Adapter.transformAgentEvent evt env wa = (Normal None, wa) ∧
  Integration.transformEvent evt env wi = (Normal None, wi).
Proof. intros [(Hs & H1 & H2) | (Hs & H1 & H2)]; split; run_transform. Qed.

Lemma X3_unknown_phase_is_dropped_witness :
  Adapter.transformAgentEvent (sample_payload "tool" None None None 1) sample_env
    (Adapter.initial "/work") = (Normal None, Adapter.initial "/work") ∧
  Integration.transformEvent (sample_payload "tool" None None None 1) sample_env
    (Integration.initial "/work") = (Normal None, Integration.initial "/work").
Proof.
  apply (X3_unknown_phase_is_dropped (sample_payload "tool" None None None 1)).
  right. repeat split; discriminate.
Defined.

Lemma adapter_transform_pre evt env w :
  is_tool_pre evt →
  outcome (Adapter.transformAgentEvent evt env) w =
    Normal (Some (PreToolUseEvent
       {| ev_id := generateEventId env (resolveSessionId evt);
          ev_timestamp := AgentEvents.ts evt;
          ev_sessionId := resolveSessionId evt;
          ev_cwd := Adapter.cwd (Adapter.config w) |}
       (AgentEvents.toolName (AgentEvents.data evt))
       (val_or_empty (AgentEvents.params (AgentEvents.data evt)))
       (resolveToolUseId evt)
       (AgentEvents.assistantText (AgentEvents.data evt)))).
Proof. intros [Hs Hp]. run_transform. Qed.

Lemma integration_transform_pre evt env w :
  is_tool_pre evt →
  outcome (Integration.transformEvent evt env) w =
    Normal (Some (PreToolUseEvent
       {| ev_id := generateEventId env (resolveSessionId evt);
          ev_timestamp := AgentEvents.ts evt;
          ev_sessionId := resolveSessionId evt;
          ev_cwd := Integration.cwd (Integration.options w) |}
       (AgentEvents.toolName (AgentEvents.data evt))
       (val_or_empty (AgentEvents.params (AgentEvents.data evt)))
       (resolveToolUseId evt)
       (AgentEvents.assistantText (AgentEvents.data evt)))).
Proof. intros [Hs Hp]. run_transform. Qed.

(** X4.  For a pre-phase tool event the transformers return a
    pre_tool_use record, and afterwards the correlation table maps the
    toolUseId carried by that record to the timestamp carried by that
    record, every other key being as before.  The toolUseId is the
    payload's when the payload has a non-empty one. *)
Theorem X4_pre_records_its_own_start
    (evt : AgentEvents.AgentEventPayload) (env : Ambient)
    (wa : Adapter.World) (wi : Integration.World) :
  is_tool_pre evt →
  (∃ e id,
     outcome (Adapter.transformAgentEvent evt env) wa = Normal (Some e) ∧
     ev_type e = "pre_tool_use" ∧ ev_toolUseId e = Some id ∧
     (∀ s, AgentEvents.toolUseId (AgentEvents.data evt) = Some s → s ≠ "" → id = s) ∧
     let table := Adapter.toolUseStartTime
                    (world_after (Adapter.transformAgentEvent evt env) wa) in
     table !! id = Some (ev_timestamp (ev_base e)) ∧
     ∀ k, k ≠ id → table !! k = Adapter.toolUseStartTime wa !! k) ∧
  (∃ e id,
     outcome (Integration.transformEvent evt env) wi = Normal (Some e) ∧
     ev_type e = "pre_tool_use" ∧ ev_toolUseId e = Some id ∧
     (∀ s, AgentEvents.toolUseId (AgentEvents.data evt) = Some s → s ≠ "" → id = s) ∧
     let table := Integration.toolStartTimes
                    (world_after (Integration.transformEvent evt env) wi) in
     table !! id = Some (ev_timestamp (ev_base e)) ∧
     ∀ k, k ≠ id → table !! k = Integration.toolStartTimes wi !! k).
Proof.
  intros Hpre.
  assert (∀ s, AgentEvents.toolUseId (AgentEvents.data evt) = Some s → s ≠ "" →
               resolveToolUseId evt = s) as Hid.
  { intros s Hs Hne. unfold resolveToolUseId, str_or. rewrite Hs.
    by destruct (String.eqb_spec s ""). }
  split; do 2 eexists.
  - rewrite adapter_transform_pre by exact Hpre.
    split; [reflexivity|]. split; [reflexivity|]. split; [reflexivity|].
    split; [exact Hid|]. cbv zeta.
    rewrite adapter_transform_table_pre by exact Hpre. simpl. split.
    + apply lookup_insert_eq.
    + intros k Hk. by apply lookup_insert_ne.
  - rewrite integration_transform_pre by exact Hpre.
    split; [reflexivity|]. split; [reflexivity|]. split; [reflexivity|].
    split; [exact Hid|]. cbv zeta.
    rewrite integration_transform_table_pre by exact Hpre. simpl. split.
    + apply lookup_insert_eq.
    + intros k Hk. by apply lookup_insert_ne.
Qed.

Lemma X4_pre_records_its_own_start_witness :
  ∃ e,
    outcome (Adapter.transformAgentEvent
               (sample_event "tool" "pre" (Some "t1") None 1000) sample_env)
      (Adapter.initial "/work") = Normal (Some e) ∧
    ev_toolUseId e = Some "t1" ∧
    Adapter.toolUseStartTime
      (world_after (Adapter.transformAgentEvent
                      (sample_event "tool" "pre" (Some "t1") None 1000) sample_env)
         (Adapter.initial "/work")) !! "t1" = Some 1000.
Proof.
  destruct (X4_pre_records_its_own_start
              (sample_event "tool" "pre" (Some "t1") None 1000) sample_env
              (Adapter.initial "/work") (Integration.initial "/work"))
    as [(e & id & Hrun & _ & Hid & Hpayload & Htable & _) _].
  - split; reflexivity.
  - assert (id = "t1") as -> by (apply Hpayload; [reflexivity | discriminate]).
    exists e. split; [exact Hrun|]. split; [exact Hid|].
    rewrite Htable. vm_compute in Hrun. by injection Hrun as <-.
Defined.

Lemma adapter_transform_base evt env w e :
  outcome (Adapter.transformAgentEvent evt env) w = Normal (Some e) →
  ev_base e =
    {| ev_id := generateEventId env (resolveSessionId evt);
       ev_timestamp := AgentEvents.ts evt;
       ev_sessionId := resolveSessionId evt;
       ev_cwd := Adapter.cwd (Adapter.config w) |}.
Proof. run_transform; intros [= <-]; reflexivity. Qed.

Lemma integration_transform_base evt env w e :
  outcome (Integration.transformEvent evt env) w = Normal (Some e) →
  ev_base e =
    {| ev_id := generateEventId env (resolveSessionId evt);
       ev_timestamp := AgentEvents.ts evt;
       ev_sessionId := resolveSessionId evt;
       ev_cwd := Integration.cwd (Integration.options w) |}.
Proof. run_transform; intros [= <-]; reflexivity. Qed.

(** X5.  Every record a transformer returns carries the timestamp of the
    source event and the working directory of the configuration, and its
    id is its own session id, the reading of the clock and the seven
    characters after "0." of the random number, joined by "-". *)
Theorem X5_base_fields_of_every_record
    (evt : AgentEvents.AgentEventPayload) (env : Ambient)
    (wa : Adapter.World) (wi : Integration.World) (e : VibecraftEvent) :
  (outcome (Adapter.transformAgentEvent evt env) wa = Normal (Some e) →
   ev_timestamp (ev_base e) = AgentEvents.ts evt ∧
   ev_cwd (ev_base e) = Adapter.cwd (Adapter.config wa) ∧
   ev_id (ev_base e) =
     ev_sessionId (ev_base e) +:+ "-" +:+ pretty (Date_now env) +:+ "-" +:+
     slice 2 9 (Math_random_36 env)) ∧
  (outcome (Integration.transformEvent evt env) wi = Normal (Some e) →
   ev_timestamp (ev_base e) = AgentEvents.ts evt ∧
   ev_cwd (ev_base e) = Integration.cwd (Integration.options wi) ∧
   ev_id (ev_base e) =
     ev_sessionId (ev_base e) +:+ "-" +:+ pretty (Date_now env) +:+ "-" +:+
     slice 2 9 (Math_random_36 env)).
Proof.
  split; intros He.
  - by rewrite (adapter_transform_base _ _ _ _ He).
  - by rewrite (integration_transform_base _ _ _ _ He).
Qed.

Lemma X5_base_fields_of_every_record_witness :
  ∃ e,
    outcome (Adapter.transformAgentEvent
               (sample_event "lifecycle" "start" None (Some "main") 1000) sample_env)
      (Adapter.initial "/work") = Normal (Some e) ∧
    ev_timestamp (ev_base e) = 1000 ∧
    ev_cwd (ev_base e) = "/work" ∧
    ev_id (ev_base e) = "main-1700000000000-k3j2h1g".
Proof.
  eexists. split; [reflexivity|].
  destruct (proj1 (X5_base_fields_of_every_record
                     (sample_event "lifecycle" "start" None (Some "main") 1000) sample_env
                     (Adapter.initial "/work") (Integration.initial "/work") _) eq_refl)
    as (Hts & Hcwd & Hid).
  split; [exact Hts|]. split; [exact Hcwd|]. rewrite Hid. reflexivity.
Defined.

(** X6.  Whatever the table holds, a duration on a returned record comes
    from the table: if the record has a duration [d], the event is a
    post-phase tool event, the table has a non-zero start [t] for its
    toolUseId, and [d = evt.ts - t]. *)
Theorem X6_duration_comes_from_recorded_start
    (evt : AgentEvents.AgentEventPayload) (env : Ambient)
    (wa : Adapter.World) (wi : Integration.World) (e : VibecraftEvent) (d : Z) :
  ev_duration e = Some d →
  (outcome (Adapter.transformAgentEvent evt env) wa = Normal (Some e) →
   is_tool_post evt ∧
   ∃ t, Adapter.toolUseStartTime wa !! resolveToolUseId evt = Some t ∧
        t ≠ 0 ∧ d = AgentEvents.ts evt - t) ∧
  (outcome (Integration.transformEvent evt env) wi = Normal (Some e) →
   is_tool_post evt ∧
   ∃ t, Integration.toolStartTimes wi !! resolveToolUseId evt = Some t ∧
        t ≠ 0 ∧ d = AgentEvents.ts evt - t).
Proof.
  intros Hd.
  assert (∀ o, durationSince o (AgentEvents.ts evt) = Some d →
               ∃ t, o = Some t ∧ t ≠ 0 ∧ d = AgentEvents.ts evt - t) as Hsince.
  { intros [t|]; unfold durationSince; [|discriminate].
    destruct (Z.eqb_spec t 0); [discriminate|]. intros [= <-]. eauto. }
  split; intros He.
  - destruct (decide (AgentEvents.stream evt = "tool" ∧
                      AgentEvents.phase (AgentEvents.data evt) = Some "post")) as [Hpost|Hn].
    + split; [exact Hpost|]. unfold outcome in He.
      rewrite adapter_transform_post in He by exact Hpost.
      simpl in He. injection He as <-. simpl in Hd. by apply Hsince.
    + exfalso. revert He. run_transform; intros He; simplify_eq/=; tauto.
  - destruct (decide (AgentEvents.stream evt = "tool" ∧
                      AgentEvents.phase (AgentEvents.data evt) = Some "post")) as [Hpost|Hn].
    + split; [exact Hpost|]. unfold outcome in He.
      rewrite integration_transform_post in He by exact Hpost.
      simpl in He. injection He as <-. simpl in Hd. by apply Hsince.
    + exfalso. revert He. run_transform; intros He; simplify_eq/=; tauto.
Qed.

Lemma X6_duration_comes_from_recorded_start_witness :
  let pre := sample_event "tool" "pre" (Some "t1") None 1000 in
  let post := sample_event "tool" "post" (Some "t1") None 1450 in
  let w1 := world_after (Adapter.transformAgentEvent pre sample_env) (Adapter.initial "/work") in
  is_tool_post post ∧
  ∃ t, Adapter.toolUseStartTime w1 !! resolveToolUseId post = Some t ∧
       t ≠ 0 ∧ 450 = AgentEvents.ts post - t.
Proof.
  intros pre post w1.
  refine (proj1 (X6_duration_comes_from_recorded_start post sample_env w1
                   (Integration.initial "/work")
                   (PostToolUseEvent
                      {| ev_id := "run-1-1700000000000-k3j2h1g"; ev_timestamp := 1450;
                         ev_sessionId := "run-1"; ev_cwd := "/work" |}
                      (Some "Read") (JObj [("path", JStr "package.json")]) (JObj [])
                      "t1" true (Some 450))
                   450 _) _);
    reflexivity.
Defined.

(** ** Synthesised tool ids *)

Lemma synthesised_ids_differ (pre post : AgentEvents.AgentEventPayload) :
  no_payload_toolUseId pre →
  no_payload_toolUseId post →
  resolveSessionId pre = resolveSessionId post →
  AgentEvents.seq pre ≠ AgentEvents.seq post →
  resolveToolUseId pre ≠ resolveToolUseId post.
Proof.
  intros Hpre Hpost Hsession Hseq Heq. apply Hseq.
  assert (∀ evt, no_payload_toolUseId evt →
                 resolveToolUseId evt =
                 resolveSessionId evt +:+ "-" +:+ pretty (AgentEvents.seq evt)) as Hsyn.
  { intros evt [H|H]; unfold resolveToolUseId; by rewrite H. }
  rewrite (Hsyn pre Hpre), (Hsyn post Hpost), Hsession in Heq.
  apply (inj (String.app _)) in Heq.
  apply (inj (String.app _)) in Heq.
  by apply (inj pretty) in Heq.
Qed.

(** X7.  When neither payload carries a toolUseId, the ids are
    synthesised from the session id and the sequence number, so a pre and
    a post event of one session with different sequence numbers get
    different ids: the post event transformed after the pre event finds
    whatever the table held for its own id before, and has no duration
    when that was nothing. *)
Theorem X7_synthesised_ids_do_not_correlate
    (pre post : AgentEvents.AgentEventPayload) (env_pre env_post : Ambient)
    (wa : Adapter.World) (wi : Integration.World) :
  is_tool_pre pre →
  is_tool_post post →
  no_payload_toolUseId pre →
  no_payload_toolUseId post →
  resolveSessionId pre = resolveSessionId post →
  AgentEvents.seq pre ≠ AgentEvents.seq post →
  resolveToolUseId pre ≠ resolveToolUseId post ∧
  (Adapter.toolUseStartTime wa !! resolveToolUseId post = None →
   ev_duration <$>
     produced (outcome (Adapter.transformAgentEvent post env_post)
                 (world_after (Adapter.transformAgentEvent pre env_pre) wa))
     = Some None) ∧
  (Integration.toolStartTimes wi !! resolveToolUseId post = None →
   ev_duration <$>
     produced (outcome (Integration.transformEvent post env_post)
                 (world_after (Integration.transformEvent pre env_pre) wi))
     = Some None).
Proof.
  intros Hpre Hpost Hnpre Hnpost Hsession Hseq.
  pose proof (synthesised_ids_differ pre post Hnpre Hnpost Hsession Hseq) as Hne.
  split; [exact Hne|]. split; intros Hnone; unfold outcome.
  - rewrite adapter_transform_post by exact Hpost. simpl.
    rewrite adapter_transform_table_pre by exact Hpre.
    by rewrite lookup_insert_ne, Hnone.
  - rewrite integration_transform_post by exact Hpost. simpl.
    rewrite integration_transform_table_pre by exact Hpre.
    by rewrite lookup_insert_ne, Hnone.
Qed.

Lemma X7_synthesised_ids_do_not_correlate_witness :
  let pre := sample_payload "tool" (Some "pre") None None 7 in
  let post := sample_payload "tool" (Some "post") None None 8 in
  resolveToolUseId pre = "main-7" ∧ resolveToolUseId post = "main-8" ∧
  ev_duration <$>
    produced (outcome (Adapter.transformAgentEvent post sample_env)
                (world_after (Adapter.transformAgentEvent pre sample_env)
                   (Adapter.initial "/work")))
    = Some None.
Proof.
  intros pre post. split; [reflexivity|]. split; [reflexivity|].
  refine (proj1 (proj2 (X7_synthesised_ids_do_not_correlate pre post sample_env sample_env
                          (Adapter.initial "/work") (Integration.initial "/work")
                          _ _ _ _ _ _)) _);
    try (split; reflexivity); try (left; reflexivity); try reflexivity.
  discriminate.
Defined.

(** ** Teardown and the table *)

(** X8.  After the cleanup closure has run, the start times recorded
    before it are gone: a post-phase tool event transformed next has no
    duration, whatever was recorded for its toolUseId. *)
Theorem X8_no_duration_after_cleanup
    (post : AgentEvents.AgentEventPayload) (env : Ambient)
    (wa : Adapter.World) (wi : Integration.World) :
  is_tool_post post →
  ev_duration <$>
    produced (outcome (Adapter.transformAgentEvent post env)
                (world_after (Adapter.call Adapter.CleanupIntegration) wa))
    = Some None ∧
  ev_duration <$>
    produced (outcome (Integration.transformEvent post env)
                (world_after (Integration.call Integration.CleanupIntegration) wi))
    = Some None.
Proof.
  intros Hpost. unfold outcome, world_after. split.
  - destruct (adapter_call_cleanup_effect wa) as [l ->].
    rewrite adapter_transform_post by exact Hpost.
    destruct wa. simpl. by rewrite lookup_empty.
  - destruct (integration_call_cleanup_effect wi) as [l ->].
    rewrite integration_transform_post by exact Hpost.
    destruct wi. simpl. by rewrite lookup_empty.
Qed.

Lemma X8_no_duration_after_cleanup_witness :
  let pre := sample_event "tool" "pre" (Some "t1") None 1000 in
  let post := sample_event "tool" "post" (Some "t1") None 1450 in
  let w1 := world_after (Adapter.transformAgentEvent pre sample_env) (adapter_enabled_world "") in
  Adapter.toolUseStartTime w1 !! "t1" = Some 1000 ∧
  ev_duration <$>
    produced (outcome (Adapter.transformAgentEvent post sample_env)
                (world_after (Adapter.call Adapter.CleanupIntegration) w1))
    = Some None.
Proof.
  intros pre post w1. split; [reflexivity|].
  refine (proj1 (X8_no_duration_after_cleanup post sample_env w1
                   (Integration.initial "/work") _)).
  split; reflexivity.
Defined.

(** * Further properties of the deliveries *)

Ltac run_delivery_in w :=
  destruct w as [dflt cfg un tbl hst l0];
  unfold Adapter.sendToVibecraft, Adapter.appendToEventsFile, Adapter.stringify,
    Adapter.fetch, Adapter.logDebug, Adapter.logError,
    Integration.sendEvent, Integration.stringify, Integration.fetch,
    Integration.logDebug, fetch_outcome;
  run_M;
  repeat (case_match; run_M; simplify_eq/=).

(** What one call of [sendToVibecraft] adds to the log. *)
Lemma adapter_send_io event env w :
  ∃ l, Adapter.sendToVibecraft event env w = (Normal (Fulfilled tt), Adapter.set_io l w) ∧
       appends l = appends (Adapter.io w) ∧
       posts l = (posts (Adapter.io w) ++
                 (if Adapter.enabled (Adapter.config w) then
                    match JSON_stringify env event with
                    | Some body => [(Adapter.serverUrl (Adapter.config w), body)]
                    | None => []
                    end
                  else []))%list.
Proof.
  run_delivery_in w;
    eexists; (split; [reflexivity|]); simpl; rewrite ?app_nil_r;
    repeat split; try done; intros; simplify_eq/=; try done; congruence.
Qed.

Lemma integration_send_io event env w :
  ∃ l, Integration.sendEvent event env w = (Normal (Fulfilled tt), Integration.set_io l w) ∧
       appends l = appends (Integration.io w) ∧
       (Integration.debug (Integration.options w) = false →
        console l = console (Integration.io w)) ∧
       posts l = (posts (Integration.io w) ++
                 (if Integration.enabled (Integration.options w) then
                    match JSON_stringify env event with
                    | Some body => [(Integration.serverUrl (Integration.options w), body)]
                    | None => []
                    end
                  else []))%list.
Proof.
  run_delivery_in w;
    eexists; (split; [reflexivity|]); simpl; rewrite ?app_nil_r;
    repeat split; try done; intros; simplify_eq/=; try done; congruence.
Qed.

Lemma adapter_append_io event env w :
  ∃ l, Adapter.appendToEventsFile event env w = (Normal (Fulfilled tt), Adapter.set_io l w) ∧
       posts l = posts (Adapter.io w) ∧
       appends l = (appends (Adapter.io w) ++
                   (if String.eqb (Adapter.eventsFilePath (Adapter.config w)) "" then []
                    else match append_succeeds env event with
                         | Some s => [(Adapter.eventsFilePath (Adapter.config w), s +:+ newline)]
                         | None => []
                         end))%list ∧
       (String.eqb (Adapter.eventsFilePath (Adapter.config w)) "" = false →
        append_succeeds env event = None →
        console l = (console (Adapter.io w) ++
                    ["[vibecraft-adapter] ERROR: Failed to write to events file"])%list).
Proof.
  unfold append_succeeds.
  run_delivery_in w;
    eexists; (split; [reflexivity|]); simpl; rewrite ?app_nil_r;
    repeat split; try done; intros; simplify_eq/=; try done; congruence.
Qed.

(** X9.  With the integration enabled, one call of [sendToVibecraft] (of
    [sendEvent]) issues exactly one request, to the configured server URL
    and with the serialised event as body, whatever the destination then
    does; when the event cannot be serialised it issues none. *)
Theorem X9_send_issues_one_request
    (event : VibecraftEvent) (env : Ambient)
    (wa : Adapter.World) (wi : Integration.World) :
  Adapter.enabled (Adapter.config wa) = true →
  Integration.enabled (Integration.options wi) = true →
  let pa := posts (Adapter.io (world_after (Adapter.sendToVibecraft event env) wa)) in
  let pi := posts (Integration.io (world_after (Integration.sendEvent event env) wi)) in
  (∀ body, JSON_stringify env event = Some body →
     pa = (posts (Adapter.io wa) ++ [(Adapter.serverUrl (Adapter.config wa), body)])%list ∧
     pi = (posts (Integration.io wi) ++
           [(Integration.serverUrl (Integration.options wi), body)])%list) ∧
  (JSON_stringify env event = None →
     pa = posts (Adapter.io wa) ∧ pi = posts (Integration.io wi)).
Proof.
  intros Ha Hi pa pi. subst pa pi. unfold world_after.
  destruct (adapter_send_io event env wa) as (la & -> & _ & Hpa).
  destruct (integration_send_io event env wi) as (li & -> & _ & _ & Hpi).
  rewrite Ha in Hpa. rewrite Hi in Hpi.
  destruct wa, wi. simpl in *. rewrite Hpa, Hpi. split.
  - by intros body ->.
  - intros ->. by rewrite !app_nil_r.
Qed.

Lemma X9_send_issues_one_request_witness :
  posts (Adapter.io (world_after
           (Adapter.sendToVibecraft sample_start
              {| Date_now := 5; Math_random_36 := "0.abcdefghij";
                 JSON_stringify := λ _, Some "{}";
                 destination := Unreachable; response_text := None; process_cwd := "/";
                 fs_import := true; fs_appendFile := true |})
           (adapter_enabled_world "")))
    = [("http://localhost:4003/event", "{}")].
Proof.
  refine (proj1 (proj1 (X9_send_issues_one_request sample_start
                          {| Date_now := 5; Math_random_36 := "0.abcdefghij";
                             JSON_stringify := λ _, Some "{}";
                             destination := Unreachable; response_text := None;
                             process_cwd := "/";
                             fs_import := true; fs_appendFile := true |}
                          (adapter_enabled_world "")
                          (world_after (Integration.enableVibecraft (integration_options true)
                                          sample_env) (Integration.initial "/work"))
                          _ _) "{}" _));
    reflexivity.
Defined.

(** X10.  With an events file configured, [appendToEventsFile] issues no
    request.  When the file system module loads, the event serialises and
    the write succeeds, it appends exactly the serialised event followed
    by a newline; when any of the three fails it appends nothing and
    prints one error line, also with [debug] off. *)
Theorem X10_append_writes_one_line_or_reports
    (event : VibecraftEvent) (env : Ambient) (wa : Adapter.World) :
  Adapter.eventsFilePath (Adapter.config wa) ≠ "" →
  let w' := world_after (Adapter.appendToEventsFile event env) wa in
  posts (Adapter.io w') = posts (Adapter.io wa) ∧
  (∀ s, fs_import env = true → fs_appendFile env = true →
        JSON_stringify env event = Some s →
        appends (Adapter.io w') =
          (appends (Adapter.io wa) ++
           [(Adapter.eventsFilePath (Adapter.config wa), s +:+ newline)])%list) ∧
  (fs_import env = false ∨ fs_appendFile env = false ∨ JSON_stringify env event = None →
   appends (Adapter.io w') = appends (Adapter.io wa) ∧
   console (Adapter.io w') =
     (console (Adapter.io wa) ++
      ["[vibecraft-adapter] ERROR: Failed to write to events file"])%list).
Proof.
  intros Hpath w'. subst w'. unfold world_after.
  destruct (adapter_append_io event env wa) as (l & -> & Hposts & Happ & Hcons).
  assert (String.eqb (Adapter.eventsFilePath (Adapter.config wa)) "" = false) as Hne
    by (by apply String.eqb_neq).
  rewrite Hne in Happ. specialize (Hcons Hne).
  destruct wa as [dflt cfg un tbl hst l0]. simpl in *.
  split; [exact Hposts|]. split.
  - intros s Himp Hwr Hjson. rewrite Happ. unfold append_succeeds.
    by rewrite Himp, Hwr, Hjson.
  - intros Hfail.
    assert (append_succeeds env event = None) as Hnone.
    { unfold append_succeeds. destruct Hfail as [Hf|[Hf|Hf]]; rewrite Hf;
        [done | by rewrite andb_false_r | by destruct (_ && _)]. }
    split; [|by apply Hcons]. by rewrite Happ, Hnone, app_nil_r.
Qed.

Lemma X10_append_writes_one_line_or_reports_witness :
  let env :=
    {| Date_now := 5; Math_random_36 := "0.abcdefghij";
       JSON_stringify := λ _, Some "{}";
       destination := Unreachable; response_text := None; process_cwd := "/";
       fs_import := true; fs_appendFile := false |} in
  let w' := world_after (Adapter.appendToEventsFile sample_start env)
              (adapter_enabled_world "/readonly/events.jsonl") in
  appends (Adapter.io w') = [] ∧
  console (Adapter.io w') = ["[vibecraft-adapter] ERROR: Failed to write to events file"].
Proof.
  intros env w'.
  refine (proj2 (proj2 (X10_append_writes_one_line_or_reports sample_start env
                          (adapter_enabled_world "/readonly/events.jsonl") _)) _).
  - discriminate.
  - right. left. reflexivity.
Defined.

(** ** Deliveries of a run of events *)

Lemma adapter_listener_io evt env w :
  ∃ t l, Adapter.listener evt env w
           = (Normal tt, Adapter.set_io l (Adapter.set_toolUseStartTime t w)) ∧
         (length (posts l) ≤ length (posts (Adapter.io w)) + 1)%nat ∧
         (length (appends l) ≤ length (appends (Adapter.io w)) + 1)%nat.
Proof.
  unfold Adapter.listener, bind.
  destruct (adapter_transform_effect evt env w) as (r & t & ->).
  destruct r as [e|].
  - unfold Adapter.dispatch, bind.
    destruct (adapter_send_io e env (Adapter.set_toolUseStartTime t w))
      as (l1 & -> & Ha1 & Hp1). simpl.
    match goal with |- context [Adapter.appendToEventsFile e env ?w1] =>
      destruct (adapter_append_io e env w1) as (l2 & -> & Hp2 & Ha2 & _) end.
    simpl. exists t, l2. destruct w as [dflt cfg un tbl hst l0]. simpl in *.
    split; [reflexivity|].
    rewrite Hp2, Hp1, Ha2, Ha1, !length_app.
    repeat case_match; simpl; lia.
  - exists t, (Adapter.io w). destruct w. simpl. split; [reflexivity|lia].
Qed.

Lemma integration_listener_io evt env w :
  ∃ t l, Integration.listener evt env w
           = (Normal tt, Integration.set_io l (Integration.set_toolStartTimes t w)) ∧
         (length (posts l) ≤ length (posts (Integration.io w)) + 1)%nat ∧
         appends l = appends (Integration.io w) ∧
         (Integration.debug (Integration.options w) = false →
          console l = console (Integration.io w)).
Proof.
  unfold Integration.listener, bind.
  destruct (integration_transform_effect evt env w) as (r & t & ->).
  destruct r as [e|].
  - unfold Integration.dispatch, bind.
    destruct (integration_send_io e env (Integration.set_toolStartTimes t w))
      as (l1 & -> & Ha1 & Hc1 & Hp1). simpl.
    exists t, l1. destruct w as [dflt cfg un tbl hst l0]. simpl in *.
    split; [reflexivity|]. split; [|done].
    rewrite Hp1, !length_app. repeat case_match; simpl; lia.
  - exists t, (Integration.io w). destruct w. simpl.
    split; [reflexivity|]. split; [lia|done].
Qed.

Lemma adapter_deliver_io evts w :
  ∃ t l, Adapter.deliver evts w
           = (Normal tt, Adapter.set_io l (Adapter.set_toolUseStartTime t w)) ∧
         (length (posts l) ≤ length (posts (Adapter.io w)) + length evts)%nat ∧
         (length (appends l) ≤ length (appends (Adapter.io w)) + length evts)%nat.
Proof.
  revert w. induction evts as [|[evt env] rest IH]; intros w.
  - exists (Adapter.toolUseStartTime w), (Adapter.io w). destruct w. simpl.
    split; [reflexivity|lia].
  - cbn [Adapter.deliver]. unfold bind.
    destruct (adapter_listener_io evt env w) as (t1 & l1 & -> & Hp1 & Ha1).
    destruct (IH (Adapter.set_io l1 (Adapter.set_toolUseStartTime t1 w)))
      as (t2 & l2 & -> & Hp2 & Ha2).
    exists t2, l2. destruct w. simpl in *. split; [reflexivity|lia].
Qed.

Lemma integration_deliver_io evts w :
  ∃ t l, Integration.deliver evts w
           = (Normal tt, Integration.set_io l (Integration.set_toolStartTimes t w)) ∧
         (length (posts l) ≤ length (posts (Integration.io w)) + length evts)%nat ∧
         appends l = appends (Integration.io w) ∧
         (Integration.debug (Integration.options w) = false →
          console l = console (Integration.io w)).
Proof.
  revert w. induction evts as [|[evt env] rest IH]; intros w.
  - exists (Integration.toolStartTimes w), (Integration.io w). destruct w. simpl.
    split; [reflexivity|]. split; [lia|done].
  - cbn [Integration.deliver]. unfold bind.
    destruct (integration_listener_io evt env w) as (t1 & l1 & -> & Hp1 & Ha1 & Hc1).
    destruct (IH (Integration.set_io l1 (Integration.set_toolStartTimes t1 w)))
      as (t2 & l2 & -> & Hp2 & Ha2 & Hc2).
    exists t2, l2. destruct w. simpl in *.
    split; [reflexivity|]. split; [lia|]. split; [congruence|].
    intros Hdbg. rewrite Hc2, Hc1; done.
Qed.

(** X11.  Delivering a run of events makes at most one request and
    appends at most one line per event: nothing is retried, whatever the
    destination and the file system answer.  The integration module never
    writes a file. *)
Theorem X11_at_most_one_delivery_per_event
    (evts : list (AgentEvents.AgentEventPayload * Ambient))
    (wa : Adapter.World) (wi : Integration.World) :
  let wa' := world_after (Adapter.deliver evts) wa in
  let wi' := world_after (Integration.deliver evts) wi in
  (length (posts (Adapter.io wa')) ≤ length (posts (Adapter.io wa)) + length evts)%nat ∧
  (length (appends (Adapter.io wa')) ≤ length (appends (Adapter.io wa)) + length evts)%nat ∧
  (length (posts (Integration.io wi')) ≤ length (posts (Integration.io wi)) + length evts)%nat ∧
  appends (Integration.io wi') = appends (Integration.io wi).
Proof.
  intros wa' wi'. subst wa' wi'. unfold world_after.
  destruct (adapter_deliver_io evts wa) as (ta & la & -> & Hpa & Haa).
  destruct (integration_deliver_io evts wi) as (ti & li & -> & Hpi & Hai & _).
  destruct wa, wi. simpl in *. done.
Qed.

(** X12.  With [debug] off the integration module prints nothing: the
    console is the same after a run of events was delivered and after the
    cleanup closure was called, whatever failed on the way. *)
Theorem X12_integration_is_silent_without_debug
    (evts : list (AgentEvents.AgentEventPayload * Ambient))
    (f : Integration.Cleanup) (wi : Integration.World) :
  Integration.debug (Integration.options wi) = false →
  console (Integration.io (world_after (Integration.deliver evts) wi))
    = console (Integration.io wi) ∧
  console (Integration.io (world_after (Integration.call f) wi))
    = console (Integration.io wi).
Proof.
  intros Hdbg. unfold world_after. split.
  - destruct (integration_deliver_io evts wi) as (t & l & -> & _ & _ & Hc).
    destruct wi. simpl in *. by apply Hc.
  - destruct f, wi as [dflt cfg un tbl hst l0]; [reflexivity|].
    simpl in Hdbg. unfold Integration.call, Integration.logDebug. run_M.
    rewrite Hdbg. by destruct un.
Qed.

Lemma X12_integration_is_silent_without_debug_witness :
  let failing :=
    {| Date_now := 5; Math_random_36 := "0.abcdefghij";
       JSON_stringify := λ _, None;
       destination := Hangs; response_text := None; process_cwd := "/";
       fs_import := false; fs_appendFile := false |} in
  let evts := [(sample_event "tool" "pre" (Some "t1") None 1000, failing);
               (sample_event "tool" "post" (Some "t1") None 1450, sample_env)] in
  console (Integration.io (world_after (Integration.deliver evts) integration_enabled_world))
    = [] ∧
  posts (Integration.io (world_after (Integration.deliver evts) integration_enabled_world))
    = [("http://localhost:4003/event", "{type:notification}");
       ("http://localhost:4003/event", "{type:post_tool_use}")].
Proof.
  intros failing evts. split; [|reflexivity].
  refine (proj1 (X12_integration_is_silent_without_debug evts Integration.Noop
                   integration_enabled_world _)).
  reflexivity.
Defined.

(** * Further properties of setup and teardown *)

Lemma subscription_survives (n : nat) (L : gset nat) :
  n ∈ ({[S n]} ∪ ({[n]} ∪ L)) ∖ {[S n]} ∧ (S n ∉ ({[S n]} ∪ ({[n]} ∪ L)) ∖ {[S n]}).
Proof.
  split.
  - apply elem_of_difference. split.
    + apply elem_of_union_r, elem_of_union_l, elem_of_singleton. reflexivity.
    + rewrite elem_of_singleton. lia.
  - intros [_ Hn]%elem_of_difference. apply Hn, elem_of_singleton. reflexivity.
Qed.

(** X13.  The cleanup closures read the module's one [unsubscribe]
    variable.  After two enabled setups in a row, the closure returned by
    the first cancels the subscription of the second; the subscription of
    the first stays, the variable is null, and calling the closure of the
    second setup afterwards still leaves that first subscription in
    place. *)
Theorem X13_second_setup_orphans_the_first_subscription
    (c1 c2 : Adapter.VibecraftAdapterConfig)
    (o1 o2 : Integration.VibecraftIntegrationOptions) (env1 env2 : Ambient)
    (wa : Adapter.World) (wi : Integration.World) :
  Adapter.enabled (Adapter.merge (Adapter.defaults wa) c1) = true →
  Adapter.enabled (Adapter.merge (Adapter.defaults wa) c2) = true →
  Integration.enabled (Integration.merge (Integration.defaults wi) o1) = true →
  Integration.enabled (Integration.merge (Integration.defaults wi) o2) = true →
  (∃ f1 w1 f2 w2,
     Adapter.setupVibecraftIntegration c1 wa = (Normal f1, w1) ∧
     Adapter.setupVibecraftIntegration c2 w1 = (Normal f2, w2) ∧
     let n := AgentEvents.next_listener (Adapter.host wa) in
     let w3 := world_after (Adapter.call f1) w2 in
     let w4 := world_after (Adapter.call f2) w3 in
     n ∈ AgentEvents.listeners (Adapter.host w3) ∧
     (S n ∉ AgentEvents.listeners (Adapter.host w3)) ∧
     Adapter.unsubscribeAgentEvents w3 = None ∧
     n ∈ AgentEvents.listeners (Adapter.host w4)) ∧
  (∃ f1 w1 f2 w2,
     Integration.enableVibecraft o1 env1 wi = (Normal f1, w1) ∧
     Integration.enableVibecraft o2 env2 w1 = (Normal f2, w2) ∧
     let n := AgentEvents.next_listener (Integration.host wi) in
     let w3 := world_after (Integration.call f1) w2 in
     let w4 := world_after (Integration.call f2) w3 in
     n ∈ AgentEvents.listeners (Integration.host w3) ∧
     (S n ∉ AgentEvents.listeners (Integration.host w3)) ∧
     Integration.unsubscribe w3 = None ∧
     n ∈ AgentEvents.listeners (Integration.host w4)).
Proof.
  intros Ha1 Ha2 Hi1 Hi2. split.
  - destruct (adapter_setup_effect c1 wa) as [l1 H1]. rewrite Ha1 in H1.
    match type of H1 with _ = (_, ?w1) =>
      destruct (adapter_setup_effect c2 w1) as [l2 H2] end.
    assert (∀ l u h c, Adapter.defaults
              (Adapter.set_io l (Adapter.set_unsubscribeAgentEvents u
                 (Adapter.set_host h (Adapter.set_config c wa)))) = Adapter.defaults wa)
      as Hdef by (by destruct wa).
    rewrite Hdef, Ha2 in H2.
    do 4 eexists. split; [exact H1|]. split; [exact H2|]. cbv zeta. unfold world_after.
    match goal with |- context [Adapter.call _ ?w] =>
      destruct (adapter_call_cleanup_effect w) as (l3 & ->) end.
    cbn [fst snd].
    match goal with |- context [Adapter.call _ ?w] =>
      destruct (adapter_call_cleanup_effect w) as (l4 & ->) end.
    destruct wa as [dflt cfg un tbl hst io0]. simpl.
    pose proof (subscription_survives (AgentEvents.next_listener hst)
                  (AgentEvents.listeners hst)) as [Hin Hout].
    done.
  - destruct (integration_setup_effect o1 env1 wi) as [l1 H1]. rewrite Hi1 in H1.
    match type of H1 with _ = (_, ?w1) =>
      destruct (integration_setup_effect o2 env2 w1) as [l2 H2] end.
    assert (∀ l u h c, Integration.defaults
              (Integration.set_io l (Integration.set_unsubscribe u
                 (Integration.set_host h (Integration.set_options c wi))))
              = Integration.defaults wi)
      as Hdef by (by destruct wi).
    rewrite Hdef, Hi2 in H2.
    do 4 eexists. split; [exact H1|]. split; [exact H2|]. cbv zeta. unfold world_after.
    match goal with |- context [Integration.call _ ?w] =>
      destruct (integration_call_cleanup_effect w) as (l3 & ->) end.
    cbn [fst snd].
    match goal with |- context [Integration.call _ ?w] =>
      destruct (integration_call_cleanup_effect w) as (l4 & ->) end.
    destruct wi as [dflt cfg un tbl hst io0]. simpl.
    pose proof (subscription_survives (AgentEvents.next_listener hst)
                  (AgentEvents.listeners hst)) as [Hin Hout].
    done.
Qed.

Lemma X13_second_setup_orphans_the_first_subscription_witness :
  let w2 := world_after (Adapter.setupVibecraftIntegration (adapter_on ""))
              (adapter_enabled_world "") in
  let w3 := world_after (Adapter.call Adapter.CleanupIntegration) w2 in
  let w4 := world_after (Adapter.call Adapter.CleanupIntegration) w3 in
  size (AgentEvents.listeners (Adapter.host w2)) = 2%nat ∧
  0%nat ∈ AgentEvents.listeners (Adapter.host w3) ∧
  0%nat ∈ AgentEvents.listeners (Adapter.host w4).
Proof.
  intros w2 w3 w4. split; [vm_compute; reflexivity|].
  destruct (X13_second_setup_orphans_the_first_subscription
              (adapter_on "") (adapter_on "")
              (integration_options true) (integration_options true) sample_env sample_env
              (Adapter.initial "/work") (Integration.initial "/work")
              eq_refl eq_refl eq_refl eq_refl)
    as [(f1 & w1 & f2 & w2' & H1 & H2 & Hin3 & _ & _ & Hin4) _].
  vm_compute in H1. injection H1 as <- <-.
  vm_compute in H2. injection H2 as <- <-.
  split; [exact Hin3 | exact Hin4].
Defined.

(** X14.  An enabled setup subscribes one listener.  The adapter's setup
    sends nothing; [enableVibecraft] announces itself with one request to
    the configured server URL, a notification of type "info" for the
    session "system" carrying the configured working directory.  A
    disabled setup subscribes nothing and sends nothing. *)
Theorem X14_setup_subscribes_and_announces
    (c : Adapter.VibecraftAdapterConfig) (o : Integration.VibecraftIntegrationOptions)
    (env : Ambient) (wa : Adapter.World) (wi : Integration.World) :
  let wa' := world_after (Adapter.setupVibecraftIntegration c) wa in
  let wi' := world_after (Integration.enableVibecraft o env) wi in
  let merged := Integration.merge (Integration.defaults wi) o in
  (posts (Adapter.io wa') = posts (Adapter.io wa) ∧
   appends (Adapter.io wa') = appends (Adapter.io wa)) ∧
  (Adapter.enabled (Adapter.merge (Adapter.defaults wa) c) = true →
   AgentEvents.listeners (Adapter.host wa')
     = {[AgentEvents.next_listener (Adapter.host wa)]}
       ∪ AgentEvents.listeners (Adapter.host wa)) ∧
  (Adapter.enabled (Adapter.merge (Adapter.defaults wa) c) = false →
   Adapter.host wa' = Adapter.host wa) ∧
  (Integration.enabled merged = true →
   AgentEvents.listeners (Integration.host wi')
     = {[AgentEvents.next_listener (Integration.host wi)]}
       ∪ AgentEvents.listeners (Integration.host wi) ∧
   ∃ base,
     ev_sessionId base = "system" ∧ ev_cwd base = Integration.cwd merged ∧
     posts (Integration.io wi')
       = (posts (Integration.io wi) ++
          match JSON_stringify env (NotificationEvent base "Vibecraft 集成已启用" "info") with
          | Some body => [(Integration.serverUrl merged, body)]
          | None => []
          end)%list) ∧
  (Integration.enabled merged = false →
   Integration.host wi' = Integration.host wi ∧
   posts (Integration.io wi') = posts (Integration.io wi)).
Proof.
  intros wa' wi' merged. subst wa' wi' merged. unfold world_after.
  split; [|split; [|split; [|split]]].
  - destruct wa as [dflt cfg un tbl hst l0].
    unfold Adapter.setupVibecraftIntegration, Adapter.logDebug. run_M.
    by destruct c as [[[]|] ? ? ? [[]|]], dflt as [[] ? ? ? []].
  - intros Hon. destruct (adapter_setup_effect c wa) as [l ->]. rewrite Hon.
    by destruct wa.
  - intros Hoff. destruct (adapter_setup_effect c wa) as [l ->]. rewrite Hoff.
    by destruct wa.
  - intros Hon. split.
    + destruct (integration_setup_effect o env wi) as [l ->]. rewrite Hon.
      by destruct wi.
    + destruct wi as [dflt cfg un tbl hst l0]. simpl in Hon.
      unfold Integration.enableVibecraft, Integration.logDebug. run_M.
      rewrite Hon. simpl.
      eexists {| ev_id := _; ev_timestamp := _; ev_sessionId := _; ev_cwd := _ |}.
      split; [reflexivity|]. split; [reflexivity|].
      destruct o as [oe ? [[]|] ?], dflt as [de ? [] ?]; simpl in *;
        match goal with |- context [Integration.dispatch ?e ?env ?w] =>
          unfold Integration.dispatch, bind;
          destruct (integration_send_io e env w) as (l1 & -> & _ & _ & Hp)
        end;
        simpl in *; rewrite Hp, Hon; reflexivity.
  - intros Hoff. destruct (integration_setup_effect o env wi) as [l Hl].
    rewrite Hoff in Hl. split; [rewrite Hl; by destruct wi|].
    destruct wi as [dflt cfg un tbl hst l0]. simpl in Hoff.
    unfold Integration.enableVibecraft, Integration.logDebug. run_M.
    rewrite Hoff. simpl.
    by destruct (default (Integration.debug dflt) (Integration.debug_opt o)).
Qed.

Lemma X14_setup_subscribes_and_announces_witness :
  let wi' := world_after (Integration.enableVibecraft (integration_options true) sample_env)
               (Integration.initial "/work") in
  AgentEvents.listeners (Integration.host wi') = {[0%nat]} ∪ ∅ ∧
  posts (Integration.io wi') = [("http://localhost:4003/event", "{type:notification}")].
Proof.
  intros wi'.
  destruct (X14_setup_subscribes_and_announces (adapter_on "") (integration_options true)
              sample_env (Adapter.initial "/work") (Integration.initial "/work"))
    as (_ & _ & _ & Hon & _).
  destruct (Hon eq_refl) as [Hl _]. split; [exact Hl | reflexivity].
Defined.

(** * The direct API *)

Lemma adapter_sendToolUse_io sessionId toolName params result error
    env_id env_start env_pre env_end env_post w :
  let toolUseId := generateEventId env_id sessionId in
  let dir := Adapter.cwd (Adapter.config w) in
  let pre := AdapterApi.toolUsePreEvent sessionId toolName params toolUseId
               (Date_now env_start) dir env_pre in
  let post := AdapterApi.toolUsePostEvent sessionId toolName params result error toolUseId
                (Date_now env_start) (Date_now env_end) dir env_post in
  ∃ l, AdapterApi.sendToolUse sessionId toolName params result error
         env_id env_start env_pre env_end env_post w
       = (Normal (Fulfilled tt), Adapter.set_io l w) ∧
       appends l = appends (Adapter.io w) ∧
       posts l = (posts (Adapter.io w) ++
                  if Adapter.enabled (Adapter.config w) then
                    match JSON_stringify env_pre pre with
                    | Some body => [(Adapter.serverUrl (Adapter.config w), body)]
                    | None => []
                    end ++
                    match JSON_stringify env_post post with
                    | Some body => [(Adapter.serverUrl (Adapter.config w), body)]
                    | None => []
                    end
                  else [])%list.
Proof.
  intros toolUseId dir pre post. subst toolUseId dir pre post.
  destruct w as [dflt cfg un tbl hst l0].
  unfold AdapterApi.sendToolUse, async, bind, gets. simpl.
  match goal with |- context [Adapter.sendToVibecraft ?e ?env ?w] =>
    destruct (adapter_send_io e env w) as (l1 & -> & Ha1 & Hp1) end.
  simpl in *.
  match goal with |- context [Adapter.sendToVibecraft ?e ?env ?w] =>
    destruct (adapter_send_io e env w) as (l2 & -> & Ha2 & Hp2) end.
  simpl in *. exists l2.
  split; [reflexivity|]. split; [congruence|].
  rewrite Hp2, Hp1. destruct (Adapter.enabled cfg); [|by rewrite !app_nil_r].
  by rewrite <- app_assoc.
Qed.

Lemma integration_sendToolEvent_io sessionId toolName params result error
    env_id env_start env_pre env_end env_post w :
  let toolUseId := generateEventId env_id sessionId in
  let pre := IntegrationApi.toolPreEvent sessionId toolName params toolUseId
               (Date_now env_start) env_pre in
  let post := IntegrationApi.toolPostEvent sessionId toolName params result error toolUseId
                (Date_now env_start) (Date_now env_end) env_post in
  ∃ l, IntegrationApi.sendToolEvent sessionId toolName params result error
         env_id env_start env_pre env_end env_post w
       = (Normal (Fulfilled tt), Integration.set_io l w) ∧
       posts l = (posts (Integration.io w) ++
                  if Integration.enabled (Integration.options w) then
                    match JSON_stringify env_pre pre with
                    | Some body => [(Integration.serverUrl (Integration.options w), body)]
                    | None => []
                    end ++
                    match JSON_stringify env_post post with
                    | Some body => [(Integration.serverUrl (Integration.options w), body)]
                    | None => []
                    end
                  else [])%list.
Proof.
  intros toolUseId pre post. subst toolUseId pre post.
  destruct w as [dflt cfg un tbl hst l0].
  unfold IntegrationApi.sendToolEvent, async, bind. simpl.
  match goal with |- context [Integration.sendEvent ?e ?env ?w] =>
    destruct (integration_send_io e env w) as (l1 & -> & _ & _ & Hp1) end.
  simpl in *.
  match goal with |- context [Integration.sendEvent ?e ?env ?w] =>
    destruct (integration_send_io e env w) as (l2 & -> & _ & _ & Hp2) end.
  simpl in *. exists l2.
  split; [reflexivity|].
  rewrite Hp2, Hp1. destruct (Integration.enabled cfg); [|by rewrite !app_nil_r].
  by rewrite <- app_assoc.
Qed.



Ltac settle_one_send :=
  unfold AdapterApi.sendUserPrompt, AdapterApi.sendStop,
    IntegrationApi.sendPromptEvent, IntegrationApi.sendStopEvent, async, bind, gets;
  simpl;
  first
    [ match goal with |- context [Adapter.sendToVibecraft ?e ?env ?w] =>
        destruct (adapter_send_io e env w) as (?l & -> & _ & ?Hp) end
    | match goal with |- context [Integration.sendEvent ?e ?env ?w] =>
        destruct (integration_send_io e env w) as (?l & -> & _ & _ & ?Hp) end ];
  simpl in *.

(** X16.  The functions of the direct API never reject, whatever the
    destination does and whether or not the event can be serialised.
    While the integration is disabled (as it is until a setup with
    [enabled: true]) they do nothing at all. *)
Theorem X16_direct_api_never_rejects_and_needs_enabling
    (sessionId toolName prompt : string) (params result : jsval)
    (error response : option string)
    (env_id env_start env_pre env_end env_post : Ambient)
    (wa : Adapter.World) (wi : Integration.World) :
  (outcome (AdapterApi.sendToolUse sessionId toolName params result error
              env_id env_start env_pre env_end env_post) wa = Normal (Fulfilled tt) ∧
   outcome (AdapterApi.sendUserPrompt sessionId prompt env_start env_pre) wa
     = Normal (Fulfilled tt) ∧
   outcome (AdapterApi.sendStop sessionId response env_start env_pre) wa
     = Normal (Fulfilled tt) ∧
   outcome (IntegrationApi.sendToolEvent sessionId toolName params result error
              env_id env_start env_pre env_end env_post) wi = Normal (Fulfilled tt) ∧
   outcome (IntegrationApi.sendPromptEvent sessionId prompt env_start env_pre) wi
     = Normal (Fulfilled tt) ∧
   outcome (IntegrationApi.sendStopEvent sessionId response env_start env_pre) wi
     = Normal (Fulfilled tt)) ∧
  (Adapter.enabled (Adapter.config wa) = false →
   world_after (AdapterApi.sendToolUse sessionId toolName params result error
                  env_id env_start env_pre env_end env_post) wa = wa ∧
   world_after (AdapterApi.sendUserPrompt sessionId prompt env_start env_pre) wa = wa ∧
   world_after (AdapterApi.sendStop sessionId response env_start env_pre) wa = wa) ∧
  (Integration.enabled (Integration.options wi) = false →
   world_after (IntegrationApi.sendToolEvent sessionId toolName params result error
                  env_id env_start env_pre env_end env_post) wi = wi ∧
   world_after (IntegrationApi.sendPromptEvent sessionId prompt env_start env_pre) wi = wi ∧
   world_after (IntegrationApi.sendStopEvent sessionId response env_start env_pre) wi = wi).
Proof.
  split; [|split].
  - unfold outcome.
    destruct (adapter_sendToolUse_io sessionId toolName params result error
                env_id env_start env_pre env_end env_post wa) as (? & -> & _).
    destruct (integration_sendToolEvent_io sessionId toolName params result error
                env_id env_start env_pre env_end env_post wi) as (? & -> & _).
    destruct wa as [dflt cfg un tbl hst l0], wi as [dflt' cfg' un' tbl' hst' l0'].
    repeat split; settle_one_send; reflexivity.
  - intros Hoff. unfold world_after, AdapterApi.sendToolUse, AdapterApi.sendUserPrompt,
      AdapterApi.sendStop, async, bind, gets. simpl.
    rewrite !adapter_disabled_send_skipped by exact Hoff. simpl.
    by rewrite !adapter_disabled_send_skipped by exact Hoff.
  - intros Hoff.
    assert (∀ e env, Integration.sendEvent e env wi = (Normal (Fulfilled tt), wi)) as Hskip.
    { intros e env. unfold Integration.sendEvent. run_M. by rewrite Hoff. }
    unfold world_after, IntegrationApi.sendToolEvent, IntegrationApi.sendPromptEvent,
      IntegrationApi.sendStopEvent, async, bind. simpl.
    rewrite !Hskip. simpl. by rewrite !Hskip.
Qed.

Lemma X16_direct_api_never_rejects_and_needs_enabling_witness :
  world_after (AdapterApi.sendToolUse "main" "Read" (JObj []) (JObj []) None
                 sample_env sample_env sample_env sample_env sample_env)
    (Adapter.initial "/work") = Adapter.initial "/work" ∧
  world_after (IntegrationApi.sendPromptEvent "main" "hello" sample_env sample_env)
    (Integration.initial "/work") = Integration.initial "/work".
Proof.
  destruct (X16_direct_api_never_rejects_and_needs_enabling "main" "Read" "hello"
              (JObj []) (JObj []) None None
              sample_env sample_env sample_env sample_env sample_env
              (Adapter.initial "/work") (Integration.initial "/work"))
    as (_ & Ha & Hi).
  destruct (Ha eq_refl) as (Htool & _). destruct (Hi eq_refl) as (_ & Hprompt & _).
  split; [exact Htool | exact Hprompt].
Defined.

(** * The hook-based setup *)

(** X17.  [setupVibecraftHookIntegration] is the event-based setup with
    more console output: from the same world, both leave the same
    configuration, subscription, table and listeners and issue the same
    requests and file lines, and one returns a no-op exactly when the
    other does.  The same holds of calling the closure each returned. *)
Theorem X17_hook_setup_is_the_event_setup
    (c : Adapter.VibecraftAdapterConfig) (w : Adapter.World) :
  ∃ f g wf wg,
    AdapterApi.setupVibecraftHookIntegration c w = (Normal f, wf) ∧
    Adapter.setupVibecraftIntegration c w = (Normal g, wg) ∧
    f = (if Adapter.enabled (Adapter.config wg) then AdapterApi.HookCleanupOf g
         else AdapterApi.HookNoop) ∧
    (Adapter.enabled (Adapter.config wg) = false → g = Adapter.Noop) ∧
    let same (w1 w2 : Adapter.World) :=
      Adapter.config w1 = Adapter.config w2 ∧
      Adapter.unsubscribeAgentEvents w1 = Adapter.unsubscribeAgentEvents w2 ∧
      Adapter.toolUseStartTime w1 = Adapter.toolUseStartTime w2 ∧
      Adapter.host w1 = Adapter.host w2 ∧
      posts (Adapter.io w1) = posts (Adapter.io w2) ∧
      appends (Adapter.io w1) = appends (Adapter.io w2) in
    same wf wg ∧
    outcome (AdapterApi.call f) wf = Normal tt ∧
    same (world_after (AdapterApi.call f) wf) (world_after (Adapter.call g) wg).
Proof.
  destruct w as [dflt cfg un tbl hst l0].
  unfold AdapterApi.setupVibecraftHookIntegration, Adapter.setupVibecraftIntegration,
    AdapterApi.call, Adapter.call, Adapter.logDebug.
  run_M.
  destruct c as [[[]|] ? ? ? [[]|]], dflt as [[] ? ? ? []]; simpl;
    do 4 eexists; (split; [reflexivity|]); (split; [reflexivity|]); simpl;
    repeat split; try reflexivity; discriminate.
Qed.

Lemma X17_hook_setup_is_the_event_setup_witness :
  ∃ wf wg,
    AdapterApi.setupVibecraftHookIntegration (adapter_on "") (Adapter.initial "/work")
      = (Normal (AdapterApi.HookCleanupOf Adapter.CleanupIntegration), wf) ∧
    Adapter.setupVibecraftIntegration (adapter_on "") (Adapter.initial "/work")
      = (Normal Adapter.CleanupIntegration, wg) ∧
    Adapter.host wf = Adapter.host wg.
Proof.
  destruct (X17_hook_setup_is_the_event_setup (adapter_on "") (Adapter.initial "/work"))
    as (f & g & wf & wg & Hf & Hg & Hfg & _ & (_ & _ & _ & Hhost & _) & _).
  exists wf, wg.
  assert (g = Adapter.CleanupIntegration ∧ Adapter.enabled (Adapter.config wg) = true)
    as [-> Hon].
  { vm_compute in Hg. injection Hg as <- <-. split; reflexivity. }
  rewrite Hon in Hfg. subst f. done.
Defined.

(** * The hook handlers of the plugin *)










(** X19.  The before and after tool-call handlers of the plugin take the
    toolUseId from the hook context when it has a non-empty
    [toolCallId]: the two events then carry that same id.  Without one,
    each handler makes an id from the session id and its own reading of
    the clock, so the two events carry the same id exactly when the two
    readings are equal.  The after event never carries a duration. *)
Theorem X19_plugin_tool_ids
    (before : PluginHooks.PluginHookBeforeToolCallEvent)
    (after : Plugin.PluginHookAfterToolCallEvent)
    (ctx : Plugin.HookContext) (env_id env env' : Ambient) :
  let pre := PluginHooks.beforeToolCallEvent before ctx env_id env in
  let post := Plugin.afterToolCallEvent after ctx env' in
  (∀ id, Plugin.toolCallId ctx = Some id → id ≠ "" →
         ev_toolUseId pre = Some id ∧ ev_toolUseId post = Some id) ∧
  (Plugin.toolCallId ctx = None ∨ Plugin.toolCallId ctx = Some "" →
   (ev_toolUseId pre = ev_toolUseId post ↔ Date_now env_id = Date_now env')) ∧
  ev_duration post = None.
Proof.
  intros pre post. subst pre post.
  unfold PluginHooks.beforeToolCallEvent, Plugin.afterToolCallEvent. simpl.
  split; [|split; [|reflexivity]].
  - intros id -> Hne. unfold str_or at 1 3.
    by destruct (String.eqb_spec id "").
  - intros Hnone.
    assert (∀ fallback, str_or (Plugin.toolCallId ctx) fallback = fallback) as Hsyn.
    { intros fallback. by destruct Hnone as [-> | ->]. }
    rewrite !Hsyn. split.
    + intros [= Heq].
      apply (inj (String.app _)) in Heq. apply (inj (String.app _)) in Heq.
      by apply (inj pretty) in Heq.
    + by intros ->.
Qed.

Lemma X19_plugin_tool_ids_witness :
  ev_toolUseId (PluginHooks.beforeToolCallEvent {| PluginHooks.params := None |}
                  (sample_ctx (Some "call-1")) sample_env sample_env) = Some "call-1" ∧
  ev_toolUseId (Plugin.afterToolCallEvent
                  {| Plugin.params := None; Plugin.result := None; Plugin.error := None |}
                  (sample_ctx (Some "call-1")) sample_env) = Some "call-1".
Proof.
  refine (proj1 (X19_plugin_tool_ids {| PluginHooks.params := None |}
                   {| Plugin.params := None; Plugin.result := None; Plugin.error := None |}
                   (sample_ctx (Some "call-1")) sample_env sample_env sample_env)
            "call-1" eq_refl _).
  discriminate.
Defined.

(** * Further properties of the listener *)



Lemma adapter_listener_table evt env w :
  Adapter.toolUseStartTime (world_after (Adapter.listener evt env) w)
    = Adapter.toolUseStartTime (world_after (Adapter.transformAgentEvent evt env) w).
Proof.
  unfold world_after, Adapter.listener, bind.
  destruct (adapter_transform_effect evt env w) as (r & t & ->).
  destruct r as [e|]; [|reflexivity].
  destruct (adapter_dispatch_settles e env (Adapter.set_toolUseStartTime t w)) as [l ->].
  by destruct w.
Qed.

Lemma integration_listener_table evt env w :
  Integration.toolStartTimes (world_after (Integration.listener evt env) w)
    = Integration.toolStartTimes (world_after (Integration.transformEvent evt env) w).
Proof.
  unfold world_after, Integration.listener, bind.
  destruct (integration_transform_effect evt env w) as (r & t & ->).
  destruct r as [e|]; [|reflexivity].
  destruct (integration_dispatch_settles e env (Integration.set_toolStartTimes t w)) as [l ->].
  by destruct w.
Qed.

Lemma adapter_listener_normal evt env w :
  ∃ a, outcome (Adapter.listener evt env) w = Normal a.
Proof.
  unfold outcome. destruct (adapter_listener_effect evt env w) as (t & l & ->). eauto.
Qed.

Lemma integration_listener_normal evt env w :
  ∃ a, outcome (Integration.listener evt env) w = Normal a.
Proof.
  unfold outcome. destruct (integration_listener_effect evt env w) as (t & l & ->). eauto.
Qed.

(** X21.  Entries of the correlation table are never evicted while
    events are delivered: a toolUseId that has a recorded start keeps one
    (a post event does not remove it), and the table grows by at most one
    entry per delivered event. *)
Theorem X21_table_only_grows_during_delivery
    (evts : list (AgentEvents.AgentEventPayload * Ambient))
    (wa : Adapter.World) (wi : Integration.World) :
  let ta := Adapter.toolUseStartTime (world_after (Adapter.deliver evts) wa) in
  let ti := Integration.toolStartTimes (world_after (Integration.deliver evts) wi) in
  (∀ k, is_Some (Adapter.toolUseStartTime wa !! k) → is_Some (ta !! k)) ∧
  (∀ k, is_Some (Integration.toolStartTimes wi !! k) → is_Some (ti !! k)) ∧
  (size ta ≤ size (Adapter.toolUseStartTime wa) + length evts)%nat ∧
  (size ti ≤ size (Integration.toolStartTimes wi) + length evts)%nat.
Proof.
  intros ta ti. subst ta ti.
  assert (∀ (m : gmap string Z) k v, (size (<[k:=v]> m) ≤ size m + 1)%nat) as Hsize.
  { intros m k v. destruct (m !! k) eqn:Hk.
    - rewrite map_size_insert_Some by eauto. lia.
    - rewrite map_size_insert_None by done. lia. }
  assert (∀ evts wa,
    (∀ k, is_Some (Adapter.toolUseStartTime wa !! k) →
          is_Some (Adapter.toolUseStartTime (world_after (Adapter.deliver evts) wa) !! k)) ∧
    (size (Adapter.toolUseStartTime (world_after (Adapter.deliver evts) wa))
       ≤ size (Adapter.toolUseStartTime wa) + length evts)%nat) as Ha.
  { clear wa wi evts. intros evts.
    induction evts as [|[evt env] rest IH]; intros wa.
    - unfold world_after. simpl. split; [done|lia].
    - cbn [Adapter.deliver]. rewrite world_after_seq by apply adapter_listener_normal.
      destruct (IH (world_after (Adapter.listener evt env) wa)) as [IHk IHs].
      rewrite adapter_listener_table in IHk, IHs.
      destruct (decide (AgentEvents.stream evt = "tool" ∧
                        AgentEvents.phase (AgentEvents.data evt) = Some "pre")) as [Hpre|Hn].
      + rewrite adapter_transform_table_pre in IHk, IHs by exact Hpre. split.
        * intros k Hk. apply IHk. rewrite lookup_insert_is_Some.
          destruct (decide (resolveToolUseId evt = k)); [by left | by right].
        * pose proof (Hsize (Adapter.toolUseStartTime wa) (resolveToolUseId evt)
                        (AgentEvents.ts evt)). simpl. lia.
      + rewrite adapter_transform_frame in IHk, IHs by exact Hn. split; [exact IHk|].
        simpl. lia. }
  assert (∀ evts wi,
    (∀ k, is_Some (Integration.toolStartTimes wi !! k) →
          is_Some (Integration.toolStartTimes
                     (world_after (Integration.deliver evts) wi) !! k)) ∧
    (size (Integration.toolStartTimes (world_after (Integration.deliver evts) wi))
       ≤ size (Integration.toolStartTimes wi) + length evts)%nat) as Hi.
  { clear wa wi evts Ha. intros evts.
    induction evts as [|[evt env] rest IH]; intros wi.
    - unfold world_after. simpl. split; [done|lia].
    - cbn [Integration.deliver]. rewrite world_after_seq by apply integration_listener_normal.
      destruct (IH (world_after (Integration.listener evt env) wi)) as [IHk IHs].
      rewrite integration_listener_table in IHk, IHs.
      destruct (decide (AgentEvents.stream evt = "tool" ∧
                        AgentEvents.phase (AgentEvents.data evt) = Some "pre")) as [Hpre|Hn].
      + rewrite integration_transform_table_pre in IHk, IHs by exact Hpre. split.
        * intros k Hk. apply IHk. rewrite lookup_insert_is_Some.
          destruct (decide (resolveToolUseId evt = k)); [by left | by right].
        * pose proof (Hsize (Integration.toolStartTimes wi) (resolveToolUseId evt)
                        (AgentEvents.ts evt)). simpl. lia.
      + rewrite integration_transform_frame in IHk, IHs by exact Hn. split; [exact IHk|].
        simpl. lia. }
  destruct (Ha evts wa) as [Hak Has]. destruct (Hi evts wi) as [Hik His]. done.
Qed.

Lemma X21_table_only_grows_during_delivery_witness :
  let evts := [(sample_event "tool" "pre" (Some "t1") None 1000, sample_env);
               (sample_event "tool" "post" (Some "t1") None 1450, sample_env)] in
  is_Some (Adapter.toolUseStartTime
             (world_after (Adapter.deliver evts)
                (world_after (Adapter.transformAgentEvent
                                (sample_event "tool" "pre" (Some "t0") None 900) sample_env)
                   (adapter_enabled_world ""))) !! "t0").
Proof.
  intros evts.
  refine (proj1 (X21_table_only_grows_during_delivery evts _ (Integration.initial "/work"))
            "t0" _).
  exists 900. reflexivity.
Defined.

(** * Traces: what the steps of a module do to its variables *)

Lemma adapter_transform_keeps k evt env w :
  (is_tool_pre evt → resolveToolUseId evt ≠ k) →
  Adapter.toolUseStartTime (world_after (Adapter.transformAgentEvent evt env) w) !! k
    = Adapter.toolUseStartTime w !! k.
Proof.
  intros Hk.
  destruct (decide (AgentEvents.stream evt = "tool" ∧
                    AgentEvents.phase (AgentEvents.data evt) = Some "pre")) as [Hpre|Hn].
  - rewrite adapter_transform_table_pre by exact Hpre.
    apply lookup_insert_ne. by apply Hk.
  - by rewrite adapter_transform_frame.
Qed.

Lemma integration_transform_keeps k evt env w :
  (is_tool_pre evt → resolveToolUseId evt ≠ k) →
  Integration.toolStartTimes (world_after (Integration.transformEvent evt env) w) !! k
    = Integration.toolStartTimes w !! k.
Proof.
  intros Hk.
  destruct (decide (AgentEvents.stream evt = "tool" ∧
                    AgentEvents.phase (AgentEvents.data evt) = Some "pre")) as [Hpre|Hn].
  - rewrite integration_transform_table_pre by exact Hpre.
    apply lookup_insert_ne. by apply Hk.
  - by rewrite integration_transform_frame.
Qed.

Lemma adapter_single_send_effect sessionId prompt response env_now env w :
  (∃ l, AdapterApi.sendUserPrompt sessionId prompt env_now env w
        = (Normal (Fulfilled tt), Adapter.set_io l w)) ∧
  (∃ l, AdapterApi.sendStop sessionId response env_now env w
        = (Normal (Fulfilled tt), Adapter.set_io l w)).
Proof.
  destruct w as [dflt cfg un tbl hst l0].
  split; settle_one_send; eexists; reflexivity.
Qed.

Lemma integration_single_send_effect sessionId prompt response env_now env w :
  (∃ l, IntegrationApi.sendPromptEvent sessionId prompt env_now env w
        = (Normal (Fulfilled tt), Integration.set_io l w)) ∧
  (∃ l, IntegrationApi.sendStopEvent sessionId response env_now env w
        = (Normal (Fulfilled tt), Integration.set_io l w)).
Proof.
  destruct w as [dflt cfg un tbl hst l0].
  split; settle_one_send; eexists; reflexivity.
Qed.

Lemma adapter_hook_setup_effect userConfig w :
  ∃ f l, AdapterApi.setupVibecraftHookIntegration userConfig w =
         (Normal f,
          if Adapter.enabled (Adapter.merge (Adapter.defaults w) userConfig) then
            Adapter.set_io l
              (Adapter.set_unsubscribeAgentEvents
                 (Some (AgentEvents.next_listener (Adapter.host w)))
                 (Adapter.set_host (snd (AgentEvents.onAgentEvent (Adapter.host w)))
                    (Adapter.set_config (Adapter.merge (Adapter.defaults w) userConfig) w)))
          else
            Adapter.set_io l
              (Adapter.set_config (Adapter.merge (Adapter.defaults w) userConfig) w)).
Proof.
  destruct w as [dflt cfg un tbl hst l0].
  unfold AdapterApi.setupVibecraftHookIntegration, Adapter.setupVibecraftIntegration,
    Adapter.logDebug.
  run_M.
  destruct userConfig as [[[]|] ? ? ? [[]|]], dflt as [[] ? ? ? []];
    simpl; do 2 eexists; reflexivity.
Qed.

Lemma adapter_call_effect f w :
  ∃ l, Adapter.call f w =
       (Normal tt,
        match f with
        | Adapter.Noop => Adapter.set_io l w
        | Adapter.CleanupIntegration =>
            Adapter.set_io l
              (Adapter.set_toolUseStartTime ∅
                 (Adapter.set_unsubscribeAgentEvents None
                    (Adapter.set_host
                       (match Adapter.unsubscribeAgentEvents w with
                        | Some sub => AgentEvents.unsubscribe sub (Adapter.host w)
                        | None => Adapter.host w
                        end) w)))
        end).
Proof.
  destruct f.
  - exists (Adapter.io w). by destruct w.
  - apply adapter_call_cleanup_effect.
Qed.

Lemma integration_call_effect f w :
  ∃ l, Integration.call f w =
       (Normal tt,
        match f with
        | Integration.Noop => Integration.set_io l w
        | Integration.CleanupIntegration =>
            Integration.set_io l
              (Integration.set_toolStartTimes ∅
                 (Integration.set_unsubscribe None
                    (Integration.set_host
                       (match Integration.unsubscribe w with
                        | Some sub => AgentEvents.unsubscribe sub (Integration.host w)
                        | None => Integration.host w
                        end) w)))
        end).
Proof.
  destruct f.
  - exists (Integration.io w). by destruct w.
  - apply integration_call_cleanup_effect.
Qed.

Lemma adapter_hook_call_effect f w :
  ∃ l, AdapterApi.call f w =
       (Normal tt,
        match f with
        | AdapterApi.HookNoop | AdapterApi.HookCleanupOf Adapter.Noop => Adapter.set_io l w
        | AdapterApi.HookCleanupOf Adapter.CleanupIntegration =>
            Adapter.set_io l
              (Adapter.set_toolUseStartTime ∅
                 (Adapter.set_unsubscribeAgentEvents None
                    (Adapter.set_host
                       (match Adapter.unsubscribeAgentEvents w with
                        | Some sub => AgentEvents.unsubscribe sub (Adapter.host w)
                        | None => Adapter.host w
                        end) w)))
        end).
Proof.
  destruct w as [dflt cfg un tbl hst l0].
  destruct f as [|[]]; unfold AdapterApi.call, Adapter.call, Adapter.logDebug; run_M;
    destruct (Adapter.debug cfg) eqn:Hdbg, un; simpl; rewrite ?Hdbg; simpl;
    eexists; reflexivity.
Qed.

Lemma cancelled_after_cleanup (sub : nat) (u : option nat) (h : AgentEvents.Host) :
  u = Some sub ∨ (u = None ∧ sub ∉ AgentEvents.listeners h) →
  sub ∉ AgentEvents.listeners
          (match u with
           | Some s => AgentEvents.unsubscribe s h
           | None => h
           end).
Proof.
  intros [-> | [-> Hout]]; [|exact Hout]. simpl.
  intros [_ Hn]%elem_of_difference. apply Hn, elem_of_singleton. reflexivity.
Qed.

Lemma adapter_step_effect op w :
  ∃ w', adapter_step op w = (Normal tt, w') ∧
        Adapter.defaults w' = Adapter.defaults w ∧
        (∀ k, adapter_keeps_start k op →
              Adapter.toolUseStartTime w' !! k = Adapter.toolUseStartTime w !! k) ∧
        (∀ sub, adapter_no_enabled_setup (Adapter.defaults w) op →
                adapter_holds_or_cancelled sub w → adapter_holds_or_cancelled sub w').
Proof.
  unfold adapter_holds_or_cancelled.
  destruct op as [evt env|evt env|c|c|f|f|s t p r e e1 e2 e3 e4 e5|s p e1 e2|s r e1 e2];
    unfold adapter_step, discard, bind.
  - pose proof (adapter_transform_keeps) as Hkeep. unfold world_after in Hkeep.
    destruct (adapter_transform_effect evt env w) as (r & t & H).
    eexists. rewrite H. split; [reflexivity|].
    split; [by destruct w|]. split.
    + intros k Hk. specialize (Hkeep k evt env w Hk). by rewrite H in Hkeep.
    + intros sub _. by destruct w.
  - pose proof (adapter_transform_keeps) as Hkeep.
    pose proof (adapter_listener_table evt env w) as Htable.
    unfold world_after in Hkeep, Htable.
    destruct (adapter_listener_effect evt env w) as (t & l & H).
    eexists. rewrite H. split; [reflexivity|].
    split; [by destruct w|]. split.
    + intros k Hk. specialize (Hkeep k evt env w Hk).
      rewrite H in Htable. simpl in Htable |- *. rewrite Htable. exact Hkeep.
    + intros sub _. by destruct w.
  - destruct (adapter_setup_effect c w) as [l H].
    destruct (Adapter.enabled (Adapter.merge (Adapter.defaults w) c)) eqn:Hon;
      rewrite H; eexists;
      (split; [reflexivity|]); (split; [by destruct w|]); split;
      try (intros k _; by destruct w).
    intros sub Hoff. unfold adapter_no_enabled_setup in Hoff. congruence.
  - destruct (adapter_hook_setup_effect c w) as (f & l & H).
    destruct (Adapter.enabled (Adapter.merge (Adapter.defaults w) c)) eqn:Hon;
      rewrite H; eexists;
      (split; [reflexivity|]); (split; [by destruct w|]); split;
      try (intros k _; by destruct w).
    intros sub Hoff. unfold adapter_no_enabled_setup in Hoff. congruence.
  - destruct (adapter_call_effect f w) as [l H].
    eexists. split; [exact H|]. destruct f.
    + split; [by destruct w|]. split; [intros k _; by destruct w|].
      intros sub _. by destruct w.
    + split; [by destruct w|]. split; [intros k Hk; discriminate Hk|].
      intros sub _ Hsub. right.
      pose proof (cancelled_after_cleanup sub _ (Adapter.host w) Hsub).
      by destruct w.
  - destruct (adapter_hook_call_effect f w) as [l H].
    eexists. split; [exact H|]. destruct f as [|[]].
    + split; [by destruct w|]. split; [intros k _; by destruct w|].
      intros sub _. by destruct w.
    + split; [by destruct w|]. split; [intros k _; by destruct w|].
      intros sub _. by destruct w.
    + split; [by destruct w|]. split; [intros k [Hk|Hk]; discriminate Hk|].
      intros sub _ Hsub. right.
      pose proof (cancelled_after_cleanup sub _ (Adapter.host w) Hsub).
      by destruct w.
  - destruct (adapter_sendToolUse_io s t p r e e1 e2 e3 e4 e5 w) as (l & H & _).
    eexists. rewrite H. split; [reflexivity|].
    split; [by destruct w|]. split; [intros k _; by destruct w|].
    intros sub _. by destruct w.
  - destruct (proj1 (adapter_single_send_effect s p None e1 e2 w)) as (l & H).
    eexists. rewrite H. split; [reflexivity|].
    split; [by destruct w|]. split; [intros k _; by destruct w|].
    intros sub _. by destruct w.
  - destruct (proj2 (adapter_single_send_effect s "" r e1 e2 w)) as (l & H).
    eexists. rewrite H. split; [reflexivity|].
    split; [by destruct w|]. split; [intros k _; by destruct w|].
    intros sub _. by destruct w.
Qed.

Lemma integration_step_effect op w :
  ∃ w', integration_step op w = (Normal tt, w') ∧
        Integration.defaults w' = Integration.defaults w ∧
        (∀ k, integration_keeps_start k op →
              Integration.toolStartTimes w' !! k = Integration.toolStartTimes w !! k) ∧
        (∀ sub, integration_no_enabled_setup (Integration.defaults w) op →
                integration_holds_or_cancelled sub w →
                integration_holds_or_cancelled sub w').
Proof.
  unfold integration_holds_or_cancelled.
  destruct op as [evt env|evt env|o env|f|s t p r e e1 e2 e3 e4 e5|s p e1 e2|s r e1 e2];
    unfold integration_step, discard, bind.
  - pose proof (integration_transform_keeps) as Hkeep. unfold world_after in Hkeep.
    destruct (integration_transform_effect evt env w) as (r & t & H).
    eexists. rewrite H. split; [reflexivity|].
    split; [by destruct w|]. split.
    + intros k Hk. specialize (Hkeep k evt env w Hk). by rewrite H in Hkeep.
    + intros sub _. by destruct w.
  - pose proof (integration_transform_keeps) as Hkeep.
    pose proof (integration_listener_table evt env w) as Htable.
    unfold world_after in Hkeep, Htable.
    destruct (integration_listener_effect evt env w) as (t & l & H).
    eexists. rewrite H. split; [reflexivity|].
    split; [by destruct w|]. split.
    + intros k Hk. specialize (Hkeep k evt env w Hk).
      rewrite H in Htable. simpl in Htable |- *. rewrite Htable. exact Hkeep.
    + intros sub _. by destruct w.
  - destruct (integration_setup_effect o env w) as [l H].
    destruct (Integration.enabled (Integration.merge (Integration.defaults w) o)) eqn:Hon;
      rewrite H; eexists;
      (split; [reflexivity|]); (split; [by destruct w|]); split;
      try (intros k _; by destruct w).
    intros sub Hoff. unfold integration_no_enabled_setup in Hoff. congruence.
  - destruct (integration_call_effect f w) as [l H].
    eexists. split; [exact H|]. destruct f.
    + split; [by destruct w|]. split; [intros k _; by destruct w|].
      intros sub _. by destruct w.
    + split; [by destruct w|]. split; [intros k Hk; discriminate Hk|].
      intros sub _ Hsub. right.
      pose proof (cancelled_after_cleanup sub _ (Integration.host w) Hsub).
      by destruct w.
  - destruct (integration_sendToolEvent_io s t p r e e1 e2 e3 e4 e5 w) as (l & H & _).
    eexists. rewrite H. split; [reflexivity|].
    split; [by destruct w|]. split; [intros k _; by destruct w|].
    intros sub _. by destruct w.
  - destruct (proj1 (integration_single_send_effect s p None e1 e2 w)) as (l & H).
    eexists. rewrite H. split; [reflexivity|].
    split; [by destruct w|]. split; [intros k _; by destruct w|].
    intros sub _. by destruct w.
  - destruct (proj2 (integration_single_send_effect s "" r e1 e2 w)) as (l & H).
    eexists. rewrite H. split; [reflexivity|].
    split; [by destruct w|]. split; [intros k _; by destruct w|].
    intros sub _. by destruct w.
Qed.

Lemma adapter_steps_effect ops w :
  ∃ w', adapter_steps ops w = (Normal tt, w') ∧
        Adapter.defaults w' = Adapter.defaults w ∧
        (∀ k, Forall (adapter_keeps_start k) ops →
              Adapter.toolUseStartTime w' !! k = Adapter.toolUseStartTime w !! k) ∧
        (∀ sub, Forall (adapter_no_enabled_setup (Adapter.defaults w)) ops →
                adapter_holds_or_cancelled sub w → adapter_holds_or_cancelled sub w').
Proof.
  revert w. induction ops as [|op rest IH]; intros w.
  - exists w. repeat split; done.
  - cbn [adapter_steps]. unfold bind.
    destruct (adapter_step_effect op w) as (w1 & -> & Hd1 & Hk1 & Hs1).
    destruct (IH w1) as (w2 & -> & Hd2 & Hk2 & Hs2).
    exists w2. split; [reflexivity|]. split; [congruence|]. split.
    + intros k [Hop Hrest]%Forall_cons. rewrite Hk2, Hk1; done.
    + intros sub [Hop Hrest]%Forall_cons Hsub. apply Hs2.
      * by rewrite Hd1.
      * by apply Hs1.
Qed.

Lemma integration_steps_effect ops w :
  ∃ w', integration_steps ops w = (Normal tt, w') ∧
        Integration.defaults w' = Integration.defaults w ∧
        (∀ k, Forall (integration_keeps_start k) ops →
              Integration.toolStartTimes w' !! k = Integration.toolStartTimes w !! k) ∧
        (∀ sub, Forall (integration_no_enabled_setup (Integration.defaults w)) ops →
                integration_holds_or_cancelled sub w →
                integration_holds_or_cancelled sub w').
Proof.
  revert w. induction ops as [|op rest IH]; intros w.
  - exists w. repeat split; done.
  - cbn [integration_steps]. unfold bind.
    destruct (integration_step_effect op w) as (w1 & -> & Hd1 & Hk1 & Hs1).
    destruct (IH w1) as (w2 & -> & Hd2 & Hk2 & Hs2).
    exists w2. split; [reflexivity|]. split; [congruence|]. split.
    + intros k [Hop Hrest]%Forall_cons. rewrite Hk2, Hk1; done.
    + intros sub [Hop Hrest]%Forall_cons Hsub. apply Hs2.
      * by rewrite Hd1.
      * by apply Hs1.
Qed.

Lemma adapter_steps_keep k ops w :
  Forall (adapter_keeps_start k) ops →
  Adapter.toolUseStartTime (world_after (adapter_steps ops) w) !! k
    = Adapter.toolUseStartTime w !! k.
Proof.
  intros Hops. unfold world_after.
  destruct (adapter_steps_effect ops w) as (w2 & -> & _ & Hk & _). by apply Hk.
Qed.

Lemma integration_steps_keep k ops w :
  Forall (integration_keeps_start k) ops →
  Integration.toolStartTimes (world_after (integration_steps ops) w) !! k
    = Integration.toolStartTimes w !! k.
Proof.
  intros Hops. unfold world_after.
  destruct (integration_steps_effect ops w) as (w2 & -> & _ & Hk & _). by apply Hk.
Qed.

(** ** C1: the duration of a matched pair, over any steps in between *)

(** C1, as amended.  Let [pre] and [post] be a pre-phase and a post-phase
    tool event with the same toolUseId, [pre] with a non-zero timestamp.
    Let [pre] be transformed, then let the module take any steps (the
    listener called on further events, setups, calls of returned closures,
    calls of the direct API) among which there is no transformation of a
    pre-phase tool event with that toolUseId and no call of the cleanup
    closure, then let [post] be transformed.  The record returned for
    [post] is a post_tool_use event whose duration is
    [post.ts - pre.ts].  This holds for [transformAgentEvent] of the
    adapter and for [transformEvent] of the integration. *)
Theorem C1_duration_of_matched_pair
    (pre post : AgentEvents.AgentEventPayload) (env_pre env_post : Ambient)
    (between_a : list AdapterOp) (between_i : list IntegrationOp)
    (wa : Adapter.World) (wi : Integration.World) :
  is_tool_pre pre →
  is_tool_post post →
  resolveToolUseId pre = resolveToolUseId post →
  AgentEvents.ts pre ≠ 0 →
  Forall (adapter_keeps_start (resolveToolUseId pre)) between_a →
  Forall (integration_keeps_start (resolveToolUseId pre)) between_i →
  (∃ e,
     outcome (Adapter.transformAgentEvent post env_post)
       (world_after (adapter_steps between_a)
          (world_after (Adapter.transformAgentEvent pre env_pre) wa))
       = Normal (Some e) ∧
     ev_type e = "post_tool_use" ∧
     ev_duration e = Some (AgentEvents.ts post - AgentEvents.ts pre)) ∧
  (∃ e,
     outcome (Integration.transformEvent post env_post)
       (world_after (integration_steps between_i)
          (world_after (Integration.transformEvent pre env_pre) wi))
       = Normal (Some e) ∧
     ev_type e = "post_tool_use" ∧
     ev_duration e = Some (AgentEvents.ts post - AgentEvents.ts pre)).
Proof.
  intros Hpre Hpost Hid Hts Ha Hi. split.
  - eexists. unfold outcome.
    rewrite adapter_transform_post by exact Hpost. simpl.
    split; [reflexivity|]. split; [reflexivity|].
    rewrite <- Hid, adapter_steps_keep by exact Ha.
    rewrite adapter_transform_table_pre by exact Hpre.
    rewrite lookup_insert_eq. by apply durationSince_recorded.
  - eexists. unfold outcome.
    rewrite integration_transform_post by exact Hpost. simpl.
    split; [reflexivity|]. split; [reflexivity|].
    rewrite <- Hid, integration_steps_keep by exact Hi.
    rewrite integration_transform_table_pre by exact Hpre.
    rewrite lookup_insert_eq. by apply durationSince_recorded.
Qed.

(** The scenario of the specification, pre at 1000 and post at 1450, with
    in between an unrelated tool event delivered to the listener, a second
    setup, a call of the direct API and a call of a no-op teardown. *)
Lemma C1_duration_of_matched_pair_witness :
  let pre := sample_event "tool" "pre" (Some "t1") None 1000 in
  let post := sample_event "tool" "post" (Some "t1") None 1450 in
  let between_a :=
    [AdListener (sample_event "tool" "pre" (Some "t2") None 1200) sample_env;
     AdSetup (adapter_on "/tmp/events.jsonl");
     AdSendUserPrompt "main" "hello" sample_env sample_env;
     AdCall Adapter.Noop] in
  let between_i :=
    [InListener (sample_event "tool" "pre" (Some "t2") None 1200) sample_env;
     InEnable (integration_options true) sample_env;
     InCall Integration.Noop] in
  (∃ e,
     outcome (Adapter.transformAgentEvent post sample_env)
       (world_after (adapter_steps between_a)
          (world_after (Adapter.transformAgentEvent pre sample_env) (Adapter.initial "/work")))
       = Normal (Some e) ∧
     ev_type e = "post_tool_use" ∧ ev_duration e = Some 450) ∧
  (∃ e,
     outcome (Integration.transformEvent post sample_env)
       (world_after (integration_steps between_i)
          (world_after (Integration.transformEvent pre sample_env)
             (Integration.initial "/work")))
       = Normal (Some e) ∧
     ev_type e = "post_tool_use" ∧ ev_duration e = Some 450).
Proof.
  intros pre post between_a between_i.
  apply (C1_duration_of_matched_pair pre post sample_env sample_env between_a between_i
           (Adapter.initial "/work") (Integration.initial "/work")).
  - split; reflexivity.
  - split; reflexivity.
  - reflexivity.
  - discriminate.
  - repeat constructor. simpl. discriminate.
  - repeat constructor. simpl. discriminate.
Defined.

(** The teardown clears the table: with a call of the cleanup closure
    between the two events the post event has no duration. *)
Example cleanup_between_drops_duration :
  let pre := sample_event "tool" "pre" (Some "t1") None 1000 in
  let post := sample_event "tool" "post" (Some "t1") None 1450 in
  ev_duration <$>
    produced (outcome (Adapter.transformAgentEvent post sample_env)
                (world_after (adapter_steps [AdCall Adapter.CleanupIntegration])
                   (world_after (Adapter.transformAgentEvent pre sample_env)
                      (adapter_enabled_world ""))))
    = Some None.
Proof. vm_compute. reflexivity. Qed.

(** ** C7: teardown, after any steps since the setup *)

Lemma adapter_teardown_after_steps userConfig between wa :
  ∃ f w1,
    Adapter.setupVibecraftIntegration userConfig wa = (Normal f, w1) ∧
    let sub := AgentEvents.next_listener (Adapter.host wa) in
    let w2 := world_after (adapter_steps between) w1 in
    let w3 := world_after (Adapter.call f) w2 in
    let w4 := world_after (Adapter.call f) w3 in
    outcome (Adapter.call f) w2 = Normal tt ∧
    outcome (Adapter.call f) w3 = Normal tt ∧
    (Adapter.enabled (Adapter.config w1) = true →
       sub ∈ AgentEvents.listeners (Adapter.host w1) ∧
       Adapter.toolUseStartTime w3 = ∅ ∧
       Adapter.toolUseStartTime w4 = ∅ ∧
       (Forall (adapter_no_enabled_setup (Adapter.defaults wa)) between →
          (sub ∉ AgentEvents.listeners (Adapter.host w3)) ∧
          (sub ∉ AgentEvents.listeners (Adapter.host w4)))) ∧
    (Adapter.enabled (Adapter.config w1) = false →
       f = Adapter.Noop ∧ w4 = w2).
Proof.
  destruct (adapter_setup_effect userConfig wa) as [l0 Hsetup].
  destruct (Adapter.enabled (Adapter.merge (Adapter.defaults wa) userConfig)) eqn:Hon;
    do 2 eexists; (split; [exact Hsetup|]); cbv zeta; unfold world_after, outcome.
  - match goal with |- context [adapter_steps between ?w] =>
      destruct (adapter_steps_effect between w) as (w2 & -> & Hd & _ & Hs) end.
    cbn [fst snd].
    destruct (adapter_call_cleanup_effect w2) as (l3 & ->). cbn [fst snd].
    match goal with |- context [Adapter.call _ ?w] =>
      destruct (adapter_call_cleanup_effect w) as (l4 & ->) end.
    cbn [fst snd].
    split; [done|]. split; [done|]. split.
    + intros _. split.
      { destruct wa. simpl. apply elem_of_union_l, elem_of_singleton. reflexivity. }
      split; [by destruct w2|]. split; [by destruct w2|].
      intros Hquiet.
      assert (adapter_holds_or_cancelled (AgentEvents.next_listener (Adapter.host wa)) w2)
        as Hsub.
      { apply Hs; [by destruct wa | left; by destruct wa]. }
      pose proof (cancelled_after_cleanup _ _ (Adapter.host w2) Hsub) as Hout.
      destruct w2. simpl in *. done.
    + destruct wa. simpl in *. congruence.
  - match goal with |- context [adapter_steps between ?w] =>
      destruct (adapter_steps_effect between w) as (w2 & -> & _) end.
    destruct wa as [dflt cfg un tbl hst io0]. simpl in *.
    repeat split; try done; congruence.
Qed.

Lemma integration_teardown_after_steps userOptions env between wi :
  ∃ f w1,
    Integration.enableVibecraft userOptions env wi = (Normal f, w1) ∧
    let sub := AgentEvents.next_listener (Integration.host wi) in
    let w2 := world_after (integration_steps between) w1 in
    let w3 := world_after (Integration.call f) w2 in
    let w4 := world_after (Integration.call f) w3 in
    outcome (Integration.call f) w2 = Normal tt ∧
    outcome (Integration.call f) w3 = Normal tt ∧
    (Integration.enabled (Integration.options w1) = true →
       sub ∈ AgentEvents.listeners (Integration.host w1) ∧
       Integration.toolStartTimes w3 = ∅ ∧
       Integration.toolStartTimes w4 = ∅ ∧
       (Forall (integration_no_enabled_setup (Integration.defaults wi)) between →
          (sub ∉ AgentEvents.listeners (Integration.host w3)) ∧
          (sub ∉ AgentEvents.listeners (Integration.host w4)))) ∧
    (Integration.enabled (Integration.options w1) = false →
       f = Integration.Noop ∧ w4 = w2).
Proof.
  destruct (integration_setup_effect userOptions env wi) as [l0 Hsetup].
  destruct (Integration.enabled (Integration.merge (Integration.defaults wi) userOptions))
    eqn:Hon;
    do 2 eexists; (split; [exact Hsetup|]); cbv zeta; unfold world_after, outcome.
  - match goal with |- context [integration_steps between ?w] =>
      destruct (integration_steps_effect between w) as (w2 & -> & Hd & _ & Hs) end.
    cbn [fst snd].
    destruct (integration_call_cleanup_effect w2) as (l3 & ->). cbn [fst snd].
    match goal with |- context [Integration.call _ ?w] =>
      destruct (integration_call_cleanup_effect w) as (l4 & ->) end.
    cbn [fst snd].
    split; [done|]. split; [done|]. split.
    + intros _. split.
      { destruct wi. simpl. apply elem_of_union_l, elem_of_singleton. reflexivity. }
      split; [by destruct w2|]. split; [by destruct w2|].
      intros Hquiet.
      assert (integration_holds_or_cancelled
                (AgentEvents.next_listener (Integration.host wi)) w2) as Hsub.
      { apply Hs; [by destruct wi | left; by destruct wi]. }
      pose proof (cancelled_after_cleanup _ _ (Integration.host w2) Hsub) as Hout.
      destruct w2. simpl in *. done.
    + destruct wi. simpl in *. congruence.
  - match goal with |- context [integration_steps between ?w] =>
      destruct (integration_steps_effect between w) as (w2 & -> & _) end.
    destruct wi as [dflt cfg un tbl hst io0]. simpl in *.
    repeat split; try done; congruence.
Qed.

(** C7, as amended.  The function returned by [setupVibecraftIntegration]
    (and by [enableVibecraft]) can be called twice in a row, after
    whatever steps the module took since the setup, and neither call
    fails.  When the setup was made with [enabled = true], it made a
    subscription, and after each of the two calls the correlation table is
    empty; if in addition none of the steps since was a setup with
    [enabled = true], that subscription is cancelled after each of the two
    calls.  When the setup was made with [enabled = false], the function
    returned is [() => {}] and the two calls change nothing. *)
Theorem C7_teardown_twice
    (userConfig : Adapter.VibecraftAdapterConfig)
    (userOptions : Integration.VibecraftIntegrationOptions) (env : Ambient)
    (between_a : list AdapterOp) (between_i : list IntegrationOp)
    (wa : Adapter.World) (wi : Integration.World) :
  (∃ f w1,
    Adapter.setupVibecraftIntegration userConfig wa = (Normal f, w1) ∧
    let sub := AgentEvents.next_listener (Adapter.host wa) in
    let w2 := world_after (adapter_steps between_a) w1 in
    let w3 := world_after (Adapter.call f) w2 in
    let w4 := world_after (Adapter.call f) w3 in
    outcome (Adapter.call f) w2 = Normal tt ∧
    outcome (Adapter.call f) w3 = Normal tt ∧
    (Adapter.enabled (Adapter.config w1) = true →
       sub ∈ AgentEvents.listeners (Adapter.host w1) ∧
       Adapter.toolUseStartTime w3 = ∅ ∧
       Adapter.toolUseStartTime w4 = ∅ ∧
       (Forall (adapter_no_enabled_setup (Adapter.defaults wa)) between_a →
          (sub ∉ AgentEvents.listeners (Adapter.host w3)) ∧
          (sub ∉ AgentEvents.listeners (Adapter.host w4)))) ∧
    (Adapter.enabled (Adapter.config w1) = false →
       f = Adapter.Noop ∧ w4 = w2)) ∧
  (∃ f w1,
    Integration.enableVibecraft userOptions env wi = (Normal f, w1) ∧
    let sub := AgentEvents.next_listener (Integration.host wi) in
    let w2 := world_after (integration_steps between_i) w1 in
    let w3 := world_after (Integration.call f) w2 in
    let w4 := world_after (Integration.call f) w3 in
    outcome (Integration.call f) w2 = Normal tt ∧
    outcome (Integration.call f) w3 = Normal tt ∧
    (Integration.enabled (Integration.options w1) = true →
       sub ∈ AgentEvents.listeners (Integration.host w1) ∧
       Integration.toolStartTimes w3 = ∅ ∧
       Integration.toolStartTimes w4 = ∅ ∧
       (Forall (integration_no_enabled_setup (Integration.defaults wi)) between_i →
          (sub ∉ AgentEvents.listeners (Integration.host w3)) ∧
          (sub ∉ AgentEvents.listeners (Integration.host w4)))) ∧
    (Integration.enabled (Integration.options w1) = false →
       f = Integration.Noop ∧ w4 = w2)).
Proof.
  split.
  - apply adapter_teardown_after_steps.
  - apply integration_teardown_after_steps.
Qed.

(** An enabled setup; then a pre-phase tool event is delivered, a
    disabled setup is made and its no-op teardown called, and the direct
    API is used; then the teardown of the first setup, twice. *)
Lemma C7_teardown_twice_witness :
  let between :=
    [AdListener (sample_event "tool" "pre" (Some "t1") None 1000) sample_env;
     AdSetup (adapter_off "");
     AdCall Adapter.Noop;
     AdSendStop "main" (Some "done") sample_env sample_env] in
  ∃ f w1,
    Adapter.setupVibecraftIntegration (adapter_on "") (Adapter.initial "/work")
      = (Normal f, w1) ∧
    Adapter.enabled (Adapter.config w1) = true ∧
    let w2 := world_after (adapter_steps between) w1 in
    let w3 := world_after (Adapter.call f) w2 in
    let w4 := world_after (Adapter.call f) w3 in
    Adapter.toolUseStartTime w2 !! "t1" = Some 1000 ∧
    outcome (Adapter.call f) w2 = Normal tt ∧
    outcome (Adapter.call f) w3 = Normal tt ∧
    Adapter.toolUseStartTime w3 = ∅ ∧
    (0%nat ∉ AgentEvents.listeners (Adapter.host w3)) ∧
    Adapter.toolUseStartTime w4 = ∅ ∧
    (0%nat ∉ AgentEvents.listeners (Adapter.host w4)).
Proof.
  intros between.
  destruct (C7_teardown_twice (adapter_on "") (integration_options true) sample_env
              between [] (Adapter.initial "/work") (Integration.initial "/work"))
    as [(f & w1 & Hsetup & H1 & H2 & Hon & _) _].
  exists f, w1. split; [exact Hsetup|].
  assert (Adapter.enabled (Adapter.config w1) = true) as Hen.
  { vm_compute in Hsetup. by injection Hsetup as _ <-. }
  split; [exact Hen|]. cbv zeta.
  destruct (Hon Hen) as (_ & H3 & H4 & Hquiet).
  destruct Hquiet as [H5 H6].
  { repeat constructor. }
  split; [|done].
  vm_compute in Hsetup. injection Hsetup as _ <-. reflexivity.
Defined.

(** The condition on the steps in between is needed: after a second
    enabled setup, the teardown of the first cancels the subscription of
    the second and leaves its own in place. *)
Example second_setup_between_keeps_first_subscription :
  let w1 := adapter_enabled_world "" in
  let w2 := world_after (adapter_steps [AdSetup (adapter_on "")]) w1 in
  let w3 := world_after (Adapter.call Adapter.CleanupIntegration) w2 in
  let w4 := world_after (Adapter.call Adapter.CleanupIntegration) w3 in
  elements (AgentEvents.listeners (Adapter.host w3)) = [0%nat] ∧
  elements (AgentEvents.listeners (Adapter.host w4)) = [0%nat] ∧
  Adapter.toolUseStartTime w4 = ∅.
Proof. vm_compute. repeat split. Qed.
